(** * Wire codec and group classification of hsd-style peer records

    A shallow embedding of [lib/netaddress.js] and [lib/packets.js]:
    the [NetAddress] record with its mutators, JSON form and 88-byte
    wire codec, the [groupKey] classifier, the packet type registry and
    the [VersionPacket] handshake message.

    Conventions of the embedding.
    - A [Buffer] is a [list Z] whose elements are bytes ([is_byte]);
      storing into a buffer reduces modulo 256, as a typed array does.
    - A JavaScript number is modelled at its integral values, as a [Z];
      the 32-bit conversions of the bit operators are written out.
    - A call either returns or throws ([result]).  The methods of a
      record are given twice: by the value a call returns
      ([NetAddress.fromOptions] and so on), and statement by statement
      with the receiver as a call that throws leaves it
      ([NetAddress.Stepwise]); the first is the second with the
      receiver of a throwing call forgotten.
    - [bufio] (reader and writer) and [binet] ([IP.*]) are collaborators
      of the modelled files.  The reader and writer are embedded after
      their behaviour; the writer is given by the bytes it produces
      ([bio.Sink]) and as the queue of operations that a BufferWriter
      is ([bio.BufferWriter]).  The address utility is an interface
      ([IP.Binet]) over which every definition is parametric. *)

From Stdlib Require Import ZArith Lia Ascii String.
From stdpp Require Import base option list strings.
From Equations Require Import Equations.

Local Open Scope Z_scope.

(** ** Outcomes of a call *)

Inductive exn : Type :=
  | AssertionError   (* bsert: assert(cond) with a false condition *)
  | TypeError        (* the language: property of undefined, new of a non-constructor;
                        bufio: an argument of the wrong kind, a number that is no safe integer *)
  | EncodingError    (* bufio: out of bounds read, a number read that exceeds 2^53 - 1 *)
  | AddressError.    (* binet: the string is not an address *)

Inductive result (A : Type) : Type :=
  | OK (a : A)
  | Throw (e : exn).
Arguments OK {A} a.
Arguments Throw {A} e.

#[global] Instance result_ret : MRet result := fun A a => OK a.
#[global] Instance result_bind : MBind result := fun A B f m =>
  match m with
  | OK a => f a
  | Throw e => Throw e
  end.
#[global] Instance result_fmap : FMap result := fun A B f m =>
  match m with
  | OK a => OK (f a)
  | Throw e => Throw e
  end.

Definition assert (cond : bool) : result unit :=
  if cond then OK tt else Throw AssertionError.

Definition returned {A} (m : result A) : Prop := exists a, m = OK a.
Definition thrown {A} (m : result A) : Prop := exists e, m = Throw e.

(** ** JavaScript values reaching the dynamically checked entry points *)

Inductive jsval : Type :=
  | JUndefined
  | JNull
  | JBool (b : bool)
  | JNum (n : Z)
  | JStr (s : string)
  | JBuffer (b : list Z)
  | JObject.

Definition typeof (v : jsval) : string :=
  match v with
  | JUndefined => "undefined"
  | JNull => "object"
  | JBool _ => "boolean"
  | JNum _ => "number"
  | JStr _ => "string"
  | JBuffer _ => "object"
  | JObject => "object"
  end.

(* ToBoolean *)
Definition truthy (v : jsval) : bool :=
  match v with
  | JUndefined | JNull => false
  | JBool b => b
  | JNum n => negb (n =? 0)
  | JStr s => negb (String.eqb s "")
  | JBuffer _ | JObject => true
  end.

(* v == null *)
Definition nullish (v : jsval) : bool :=
  match v with
  | JUndefined | JNull => true
  | _ => false
  end.

Definition isBuffer (v : jsval) : bool :=
  match v with
  | JBuffer _ => true
  | _ => false
  end.

(* ToInt32 and ToUint32 at an integral number *)
Definition ToInt32 (n : Z) : Z := (n + 2 ^ 31) mod 2 ^ 32 - 2 ^ 31.
Definition ToUint32 (n : Z) : Z := n mod 2 ^ 32.

(* [(v & mask) === v]: strict equality holds between two numbers only,
   so an operand that is not a number fails the test whatever its
   numeric conversion is. *)
Definition and_is_self (mask : Z) (v : jsval) : bool :=
  match v with
  | JNum n => Z.land (ToInt32 n) mask =? n
  | _ => false
  end.

(* [(v >>> 0) === v] *)
Definition ushr0_is_self (v : jsval) : bool :=
  match v with
  | JNum n => ToUint32 n =? n
  | _ => false
  end.

(* Number.isSafeInteger *)
Definition MAX_SAFE_INTEGER : Z := 2 ^ 53 - 1.
Definition isSafeInteger (n : Z) : bool :=
  (- MAX_SAFE_INTEGER <=? n) && (n <=? MAX_SAFE_INTEGER).

(** ** Buffers *)

Definition is_byte (b : Z) : Prop := 0 <= b < 256.
Definition is_bytes (bs : list Z) : Prop := Forall is_byte bs.

(* Buffer.alloc(n, fill) *)
Definition Buffer_alloc (n : Z) (fill : Z) : list Z :=
  replicate (Z.to_nat n) (fill mod 256).

(* buf[i], undefined out of range *)
Definition Buffer_get (buf : list Z) (i : Z) : option Z :=
  if i <? 0 then None else buf !! Z.to_nat i.

(* buf[i] where the value goes through ToInt32 or is stored into a
   buffer: undefined counts as 0 *)
Definition Buffer_int (buf : list Z) (i : Z) : Z :=
  default 0 (Buffer_get buf i).

(* buf[i] = v, ignored out of range *)
Definition Buffer_set (buf : list Z) (i : Z) (v : Z) : list Z :=
  if i <? 0 then buf else <[Z.to_nat i := v mod 256]> buf.

(* Buffer.prototype.compare: -1, 0 or 1 by unsigned lexicographic order *)
Fixpoint Buffer_compare (a b : list Z) : Z :=
  match a, b with
  | [], [] => 0
  | [], _ :: _ => -1
  | _ :: _, [] => 1
  | x :: a', y :: b' =>
      if x <? y then -1
      else if y <? x then 1
      else Buffer_compare a' b'
  end.

(* Buffer.prototype.equals *)
Definition Buffer_equals (a b : list Z) : bool :=
  bool_decide (a = b).

(** Hexadecimal form of a buffer: [buf.toString('hex')] and
    [Buffer.from(str, 'hex')]. *)

Definition hex_digit (n : Z) : ascii :=
  if n <? 10 then ascii_of_nat (Z.to_nat (48 + n))
  else ascii_of_nat (Z.to_nat (87 + n)).

Definition hex_value (c : ascii) : option Z :=
  let n := Z.of_nat (nat_of_ascii c) in
  if (48 <=? n) && (n <=? 57) then Some (n - 48)
  else if (97 <=? n) && (n <=? 102) then Some (n - 87)
  else if (65 <=? n) && (n <=? 70) then Some (n - 55)
  else None.

Fixpoint toString_hex (buf : list Z) : string :=
  match buf with
  | [] => EmptyString
  | b :: rest =>
      String (hex_digit (b / 16)) (String (hex_digit (b mod 16)) (toString_hex rest))
  end.

(* Decoding stops at the first pair that is not two hex digits; a
   trailing single character is dropped. *)
Fixpoint Buffer_from_hex (s : string) : list Z :=
  match s with
  | String c1 (String c2 rest) =>
      match hex_value c1, hex_value c2 with
      | Some h, Some l => (16 * h + l) :: Buffer_from_hex rest
      | _, _ => []
      end
  | _ => []
  end.

(** Strings as byte sequences under the 'ascii' encoding: writing keeps
    the low byte of each code unit, reading clears the high bit. *)

Fixpoint string_codes (s : string) : list Z :=
  match s with
  | EmptyString => []
  | String c rest => Z.of_nat (nat_of_ascii c) :: string_codes rest
  end.

Fixpoint ascii_slice (bs : list Z) : string :=
  match bs with
  | [] => EmptyString
  | b :: rest => String (ascii_of_nat (Z.to_nat (Z.land b 127))) (ascii_slice rest)
  end.

Definition is_ascii (s : string) : Prop :=
  Forall (fun c => c < 128) (string_codes s).

Definition string_length (s : string) : Z := Z.of_nat (String.length s).

(** ** bufio: fixed-width little-endian integers *)

Fixpoint le_bytes (w : nat) (n : Z) : list Z :=
  match w with
  | O => []
  | S w' => n mod 256 :: le_bytes w' (n / 256)
  end.

Fixpoint le_value (bs : list Z) : Z :=
  match bs with
  | [] => 0
  | b :: rest => b + 256 * le_value rest
  end.

Module bio.

(** *** Writing

    bufio's encoders (writeU8 to writeU64 of its encoding module) take
    a number, require a safe integer (a TypeError otherwise) and store
    its low bytes, little-endian.  A StaticWriter applies them when it
    is written to; a BufferWriter queues what it is given and applies
    them when it is rendered.

    [Sink] is a writer seen by the bytes it has produced.  The
    functions on it are the encoders applied at once: what a write
    method does with a StaticWriter that has room, and what it gives
    with a BufferWriter once that is rendered ([BufferWriter.render]). *)
Definition Sink : Type := list Z.

Definition writeUInt (w : nat) (num : Z) (bw : Sink) : result Sink :=
  if isSafeInteger num then OK (bw ++ le_bytes w num) else Throw TypeError.

Definition writeU8 := writeUInt 1.
Definition writeU16 := writeUInt 2.
Definition writeU32 := writeUInt 4.
Definition writeU64 := writeUInt 8.

Definition writeBytes (value : list Z) (bw : Sink) : result Sink :=
  OK (bw ++ value).

Definition fill (value size : Z) (bw : Sink) : result Sink :=
  OK (bw ++ Buffer_alloc size value).

(* writeString(value, 'ascii') *)
Definition writeString (value : string) (bw : Sink) : result Sink :=
  OK (bw ++ string_codes value).

(** The BufferWriter itself: each write pushes an operation and adds
    its width to the offset, and checks no number; render() allocates
    offset bytes and applies the operations in order.  writeBytes and
    writeString check the kind of their argument at the call, and push
    nothing for an empty one; fill pushes nothing for size 0. *)
Module BufferWriter.

Inductive op : Type :=
  | NumberOp (width : nat) (value : Z)
  | BufferOp (value : list Z)
  | StringOp (value : string)
  | FillOp (value size : Z).

Definition t : Type := list op.

Definition writeU8 (value : Z) (bw : t) : t := bw ++ [NumberOp 1 value].
Definition writeU16 (value : Z) (bw : t) : t := bw ++ [NumberOp 2 value].
Definition writeU32 (value : Z) (bw : t) : t := bw ++ [NumberOp 4 value].
Definition writeU64 (value : Z) (bw : t) : t := bw ++ [NumberOp 8 value].

Definition writeBytes (value : list Z) (bw : t) : t :=
  if bool_decide (value = []) then bw else bw ++ [BufferOp value].

(* writeString(value, 'ascii') *)
Definition writeString (value : string) (bw : t) : t :=
  if String.eqb value "" then bw else bw ++ [StringOp value].

Definition fill (value size : Z) (bw : t) : t :=
  if size =? 0 then bw else bw ++ [FillOp value size].

Definition width (o : op) : Z :=
  match o with
  | NumberOp w _ => Z.of_nat w
  | BufferOp value => Z.of_nat (length value)
  | StringOp value => string_length value
  | FillOp _ size => size
  end.

(* bw.offset, which getSize() returns *)
Definition offset (bw : t) : Z := foldr (fun o n => width o + n) 0 bw.

Definition apply (o : op) (out : Sink) : result Sink :=
  match o with
  | NumberOp w value => writeUInt w value out
  | BufferOp value => bio.writeBytes value out
  | StringOp value => bio.writeString value out
  | FillOp value size => bio.fill value size out
  end.

Fixpoint render_onto (out : Sink) (bw : t) : result Sink :=
  match bw with
  | [] => OK out
  | o :: rest => out ← apply o out; render_onto out rest
  end.

Definition render (bw : t) : result (list Z) := render_onto [] bw.

End BufferWriter.

(** The reader: the bytes not yet consumed.  Every read checks that
    enough bytes are left. *)
Definition BufferReader : Type := list Z.

Definition readBytes (size : Z) (br : BufferReader) : result (list Z * BufferReader) :=
  if (0 <=? size) && (size <=? Z.of_nat (length br))
  then OK (take (Z.to_nat size) br, drop (Z.to_nat size) br)
  else Throw EncodingError.

Definition readUInt (w : nat) (br : BufferReader) : result (Z * BufferReader) :=
  '(bs, br') ← readBytes (Z.of_nat w) br;
  OK (le_value bs, br').

Definition readU8 := readUInt 1.
Definition readU16 := readUInt 2.
Definition readU32 := readUInt 4.

(* readU64 refuses a number above 2^53 - 1: the high word may use 21 bits *)
Definition readU64 (br : BufferReader) : result (Z * BufferReader) :=
  '(lo, br1) ← readU32 br;
  '(hi, br2) ← readU32 br1;
  if Z.land hi 0xffe00000 =? 0
  then OK (hi * 0x100000000 + lo, br2)
  else Throw EncodingError.

Definition seek (off : Z) (br : BufferReader) : result BufferReader :=
  '(_, br') ← readBytes off br;
  OK br'.

(* readString(size, 'ascii') *)
Definition readString (size : Z) (br : BufferReader) : result (string * BufferReader) :=
  '(bs, br') ← readBytes size br;
  OK (ascii_slice bs, br').

End bio.

(** ** binet: the address utility

    [netaddress.js] calls the utility for the conversions between the
    textual and the 16-byte form of an address, for the composition of
    the hostname, for the classification predicates and for the network
    tags.  None of it is defined in the modelled files, so it is an
    interface here. *)

Module IP.

Record Networks : Type := {
  NONE : Z;
  INET4 : Z;
  INET6 : Z;
  ONION : Z
}.

Class Binet : Type := {
  ZERO_IPV4 : list Z;
  networks : Networks;
  (* parsing throws on a string that is not an address *)
  toBuffer : string -> result (list Z);
  toString : list Z -> string;
  (* the composition of host, port and key; it may refuse its arguments *)
  toHostname : string -> Z -> list Z -> result string;
  isIPv4 : list Z -> bool;
  isIPv6 : list Z -> bool;
  isRFC3964 : list Z -> bool;
  isRFC4380 : list Z -> bool;
  isRFC6052 : list Z -> bool;
  isRFC6145 : list Z -> bool;
  isNull : list Z -> bool;
  isLocal : list Z -> bool;
  isValid : list Z -> bool;
  isRoutable : list Z -> bool;
  isOnion : list Z -> bool;
  getReachability : list Z -> list Z -> Z
}.

(* [IP.toBuffer(v)] on a value of any type: the utility takes a string
   and asserts it. *)
Definition toBuffer_any `{Binet} (v : jsval) : result (list Z) :=
  match v with
  | JStr s => toBuffer s
  | _ => Throw AssertionError
  end.

(** The helpers on host strings that the factories call:
    [IP.fromHostname] splits "host:port" (with an optional key) and
    [IP.normalize] brings a host string to its canonical form. *)

Record Parsed : Type := mkParsed {
  p_host : string;
  p_port : Z;
  p_key : jsval
}.

Class Hosts : Type := {
  fromHostname : string -> result Parsed;
  normalize : string -> result string
}.

(** What the utility is known to do beyond its types.  binet's
    toHostname asserts its arguments before it composes them; the
    assertion that matters to the callers here is the one on the key,
    which must have 33 bytes. *)
Definition toHostname_checks_key `{Binet} : Prop :=
  forall (host : string) (port : Z) (key : list Z),
    length key <> 33%nat -> toHostname host port key = Throw AssertionError.

End IP.

(** ** lib/netaddress.js *)

Module NetAddress.

Definition ZERO_KEY : list Z := Buffer_alloc 33 0x00.

Record t : Type := mk {
  host : string;
  port : Z;
  services : Z;
  time : Z;
  hostname : string;
  raw : list Z;
  key : list Z
}.

(* field assignments *)
Definition set_host (v : string) (this : t) : t :=
  mk v (port this) (services this) (time this) (hostname this) (raw this) (key this).
Definition set_port (v : Z) (this : t) : t :=
  mk (host this) v (services this) (time this) (hostname this) (raw this) (key this).
Definition set_services (v : Z) (this : t) : t :=
  mk (host this) (port this) v (time this) (hostname this) (raw this) (key this).
Definition set_time (v : Z) (this : t) : t :=
  mk (host this) (port this) (services this) v (hostname this) (raw this) (key this).
Definition set_hostname (v : string) (this : t) : t :=
  mk (host this) (port this) (services this) (time this) v (raw this) (key this).
Definition set_raw (v : list Z) (this : t) : t :=
  mk (host this) (port this) (services this) (time this) (hostname this) v (key this).
Definition set_key (v : list Z) (this : t) : t :=
  mk (host this) (port this) (services this) (time this) (hostname this) (raw this) v.

(* The options object of the constructor and of fromOptions; its
   properties are checked at run time, so they are values of any type. *)
Record Options : Type := mkOptions {
  o_host : jsval;
  o_port : jsval;
  o_services : jsval;
  o_time : jsval;
  o_key : jsval
}.

(* The object taken by fromJSON and produced by getJSON. *)
Record JSON : Type := mkJSON {
  j_host : jsval;
  j_port : jsval;
  j_services : jsval;
  j_time : jsval;
  j_key : jsval
}.

(* The value of a property once its type has been tested. *)
Definition str_of (v : jsval) : string :=
  match v with JStr s => s | _ => EmptyString end.
Definition num_of (v : jsval) : Z :=
  match v with JNum n => n | _ => 0 end.
Definition buf_of (v : jsval) : list Z :=
  match v with JBuffer b => b | _ => [] end.

(* NetAddress.DEFAULT_SERVICES *)
Definition DEFAULT_SERVICES : Z := 0.

(** The methods by what a call returns: the record as the call leaves
    it, or the exception.  What a call that throws has assigned before
    the throw is in [Stepwise] below. *)
Section Methods.
Context `{ip : IP.Binet}.

(* this.hostname = IP.toHostname(this.host, this.port, this.key) *)
Definition refresh_hostname (this : t) : result t :=
  h ← IP.toHostname (host this) (port this) (key this);
  OK (set_hostname h this).

Definition fromOptions (options : Options) (this : t) : result t :=
  _ ← assert (String.eqb (typeof (o_host options)) "string");
  _ ← assert (String.eqb (typeof (o_port options)) "number");
  _ ← assert ((0 <=? num_of (o_port options)) && (num_of (o_port options) <=? 0xffff));
  r ← IP.toBuffer (str_of (o_host options));
  let this := set_raw r this in
  let this := set_host (IP.toString (raw this)) this in
  let this := set_port (num_of (o_port options)) this in
  this ← (if truthy (o_services options)
          then _ ← assert (String.eqb (typeof (o_services options)) "number");
               OK (set_services (num_of (o_services options)) this)
          else OK this);
  this ← (if truthy (o_time options)
          then _ ← assert (String.eqb (typeof (o_time options)) "number");
               OK (set_time (num_of (o_time options)) this)
          else OK this);
  this ← (if truthy (o_key options)
          then _ ← assert (isBuffer (o_key options));
               _ ← assert (Z.of_nat (length (buf_of (o_key options))) =? 33);
               OK (set_key (buf_of (o_key options)) this)
          else OK this);
  refresh_hostname this.

Definition init : t :=
  mk "0.0.0.0" 0 0 0 "0.0.0.0:0" IP.ZERO_IPV4 ZERO_KEY.

(* new NetAddress(options) *)
Definition constructor (options : option Options) : result t :=
  match options with
  | Some o => fromOptions o init
  | None => OK init
  end.

Definition hasServices (this : t) (services' : Z) : bool :=
  Z.land (ToInt32 (services this)) (ToInt32 services') =? services'.

Definition isIPv4 (this : t) : bool := IP.isIPv4 (raw this).
Definition isIPv6 (this : t) : bool := IP.isIPv6 (raw this).
Definition isRFC3964 (this : t) : bool := IP.isRFC3964 (raw this).
Definition isRFC4380 (this : t) : bool := IP.isRFC4380 (raw this).
Definition isRFC6052 (this : t) : bool := IP.isRFC6052 (raw this).
Definition isRFC6145 (this : t) : bool := IP.isRFC6145 (raw this).
Definition isNull (this : t) : bool := IP.isNull (raw this).
Definition isLocal (this : t) : bool := IP.isLocal (raw this).
Definition isValid (this : t) : bool := IP.isValid (raw this).
Definition isRoutable (this : t) : bool := IP.isRoutable (raw this).
Definition isOnion (this : t) : bool := IP.isOnion (raw this).

Definition hasKey (this : t) : bool :=
  negb (Buffer_equals (key this) ZERO_KEY).

Definition compare (this addr : t) : Z :=
  let cmp := Buffer_compare (raw this) (raw addr) in
  if negb (cmp =? 0) then cmp
  else port this - port addr.

Definition equal (this addr : t) : bool :=
  compare this addr =? 0.

Definition getReachability (this dest : t) : Z :=
  IP.getReachability (raw this) (raw dest).

Definition setNull (this : t) : result t :=
  let this := set_raw IP.ZERO_IPV4 this in
  let this := set_host "0.0.0.0" this in
  let this := set_key ZERO_KEY this in
  refresh_hostname this.

Definition setHost (host' : string) (this : t) : result t :=
  r ← IP.toBuffer host';
  let this := set_raw r this in
  let this := set_host (IP.toString (raw this)) this in
  refresh_hostname this.

Definition setPort (port' : Z) (this : t) : result t :=
  _ ← assert ((0 <=? port') && (port' <=? 0xffff));
  let this := set_port port' this in
  refresh_hostname this.

Definition setKey (key' : jsval) (this : t) : result t :=
  let key' := if nullish key' then JBuffer ZERO_KEY else key' in
  _ ← assert (isBuffer key' && (Z.of_nat (length (buf_of key')) =? 33));
  let this := set_key (buf_of key') this in
  refresh_hostname this.

Definition getKey (enc : string) (this : t) : jsval :=
  if negb (hasKey this) then JNull
  else if String.eqb enc "hex" then JStr (toString_hex (key this))
  else JBuffer (key this).

(* fromHost(host, port, key); [now] is the value of Date.now() *)
Definition fromHost (now : Z) (host' : string) (port' : Z) (key' : jsval) (this : t) : result t :=
  _ ← assert ((0 <=? port') && (port' <=? 0xffff));
  _ ← assert (negb (truthy key') || isBuffer key');
  _ ← assert (negb (truthy key') || (Z.of_nat (length (buf_of key')) =? 33));
  r ← IP.toBuffer host';
  let this := set_raw r this in
  let this := set_host (IP.toString (raw this)) this in
  let this := set_port port' this in
  let this := set_services DEFAULT_SERVICES this in
  let this := set_time now this in
  let this := set_key (if truthy key' then buf_of key' else ZERO_KEY) this in
  refresh_hostname this.

Definition getSize (this : t) : Z := 88.

Definition write (this : t) (bw : bio.Sink) : result bio.Sink :=
  bw ← bio.writeU64 (time this) bw;
  bw ← bio.writeU32 (services this) bw;
  bw ← bio.writeU32 0 bw;
  bw ← bio.writeU8 0 bw;
  bw ← bio.writeBytes (raw this) bw;
  bw ← bio.fill 0 20 bw;
  bw ← bio.writeU16 (port this) bw;
  bw ← bio.writeBytes (key this) bw;
  OK bw.

Definition read (br : bio.BufferReader) (this : t) : result (t * bio.BufferReader) :=
  '(v, br) ← bio.readU64 br;
  let this := set_time v this in
  '(v, br) ← bio.readU32 br;
  let this := set_services v this in
  '(_, br) ← bio.readU32 br;
  '(d, br) ← bio.readU8 br;
  '(this, br) ← (if d =? 0
                 then '(v, br) ← bio.readBytes 16 br;
                      br ← bio.seek 20 br;
                      OK (set_raw v this, br)
                 else br ← bio.seek 36 br;
                      OK (set_raw (Buffer_alloc 16 0x00) this, br));
  '(v, br) ← bio.readU16 br;
  let this := set_port v this in
  '(v, br) ← bio.readBytes 33 br;
  let this := set_key v this in
  let this := set_host (IP.toString (raw this)) this in
  this ← refresh_hostname this;
  OK (this, br).

Definition getJSON (this : t) : JSON :=
  mkJSON (JStr (host this)) (JNum (port this)) (JNum (services this))
         (JNum (time this)) (JStr (toString_hex (key this))).

Definition fromJSON (json : JSON) (this : t) : result t :=
  _ ← assert (and_is_self 0xffff (j_port json));
  _ ← assert (ushr0_is_self (j_services json));
  _ ← assert (ushr0_is_self (j_time json));
  _ ← assert (String.eqb (typeof (j_key json)) "string");
  r ← IP.toBuffer_any (j_host json);
  let this := set_raw r this in
  let this := set_host (str_of (j_host json)) this in
  let this := set_port (num_of (j_port json)) this in
  let this := set_services (num_of (j_services json)) this in
  let this := set_time (num_of (j_time json)) this in
  let this := set_key (Buffer_from_hex (str_of (j_key json))) this in
  refresh_hostname this.

(* static read(br): new this().read(br) *)
Definition decode (br : bio.BufferReader) : result (t * bio.BufferReader) :=
  this ← constructor None;
  read br this.

End Methods.

(** The group classifier, a helper of the file. *)

Section GroupKey.
Context `{ip : IP.Binet}.

(* What the chain of tests selects: the variables [type], [start] and
   [bits] handed to the copy, or the buffer returned at once. *)
Inductive selection : Type :=
  | Copy (type start bits : Z)
  | Return (buf : list Z).

Definition select (addr : t) : selection :=
  let raw := raw addr in
  let type := IP.INET6 IP.networks in
  let start := 0 in
  let bits := 16 in
  if isLocal addr then
    Copy 255 start 0
  else if negb (isRoutable addr) then
    Copy (IP.NONE IP.networks) start 0
  else if isIPv4 addr || isRFC6145 addr || isRFC6052 addr then
    Copy (IP.INET4 IP.networks) 12 bits
  else if isRFC3964 addr then
    Copy (IP.INET4 IP.networks) 2 bits
  else if isRFC4380 addr then
    let buf := Buffer_alloc 3 0 in
    let buf := Buffer_set buf 0 (IP.INET4 IP.networks) in
    let buf := Buffer_set buf 1 (Z.lxor (Buffer_int raw 12) 0xff) in
    let buf := Buffer_set buf 2 (Z.lxor (Buffer_int raw 13) 0xff) in
    Return buf
  else if isOnion addr then
    Copy (IP.ONION IP.networks) 6 4
  else if bool_decide (Buffer_get raw 0 = Some 0x20)
       && bool_decide (Buffer_get raw 1 = Some 0x01)
       && bool_decide (Buffer_get raw 2 = Some 0x04)
       && bool_decide (Buffer_get raw 3 = Some 0x70) then
    Copy type start 36
  else
    Copy type start 32.

(* while (bits >= 8) { out[i++] = raw[start++]; bits -= 8; } *)
Equations? copy_whole (raw out : list Z) (i start bits : Z) : list Z * Z * Z * Z
  by wf (Z.to_nat bits) lt :=
  copy_whole raw out i start bits with Z_le_gt_dec 8 bits := {
    | left _ =>
        copy_whole raw (Buffer_set out i (Buffer_int raw start)) (i + 1) (start + 1) (bits - 8)
    | right _ => (out, i, start, bits) }.
Proof. lia. Qed.

Definition groupKey (addr : t) : result (list Z) :=
  let raw := raw addr in
  match select addr with
  | Return buf => OK buf
  | Copy type start bits =>
      let i := 0 in
      let out := Buffer_alloc (1 + Z.shiftr (bits + 7) 3) 0 in
      let out := Buffer_set out i type in
      let i := i + 1 in
      let '(out, i, start, bits) := copy_whole raw out i start bits in
      let '(out, i) :=
        if 0 <? bits
        then (Buffer_set out i (Z.lor (Buffer_int raw start) (Z.shiftl 1 (8 - bits) - 1)), i + 1)
        else (out, i) in
      _ ← assert (i =? Z.of_nat (length out));
      OK out
  end.

Definition getGroup (this : t) : result (list Z) := groupKey this.

End GroupKey.

(** The factories from a hostname and from a socket. *)

(* the network whose default ports are used *)
Record Network : Type := mkNetwork {
  n_port : Z;
  n_brontidePort : Z
}.

(* what the factory reads off a socket *)
Record Socket : Type := mkSocket {
  remoteAddress : jsval;
  remotePort : jsval
}.

Section Factories.
Context `{ip : IP.Binet} `{hosts : IP.Hosts}.

(* new this().fromHost(host, port, key) *)
Definition fromHost_static (now : Z) (host' : string) (port' : Z) (key' : jsval) : result t :=
  this ← constructor None;
  fromHost now host' port' key' this.

(* fromHostname(hostname, network); [None] is an undefined network *)
Definition fromHostname (now : Z) (hostname' : string) (network : option Network)
    (this : t) : result t :=
  addr ← IP.fromHostname hostname';
  port' ← (if IP.p_port addr =? 0
           then match network with
                | Some n => OK (if truthy (IP.p_key addr) then n_brontidePort n else n_port n)
                | None => Throw TypeError
                end
           else OK (IP.p_port addr));
  fromHost now (IP.p_host addr) port' (IP.p_key addr) this.

(* static fromHostname(hostname): new this().fromHostname(hostname) *)
Definition fromHostname_static (now : Z) (hostname' : string) : result t :=
  this ← constructor None;
  fromHostname now hostname' None this.

Definition fromSocket (now : Z) (socket : Socket) (this : t) : result t :=
  let host' := remoteAddress socket in
  let port' := remotePort socket in
  _ ← assert (String.eqb (typeof host') "string");
  _ ← assert (String.eqb (typeof port') "number");
  h ← IP.normalize (str_of host');
  fromHost now h (num_of port') JNull this.

Definition fromSocket_static (now : Z) (socket : Socket) : result t :=
  this ← constructor None;
  fromSocket now socket this.

End Factories.

(** write(bw) with the writer that bufio's BufferWriter is: the eight
    calls queue their operations and none of them throws. *)
Module Buffered.

Definition write (this : t) (bw : bio.BufferWriter.t) : bio.BufferWriter.t :=
  let bw := bio.BufferWriter.writeU64 (time this) bw in
  let bw := bio.BufferWriter.writeU32 (services this) bw in
  let bw := bio.BufferWriter.writeU32 0 bw in
  let bw := bio.BufferWriter.writeU8 0 bw in
  let bw := bio.BufferWriter.writeBytes (raw this) bw in
  let bw := bio.BufferWriter.fill 0 20 bw in
  let bw := bio.BufferWriter.writeU16 (port this) bw in
  let bw := bio.BufferWriter.writeBytes (key this) bw in
  bw.

End Buffered.

(** The mutators statement by statement.  A method assigns the fields
    of [this] one after the other, and a statement that throws ends
    the call with the assignments made before it in place.  A call is
    here a function from the receiver to the receiver as the call
    leaves it, paired with how the call completed. *)
Module Stepwise.

Definition M (A : Type) : Type := t -> t * result A.

Definition ret {A} (a : A) : M A := fun this => (this, OK a).

Definition bind {A B} (m : M A) (k : A -> M B) : M B := fun this =>
  match m this with
  | (this', OK a) => k a this'
  | (this', Throw e) => (this', Throw e)
  end.

(* an expression that may throw and assigns nothing *)
Definition call {A} (r : result A) : M A := fun this => (this, r).

(* a read of this *)
Definition get : M t := fun this => (this, OK this).

(* this.field = value *)
Definition assign (f : t -> t) : M unit := fun this => (f this, OK tt).

#[global] Instance M_ret : MRet M := @ret.
#[global] Instance M_bind : MBind M := fun A B k m => bind m k.

Section Methods.
Context `{ip : IP.Binet}.

Definition refresh_hostname : M unit :=
  this ← get;
  h ← call (IP.toHostname (host this) (port this) (key this));
  assign (set_hostname h).

(* this.host = IP.toString(this.raw) *)
Definition refresh_host : M unit :=
  this ← get;
  assign (set_host (IP.toString (raw this))).

Definition fromOptions (options : Options) : M unit :=
  call (assert (String.eqb (typeof (o_host options)) "string")) ;;
  call (assert (String.eqb (typeof (o_port options)) "number")) ;;
  call (assert ((0 <=? num_of (o_port options)) && (num_of (o_port options) <=? 0xffff))) ;;
  r ← call (IP.toBuffer (str_of (o_host options)));
  assign (set_raw r) ;;
  refresh_host ;;
  assign (set_port (num_of (o_port options))) ;;
  (if truthy (o_services options)
   then call (assert (String.eqb (typeof (o_services options)) "number")) ;;
        assign (set_services (num_of (o_services options)))
   else ret tt) ;;
  (if truthy (o_time options)
   then call (assert (String.eqb (typeof (o_time options)) "number")) ;;
        assign (set_time (num_of (o_time options)))
   else ret tt) ;;
  (if truthy (o_key options)
   then call (assert (isBuffer (o_key options))) ;;
        call (assert (Z.of_nat (length (buf_of (o_key options))) =? 33)) ;;
        assign (set_key (buf_of (o_key options)))
   else ret tt) ;;
  refresh_hostname.

Definition setNull : M unit :=
  assign (set_raw IP.ZERO_IPV4) ;;
  assign (set_host "0.0.0.0") ;;
  assign (set_key ZERO_KEY) ;;
  refresh_hostname.

Definition setHost (host' : string) : M unit :=
  r ← call (IP.toBuffer host');
  assign (set_raw r) ;;
  refresh_host ;;
  refresh_hostname.

Definition setPort (port' : Z) : M unit :=
  call (assert ((0 <=? port') && (port' <=? 0xffff))) ;;
  assign (set_port port') ;;
  refresh_hostname.

Definition setKey (key' : jsval) : M unit :=
  let key' := if nullish key' then JBuffer ZERO_KEY else key' in
  call (assert (isBuffer key' && (Z.of_nat (length (buf_of key')) =? 33))) ;;
  assign (set_key (buf_of key')) ;;
  refresh_hostname.

Definition fromHost (now : Z) (host' : string) (port' : Z) (key' : jsval) : M unit :=
  call (assert ((0 <=? port') && (port' <=? 0xffff))) ;;
  call (assert (negb (truthy key') || isBuffer key')) ;;
  call (assert (negb (truthy key') || (Z.of_nat (length (buf_of key')) =? 33))) ;;
  r ← call (IP.toBuffer host');
  assign (set_raw r) ;;
  refresh_host ;;
  assign (set_port port') ;;
  assign (set_services DEFAULT_SERVICES) ;;
  assign (set_time now) ;;
  assign (set_key (if truthy key' then buf_of key' else ZERO_KEY)) ;;
  refresh_hostname.

(* read(br); the value of the call is the reader as it is left *)
Definition read (br : bio.BufferReader) : M bio.BufferReader :=
  '(v, br) ← call (bio.readU64 br);
  assign (set_time v) ;;
  '(v, br) ← call (bio.readU32 br);
  assign (set_services v) ;;
  '(_, br) ← call (bio.readU32 br);
  '(d, br) ← call (bio.readU8 br);
  br ← (if d =? 0
        then '(v, br) ← call (bio.readBytes 16 br);
             assign (set_raw v) ;;
             call (bio.seek 20 br)
        else assign (set_raw (Buffer_alloc 16 0x00)) ;;
             call (bio.seek 36 br));
  '(v, br) ← call (bio.readU16 br);
  assign (set_port v) ;;
  '(v, br) ← call (bio.readBytes 33 br);
  assign (set_key v) ;;
  refresh_host ;;
  refresh_hostname ;;
  ret br.

Definition fromJSON (json : JSON) : M unit :=
  call (assert (and_is_self 0xffff (j_port json))) ;;
  call (assert (ushr0_is_self (j_services json))) ;;
  call (assert (ushr0_is_self (j_time json))) ;;
  call (assert (String.eqb (typeof (j_key json)) "string")) ;;
  r ← call (IP.toBuffer_any (j_host json));
  assign (set_raw r) ;;
  assign (set_host (str_of (j_host json))) ;;
  assign (set_port (num_of (j_port json))) ;;
  assign (set_services (num_of (j_services json))) ;;
  assign (set_time (num_of (j_time json))) ;;
  assign (set_key (Buffer_from_hex (str_of (j_key json)))) ;;
  refresh_hostname.

End Methods.

(* the value of a call that returned, the receiver of one that threw
   being dropped *)
Definition returned_receiver (o : t * result unit) : result t :=
  match o with
  | (this, OK _) => OK this
  | (_, Throw e) => Throw e
  end.

End Stepwise.

End NetAddress.

(** ** lib/packets.js *)

Module packets.

(* A property of an object literal, undefined when the literal has no
   such key. *)
Fixpoint property {A} (obj : list (string * A)) (k : string) : option A :=
  match obj with
  | [] => None
  | (k', v) :: rest => if String.eqb k k' then Some v else property rest k
  end.

Definition property_js (obj : list (string * jsval)) (k : string) : jsval :=
  default JUndefined (property obj k).

Definition common : list (string * jsval) :=
  [ ("PROTOCOL_VERSION", JNum 70015);
    ("LOCAL_SERVICES", JNum 0) ].

(* exports.types *)
Definition types : list (string * Z) :=
  [ ("VERSION", 0); ("VERACK", 1); ("PING", 2); ("PONG", 3);
    ("GETADDR", 4); ("ADDR", 5); ("INV", 6); ("GETDATA", 7);
    ("NOTFOUND", 8); ("GETBLOCKS", 9); ("GETHEADERS", 10); ("HEADERS", 11);
    ("SENDHEADERS", 12); ("BLOCK", 13); ("TX", 14); ("REJECT", 15);
    ("MEMPOOL", 16); ("FILTERLOAD", 17); ("FILTERADD", 18); ("FILTERCLEAR", 19);
    ("MERKLEBLOCK", 20); ("FEEFILTER", 21); ("SENDCMPCT", 22); ("CMPCTBLOCK", 23);
    ("GETBLOCKTXN", 24); ("BLOCKTXN", 25); ("GETPROOF", 26); ("PROOF", 27);
    ("CLAIM", 28); ("AIRDROP", 29); ("UNKNOWN", 30);
    ("INTERNAL", 31); ("DATA", 32) ].

(* exports.typesByVal *)
Definition typesByVal : list string :=
  [ "VERSION"; "VERACK"; "PING"; "PONG";
    "GETADDR"; "ADDR"; "INV"; "GETDATA";
    "NOTFOUND"; "GETBLOCKS"; "GETHEADERS"; "HEADERS";
    "SENDHEADERS"; "BLOCK"; "TX"; "REJECT";
    "MEMPOOL"; "FILTERLOAD"; "FILTERADD"; "FILTERCLEAR";
    "MERKLEBLOCK"; "FEEFILTER"; "SENDCMPCT"; "CMPCTBLOCK";
    "GETBLOCKTXN"; "BLOCKTXN"; "GETPROOF"; "PROOF";
    "CLAIM"; "AIRDROP"; "UNKNOWN";
    "INTERNAL"; "DATA" ].

(* The code that [types] binds to a name, that is types[name] where
   the name is a key of the literal, and typesByVal[code]. *)
Definition codeOf (name : string) : option Z := property types name.
Definition nameOf (code : Z) : option string :=
  if code <? 0 then None else typesByVal !! Z.to_nat code.

(** The expression types[name] for any string.  [types] is an object
    literal, so a name that is not one of its keys is looked up in
    Object.prototype, whose members are functions, and the prototype
    itself under __proto__. *)
Definition Object_prototype : list string :=
  [ "constructor"; "hasOwnProperty"; "isPrototypeOf"; "propertyIsEnumerable";
    "toLocaleString"; "toString"; "valueOf"; "__proto__";
    "__defineGetter__"; "__defineSetter__"; "__lookupGetter__"; "__lookupSetter__" ].

Inductive looked_up : Type :=
  | Own (code : Z)
  | Inherited
  | Undefined.

Definition types_get (name : string) : looked_up :=
  match property types name with
  | Some code => Own code
  | None => if bool_decide (name ∈ Object_prototype) then Inherited else Undefined
  end.

Definition types_VERSION : Z := default 0 (codeOf "VERSION").
Definition types_UNKNOWN : Z := default 0 (codeOf "UNKNOWN").

(** The binding of [NetAddress] in this file is a property of what
    [netaddress.js] exports, [const {NetAddress} = require('./netaddress')],
    and that file exports the class itself: [module.exports = NetAddress].
    The properties of the class are its static members (those it
    inherits from bufio's Struct are codec entry points, none of them
    named NetAddress). *)

Inductive member : Type :=
  | Constant (v : Z)
  | StaticMethod
  | ClassObject.

Definition netaddress_exports : list (string * member) :=
  [ ("fromHost", StaticMethod);
    ("fromHostname", StaticMethod);
    ("fromSocket", StaticMethod);
    ("read", StaticMethod);
    ("DEFAULT_SERVICES", Constant NetAddress.DEFAULT_SERVICES) ].

Definition NetAddress_binding : option member :=
  property netaddress_exports "NetAddress".

(* class Packet *)
Definition Packet_constructor : Z := types_UNKNOWN.

Module VersionPacket.

(* [nonce] and [agent] are a Buffer and a String, or undefined ([None]) *)
Record t : Type := mk {
  type : Z;
  version : Z;
  services : Z;
  time : Z;
  remote : NetAddress.t;
  nonce : option (list Z);
  agent : option string;
  height : Z;
  noRelay : bool
}.

(* The options object; [None] is a property that is absent or null. *)
Record Options : Type := mkOptions {
  o_version : option Z;
  o_services : option Z;
  o_time : option Z;
  o_remote : option NetAddress.Options;
  o_nonce : option (list Z);
  o_agent : option string;
  o_height : option Z;
  o_noRelay : option bool
}.

Definition buffer_field (v : jsval) : option (list Z) :=
  match v with JBuffer b => Some b | _ => None end.
Definition string_field (v : jsval) : option string :=
  match v with JStr s => Some s | _ => None end.

Section Methods.
Context `{ip : IP.Binet}.

Definition fromOptions (options : Options) (this : t) : result t :=
  let version := default (version this) (o_version options) in
  let services := default (services this) (o_services options) in
  let time := default (time this) (o_time options) in
  remote ← match o_remote options with
           | Some o => NetAddress.fromOptions o (remote this)
           | None => OK (remote this)
           end;
  let nonce := match o_nonce options with
               | Some b => Some b
               | None => nonce this
               end in
  let agent := match o_agent options with
               | Some s => if negb (String.eqb s "") then Some s else agent this
               | None => agent this
               end in
  let height := default (height this) (o_height options) in
  let noRelay := default (noRelay this) (o_noRelay options) in
  OK (mk (type this) version services time remote nonce agent height noRelay).

(* new NetAddress() where [NetAddress] holds [callee] *)
Definition new_NetAddress (callee : option member) : result NetAddress.t :=
  match callee with
  | Some ClassObject => NetAddress.constructor None
  | _ => Throw TypeError
  end.

(* The constructor, for a given binding of [NetAddress]; [now] is the
   value of Date.now(). *)
Definition construct (callee : option member) (now : Z) (options : option Options) : result t :=
  let type := Packet_constructor in
  let type := types_VERSION in
  let version := NetAddress.num_of (property_js common "PROTOCOL_VERSION") in
  let services := NetAddress.num_of (property_js common "LOCAL_SERVICES") in
  let time := now in
  tmp ← new_NetAddress callee;
  let remote := tmp in
  let nonce := buffer_field (property_js common "ZERO_NONCE") in
  let agent := string_field (property_js common "USER_AGENT") in
  let height := 0 in
  let noRelay := false in
  let this := mk type version services time remote nonce agent height noRelay in
  match options with
  | Some o => fromOptions o this
  | None => OK this
  end.

(* new VersionPacket(options), with the binding the file has *)
Definition constructor (now : Z) (options : option Options) : result t :=
  construct NetAddress_binding now options.

Definition getSize (this : t) : result Z :=
  let size := 0 in
  let size := size + 20 in
  let size := size + NetAddress.getSize (remote this) in
  let size := size + 8 in
  let size := size + 1 in
  a ← match agent this with Some a => OK a | None => Throw TypeError end;
  let size := size + string_length a in
  let size := size + 5 in
  OK size.

Definition write (this : t) (bw : bio.Sink) : result bio.Sink :=
  bw ← bio.writeU32 (version this) bw;
  bw ← bio.writeU32 (services this) bw;
  bw ← bio.writeU32 0 bw;
  bw ← bio.writeU64 (time this) bw;
  bw ← NetAddress.write (remote this) bw;
  n ← match nonce this with Some n => OK n | None => Throw TypeError end;
  bw ← bio.writeBytes n bw;
  a ← match agent this with Some a => OK a | None => Throw TypeError end;
  bw ← bio.writeU8 (string_length a) bw;
  bw ← bio.writeString a bw;
  bw ← bio.writeU32 (height this) bw;
  bw ← bio.writeU8 (if noRelay this then 1 else 0) bw;
  OK bw.

Definition read (br : bio.BufferReader) (this : t) : result (t * bio.BufferReader) :=
  '(version, br) ← bio.readU32 br;
  '(services, br) ← bio.readU32 br;
  '(_, br) ← bio.readU32 br;
  '(time, br) ← bio.readU64 br;
  '(remote, br) ← NetAddress.read br (remote this);
  '(nonce, br) ← bio.readBytes 8 br;
  '(len, br) ← bio.readU8 br;
  '(agent, br) ← bio.readString len br;
  '(height, br) ← bio.readU32 br;
  '(flag, br) ← bio.readU8 br;
  let noRelay := flag =? 1 in
  OK (mk (type this) version services time remote (Some nonce) (Some agent) height noRelay, br).

(* The static decode that a packet class has from bufio's Struct:
   new this().decode(data), which reads [data] into the new instance
   and returns it.  [callee] is what the name NetAddress holds. *)
Definition decode_with (callee : option member) (now : Z) (data : list Z) : result t :=
  this ← construct callee now None;
  '(this, _) ← read data this;
  OK this.

(* VersionPacket.decode(data), with the binding the file has *)
Definition decode (now : Z) (data : list Z) : result t :=
  decode_with NetAddress_binding now data.

End Methods.

(** write(bw) with the writer that bufio's BufferWriter is: the calls
    queue their operations; writeBytes refuses a nonce that is not a
    buffer, and the length of an agent that is undefined cannot be
    taken. *)
Module Buffered.

Definition write (this : t) (bw : bio.BufferWriter.t) : result bio.BufferWriter.t :=
  let bw := bio.BufferWriter.writeU32 (version this) bw in
  let bw := bio.BufferWriter.writeU32 (services this) bw in
  let bw := bio.BufferWriter.writeU32 0 bw in
  let bw := bio.BufferWriter.writeU64 (time this) bw in
  let bw := NetAddress.Buffered.write (remote this) bw in
  n ← match nonce this with Some n => OK n | None => Throw TypeError end;
  let bw := bio.BufferWriter.writeBytes n bw in
  a ← match agent this with Some a => OK a | None => Throw TypeError end;
  let bw := bio.BufferWriter.writeU8 (string_length a) bw in
  let bw := bio.BufferWriter.writeString a bw in
  let bw := bio.BufferWriter.writeU32 (height this) bw in
  let bw := bio.BufferWriter.writeU8 (if noRelay this then 1 else 0) bw in
  OK bw.

End Buffered.

End VersionPacket.
End packets.

(** ** lib/name.js *)

Module Name.

Record t : Type := mk { name : string }.

(* the options object: [None] is an absent name *)
Record Options : Type := mkOptions { o_name : option string }.

(* constructor(options): this.name = options.name || 'test';
   [None] is the constructor called without an argument *)
Definition constructor (options : option Options) : result t :=
  match options with
  | None => Throw TypeError
  | Some o =>
      match o_name o with
      | Some n => OK (mk (if negb (String.eqb n "") then n else "test"))
      | None => OK (mk "test")
      end
  end.

Definition fromName (name' : string) (this : t) : result t :=
  OK (mk name').

(* static fromName(name): new this().fromName(name) *)
Definition fromName_static (name' : string) : result t :=
  this ← constructor None;
  fromName name' this.

End Name.

(** ** An instance of the address utility

    A concrete utility in the shape of binet: IPv4 addresses are mapped
    into the 16-byte form, the predicates test the documented prefixes,
    and the hostname is the composition of its three arguments, once
    they have passed the assertions of the utility (a key is printed
    here in hexadecimal digits).  The examples below run the
    definitions on it. *)

Module SampleIP.

Definition has_prefix (p raw : list Z) : bool :=
  bool_decide (take (length p) raw = p).

Definition IPV4_PREFIX : list Z := [0; 0; 0; 0; 0; 0; 0; 0; 0; 0; 0xff; 0xff].
Definition LOCAL_IP : list Z := [0; 0; 0; 0; 0; 0; 0; 0; 0; 0; 0; 0; 0; 0; 0; 1].
Definition ZERO_IP : list Z := replicate 16 0.

Definition isIPv4 (raw : list Z) : bool := has_prefix IPV4_PREFIX raw.
Definition isOnion (raw : list Z) : bool := has_prefix [0xfd; 0x87; 0xd8; 0x7e; 0xeb; 0x43] raw.
Definition isIPv6 (raw : list Z) : bool := negb (isIPv4 raw) && negb (isOnion raw).
Definition isRFC1918 (raw : list Z) : bool :=
  isIPv4 raw &&
  ((Buffer_int raw 12 =? 10)
   || ((Buffer_int raw 12 =? 192) && (Buffer_int raw 13 =? 168))
   || ((Buffer_int raw 12 =? 172) && (16 <=? Buffer_int raw 13) && (Buffer_int raw 13 <=? 31))).
Definition isRFC3927 (raw : list Z) : bool :=
  isIPv4 raw && (Buffer_int raw 12 =? 169) && (Buffer_int raw 13 =? 254).
Definition isRFC3964 (raw : list Z) : bool := has_prefix [0x20; 0x02] raw.
Definition isRFC4193 (raw : list Z) : bool := Z.land (Buffer_int raw 0) 0xfe =? 0xfc.
Definition isRFC4380 (raw : list Z) : bool := has_prefix [0x20; 0x01; 0x00; 0x00] raw.
Definition isRFC4843 (raw : list Z) : bool :=
  has_prefix [0x20; 0x01; 0x00] raw && (Z.land (Buffer_int raw 3) 0xf0 =? 0x10).
Definition isRFC4862 (raw : list Z) : bool := has_prefix [0xfe; 0x80; 0; 0; 0; 0; 0; 0] raw.
Definition isRFC6052 (raw : list Z) : bool :=
  has_prefix [0; 0x64; 0xff; 0x9b; 0; 0; 0; 0; 0; 0; 0; 0] raw.
Definition isRFC6145 (raw : list Z) : bool :=
  has_prefix [0; 0; 0; 0; 0; 0; 0; 0; 0xff; 0xff; 0; 0] raw.
Definition isNull (raw : list Z) : bool :=
  if isIPv4 raw then bool_decide (drop 12 raw = [0; 0; 0; 0])
  else bool_decide (raw = ZERO_IP).
Definition isLocal (raw : list Z) : bool :=
  if isIPv4 raw then (Buffer_int raw 12 =? 127) || (Buffer_int raw 12 =? 0)
  else bool_decide (raw = LOCAL_IP).
Definition isValid (raw : list Z) : bool :=
  (Z.of_nat (length raw) =? 16) && negb (isNull raw)
  && negb (isIPv4 raw && bool_decide (drop 12 raw = [255; 255; 255; 255])).
Definition isRoutable (raw : list Z) : bool :=
  isValid raw
  && negb (isRFC1918 raw || isRFC3927 raw || isRFC4862 raw
           || (isRFC4193 raw && negb (isOnion raw))
           || isRFC4843 raw || isLocal raw).

Definition digit (d : Z) : ascii := ascii_of_nat (Z.to_nat (48 + d)).

(* decimal form of a number below 100000 *)
Definition decimal (n : Z) : string :=
  let ds := [n / 10000 mod 10; n / 1000 mod 10; n / 100 mod 10; n / 10 mod 10; n mod 10] in
  let fix strip (l : list Z) : list Z :=
    match l with
    | 0 :: (_ :: _) as rest => strip rest
    | _ => l
    end in
  string_of_list_ascii (map digit (strip ds)).

Definition hex_group (hi lo : Z) : string := toString_hex [hi; lo].

Fixpoint hex_groups (raw : list Z) : list string :=
  match raw with
  | hi :: lo :: rest => hex_group hi lo :: hex_groups rest
  | _ => []
  end.

Fixpoint join (sep : string) (parts : list string) : string :=
  match parts with
  | [] => EmptyString
  | [p] => p
  | p :: rest => p +:+ sep +:+ join sep rest
  end.

Definition toString (raw : list Z) : string :=
  if isIPv4 raw then join "." (map decimal (drop 12 raw))
  else join ":" (hex_groups raw).

Definition digit_value (c : ascii) : option Z :=
  let n := Z.of_nat (nat_of_ascii c) in
  if (48 <=? n) && (n <=? 57) then Some (n - 48) else None.

(* a dotted quad, read left to right *)
Fixpoint parse_quad (s : string) (cur : option Z) (acc : list Z) : option (list Z) :=
  match s with
  | EmptyString =>
      match cur with
      | Some n => Some (acc ++ [n])
      | None => None
      end
  | String c rest =>
      if Ascii.eqb c "."%char then
        match cur with
        | Some n => parse_quad rest None (acc ++ [n])
        | None => None
        end
      else
        match digit_value c with
        | Some d =>
            let n := 10 * default 0 cur + d in
            if n <=? 255 then parse_quad rest (Some n) acc else None
        | None => None
        end
  end.

Definition toBuffer (s : string) : result (list Z) :=
  match parse_quad s None [] with
  | Some [a; b; c; d] => OK (IPV4_PREFIX ++ [a; b; c; d])
  | _ => Throw AddressError
  end.

(* The arguments are asserted as the utility asserts them: a host
   that is not empty, a port of 16 bits, a key of 33 bytes. *)
Definition toHostname (host : string) (port : Z) (key : list Z) : result string :=
  _ ← assert (0 <? string_length host);
  _ ← assert ((0 <=? port) && (port <=? 0xffff));
  _ ← assert (Z.of_nat (length key) =? 33);
  if Buffer_equals key NetAddress.ZERO_KEY
  then OK (host +:+ ":" +:+ decimal port)
  else OK (toString_hex key +:+ "@" +:+ host +:+ ":" +:+ decimal port).

Definition getReachability (src dest : list Z) : Z := 0.

#[export] Instance binet : IP.Binet := {|
  IP.ZERO_IPV4 := IPV4_PREFIX ++ [0; 0; 0; 0];
  IP.networks := {| IP.NONE := 0; IP.INET4 := 1; IP.INET6 := 2; IP.ONION := 3 |};
  IP.toBuffer := toBuffer;
  IP.toString := toString;
  IP.toHostname := toHostname;
  IP.isIPv4 := isIPv4;
  IP.isIPv6 := isIPv6;
  IP.isRFC3964 := isRFC3964;
  IP.isRFC4380 := isRFC4380;
  IP.isRFC6052 := isRFC6052;
  IP.isRFC6145 := isRFC6145;
  IP.isNull := isNull;
  IP.isLocal := isLocal;
  IP.isValid := isValid;
  IP.isRoutable := isRoutable;
  IP.isOnion := isOnion;
  IP.getReachability := getReachability
|}.

(* "host:port" with a decimal port below 65536; no key *)
Fixpoint parse_port (s : string) (acc : Z) : option Z :=
  match s with
  | EmptyString => Some acc
  | String c rest =>
      match digit_value c with
      | Some d => if 10 * acc + d <=? 65535 then parse_port rest (10 * acc + d) else None
      | None => None
      end
  end.

Fixpoint split_port (s : string) (host : string) : string * option string :=
  match s with
  | EmptyString => (host, None)
  | String c rest =>
      if Ascii.eqb c ":"%char then (host, Some rest)
      else split_port rest (host +:+ String c EmptyString)
  end.

Definition fromHostname (s : string) : result IP.Parsed :=
  match split_port s EmptyString with
  | (host, None) => OK (IP.mkParsed host 0 JNull)
  | (host, Some p) =>
      match parse_port p 0 with
      | Some n => OK (IP.mkParsed host n JNull)
      | None => Throw AddressError
      end
  end.

Definition normalize (s : string) : result string :=
  raw ← toBuffer s;
  OK (toString raw).

#[export] Instance hosts : IP.Hosts := {|
  IP.fromHostname := fromHostname;
  IP.normalize := normalize
|}.

End SampleIP.


(** ** Sample values

    The record and the packet of the round-trip example: version 70015,
    services 1, time 1000000, agent "test-agent", height 42, no relay,
    and the address 127.0.0.1:8333 without a key. *)

Module Example.

Definition remote : NetAddress.t :=
  NetAddress.mk "127.0.0.1" 8333 0 1000000 "127.0.0.1:8333"
    (SampleIP.IPV4_PREFIX ++ [127; 0; 0; 1]) NetAddress.ZERO_KEY.

Definition version : packets.VersionPacket.t :=
  packets.VersionPacket.mk 0 70015 1 1000000 remote
    (Some [1; 2; 3; 4; 5; 6; 7; 8]) (Some "test-agent") 42 true.

(* a Teredo address, 2001:0:ab00::102:1 *)
Definition teredo : NetAddress.t :=
  NetAddress.set_raw [0x20; 0x01; 0; 0; 0xab; 0; 0; 0; 0; 0; 0; 0; 0x01; 0x02; 0; 1]
    (NetAddress.init (ip := SampleIP.binet)).

(* an address of the 2001:470::/32 block *)
Definition tunnel : NetAddress.t :=
  NetAddress.set_raw [0x20; 0x01; 0x04; 0x70; 0xab; 0; 0; 0; 0; 0; 0; 0; 0; 0; 0; 1]
    (NetAddress.init (ip := SampleIP.binet)).

(* a record stamped with a time in milliseconds *)
Definition stamped : NetAddress.t :=
  NetAddress.mk "127.0.0.1" 8333 0 1700000000000 "127.0.0.1:8333"
    (SampleIP.IPV4_PREFIX ++ [127; 0; 0; 1]) NetAddress.ZERO_KEY.

(* 88 bytes of a record in the legacy form: the discriminant is 1 and
   the address bytes are not zero *)
Definition legacy_bytes : list Z :=
  le_bytes 8 1000000 ++ le_bytes 4 1 ++ [0; 0; 0; 0] ++ [1]
  ++ [9; 9; 9; 9; 9; 9; 9; 9; 9; 9; 9; 9; 9; 9; 9; 9] ++ replicate 20 7
  ++ le_bytes 2 8333 ++ replicate 33 0.

(* the bytes of a version packet with non-zero reserved bytes, a legacy
   record, an agent byte with its high bit set and the flag byte 2 *)
Definition loose_version_bytes : list Z :=
  le_bytes 4 70015 ++ le_bytes 4 1 ++ [5; 5; 5; 5] ++ le_bytes 8 1000000
  ++ legacy_bytes ++ [1; 2; 3; 4; 5; 6; 7; 8]
  ++ [3] ++ [0xe1; 0x62; 0x63] ++ le_bytes 4 42 ++ [2].

(* the sample packet with a remote record whose key field holds a
   buffer of one byte *)
Definition short_key_version : packets.VersionPacket.t :=
  packets.VersionPacket.mk 0 70015 1 1000000 (NetAddress.set_key [0] remote)
    (Some [1; 2; 3; 4; 5; 6; 7; 8]) (Some "test-agent") 42 true.

(* the sample packet with the time 2^53, which is no safe integer *)
Definition late_version : packets.VersionPacket.t :=
  packets.VersionPacket.mk 0 70015 1 (2 ^ 53) remote
    (Some [1; 2; 3; 4; 5; 6; 7; 8]) (Some "test-agent") 42 true.

(* options naming a host, a port and a key of 32 bytes *)
Definition short_key_options : NetAddress.Options :=
  NetAddress.mkOptions (JStr "8.8.8.8") (JNum 53) JUndefined JUndefined
    (JBuffer (replicate 32 7)).

(* a JSON form whose key string decodes to one byte *)
Definition short_key_json : NetAddress.JSON :=
  NetAddress.mkJSON (JStr "127.0.0.1") (JNum 8333) (JNum 0) (JNum 0) (JStr "00").

(* options naming a host, a port and the services *)
Definition options : NetAddress.Options :=
  NetAddress.mkOptions (JStr "127.0.0.1") (JNum 8333) (JNum 1) JUndefined JUndefined.

(* two routable IPv4 addresses of the same /16, 8.1.2.3 and 8.1.200.9 *)
Definition ipv4_a : NetAddress.t :=
  NetAddress.set_raw (SampleIP.IPV4_PREFIX ++ [8; 1; 2; 3])
    (NetAddress.init (ip := SampleIP.binet)).
Definition ipv4_b : NetAddress.t :=
  NetAddress.set_raw (SampleIP.IPV4_PREFIX ++ [8; 1; 200; 9])
    (NetAddress.init (ip := SampleIP.binet)).

(* a Teredo address whose bytes 12 and 13 are the complements of 8 and 1 *)
Definition teredo_of_8_1 : NetAddress.t :=
  NetAddress.set_raw [0x20; 0x01; 0; 0; 0xab; 0; 0; 0; 0; 0; 0; 0; 0xf7; 0xfe; 0; 1]
    (NetAddress.init (ip := SampleIP.binet)).

End Example.

(** ** Vocabulary of the statements *)

Module Spec.
Import NetAddress.

(** The operations that change a record, with their arguments. *)
Inductive mutation : Type :=
  | SetHost (host : string)
  | SetPort (port : Z)
  | SetKey (key : jsval)
  | SetNull
  | FromOptions (options : Options)
  | FromHost (now : Z) (host : string) (port : Z) (key : jsval)
  | FromJSON (json : JSON)
  | Read (br : bio.BufferReader).

Definition apply `{ip : IP.Binet} (m : mutation) (this : t) : result t :=
  match m with
  | SetHost h => setHost h this
  | SetPort p => setPort p this
  | SetKey k => setKey k this
  | SetNull => setNull this
  | FromOptions o => fromOptions o this
  | FromHost now h p k => fromHost now h p k this
  | FromJSON j => fromJSON j this
  | Read br => fst <$> read br this
  end.

(** The same operations with the receiver as the call leaves it,
    whether it returned or threw. *)
Definition run `{ip : IP.Binet} (m : mutation) (this : t) : t * result unit :=
  match m with
  | SetHost h => Stepwise.setHost h this
  | SetPort p => Stepwise.setPort p this
  | SetKey k => Stepwise.setKey k this
  | SetNull => Stepwise.setNull this
  | FromOptions o => Stepwise.fromOptions o this
  | FromHost now h p k => Stepwise.fromHost now h p k this
  | FromJSON j => Stepwise.fromJSON j this
  | Read br => let '(this', c) := Stepwise.read br this in (this', (fun _ => tt) <$> c)
  end.

(** The hostname is the composition of the current host, port and key. *)
Definition hostname_current `{ip : IP.Binet} (this : t) : Prop :=
  IP.toHostname (host this) (port this) (key this) = OK (hostname this).

(** The registry statement for a registry of [n] variants: [n] names,
    bound to distinct codes below [n], with [codeOf] and [nameOf]
    inverse to each other. *)
Definition registry_bijection (n : nat) : Prop :=
  length packets.types = n
  /\ NoDup (map fst packets.types)
  /\ NoDup (map snd packets.types)
  /\ (forall name code, packets.codeOf name = Some code -> 0 <= code < Z.of_nat n)
  /\ (forall i, 0 <= i < Z.of_nat n ->
        exists name, packets.nameOf i = Some name /\ packets.codeOf name = Some i)
  /\ (forall name code, packets.codeOf name = Some code -> packets.nameOf code = Some name).

(** Caller-supplied values that an operation refuses: a host that is
    not a string, a port outside 0..65535, a key that is present but is
    not a buffer of 33 bytes, and for the JSON form a field of the
    wrong type, a number out of its range or a key string that does
    not decode to 33 bytes. *)
Inductive refused : mutation -> Prop :=
  | options_host o :
      typeof (o_host o) <> "string" -> refused (FromOptions o)
  | options_port_type o :
      typeof (o_port o) <> "number" -> refused (FromOptions o)
  | options_port_range o n :
      o_port o = JNum n -> ~ 0 <= n <= 65535 -> refused (FromOptions o)
  | options_key o :
      truthy (o_key o) = true ->
      (forall b, o_key o = JBuffer b -> length b <> 33%nat) ->
      refused (FromOptions o)
  | setPort_range p :
      ~ 0 <= p <= 65535 -> refused (SetPort p)
  | setKey_key k :
      nullish k = false ->
      (forall b, k = JBuffer b -> length b <> 33%nat) ->
      refused (SetKey k)
  | json_host j :
      typeof (j_host j) <> "string" -> refused (FromJSON j)
  | json_port j :
      (forall n, j_port j = JNum n -> ~ 0 <= n <= 65535) -> refused (FromJSON j)
  | json_services j :
      (forall n, j_services j = JNum n -> ~ 0 <= n < 2 ^ 32) -> refused (FromJSON j)
  | json_time j :
      (forall n, j_time j = JNum n -> ~ 0 <= n < 2 ^ 32) -> refused (FromJSON j)
  | json_key_type j :
      typeof (j_key j) <> "string" -> refused (FromJSON j)
  | json_key_length j s :
      j_key j = JStr s -> length (Buffer_from_hex s) <> 33%nat ->
      refused (FromJSON j).

(** Records and packets as the data model describes them. *)

Definition u16 (n : Z) : Prop := 0 <= n <= 0xffff.
Definition u32 (n : Z) : Prop := 0 <= n < 2 ^ 32.
(* the 64-bit fields hold numbers, which are exact up to 2^53 - 1 *)
Definition u64 (n : Z) : Prop := 0 <= n <= MAX_SAFE_INTEGER.

(* What the writer needs of a record: integral fields and buffers of
   the documented lengths. *)
Record wire_address (r : t) : Prop := {
  wa_time : isSafeInteger (time r) = true;
  wa_services : isSafeInteger (services r) = true;
  wa_port : isSafeInteger (port r) = true;
  wa_raw : length (raw r) = 16%nat;
  wa_key : length (key r) = 33%nat
}.

Record valid_address `{ip : IP.Binet} (r : t) : Prop := {
  va_time : u64 (time r);
  va_services : u32 (services r);
  va_port : u16 (port r);
  va_raw_length : length (raw r) = 16%nat;
  va_raw : is_bytes (raw r);
  va_key_length : length (key r) = 33%nat;
  va_key : is_bytes (key r);
  va_host : host r = IP.toString (raw r);
  va_hostname : hostname_current r
}.

Record wire_version (v : packets.VersionPacket.t) : Prop := {
  wv_version : isSafeInteger (packets.VersionPacket.version v) = true;
  wv_services : isSafeInteger (packets.VersionPacket.services v) = true;
  wv_time : isSafeInteger (packets.VersionPacket.time v) = true;
  wv_remote : wire_address (packets.VersionPacket.remote v);
  wv_nonce : exists n, packets.VersionPacket.nonce v = Some n /\ length n = 8%nat;
  (* the length of a string is itself a safe integer *)
  wv_agent : exists a, packets.VersionPacket.agent v = Some a
                       /\ isSafeInteger (string_length a) = true;
  wv_height : isSafeInteger (packets.VersionPacket.height v) = true
}.

Record valid_version `{ip : IP.Binet} (v : packets.VersionPacket.t) : Prop := {
  vv_type : packets.VersionPacket.type v = packets.types_VERSION;
  vv_version : u32 (packets.VersionPacket.version v);
  vv_services : u32 (packets.VersionPacket.services v);
  vv_time : u64 (packets.VersionPacket.time v);
  vv_remote : valid_address (packets.VersionPacket.remote v);
  vv_nonce : exists n, packets.VersionPacket.nonce v = Some n
                       /\ length n = 8%nat /\ is_bytes n;
  vv_agent : exists a, packets.VersionPacket.agent v = Some a
                       /\ is_ascii a /\ string_length a <= 255;
  vv_height : u32 (packets.VersionPacket.height v)
}.

(** The wire form of a record, field by field. *)
Definition address_bytes (r : t) : list Z :=
  le_bytes 8 (time r) ++ le_bytes 4 (services r) ++ le_bytes 4 0 ++ le_bytes 1 0
  ++ raw r ++ Buffer_alloc 20 0 ++ le_bytes 2 (port r) ++ key r.

(** [fromJSON (getJSON r)] returns a record with the host, port,
    services, time, key and hostname of [r]. *)
Definition json_round_trip `{ip : IP.Binet} (r this : t) : Prop :=
  exists r',
    fromJSON (getJSON r) this = OK r'
    /\ host r' = host r /\ port r' = port r /\ services r' = services r
    /\ time r' = time r /\ key r' = key r /\ hostname r' = hostname r.

(** The wire form of a version packet; an undefined nonce or agent
    contributes nothing. *)
Definition version_bytes (v : packets.VersionPacket.t) : list Z :=
  let nonce := default [] (packets.VersionPacket.nonce v) in
  let agent := default EmptyString (packets.VersionPacket.agent v) in
  le_bytes 4 (packets.VersionPacket.version v)
  ++ le_bytes 4 (packets.VersionPacket.services v)
  ++ le_bytes 4 0
  ++ le_bytes 8 (packets.VersionPacket.time v)
  ++ address_bytes (packets.VersionPacket.remote v)
  ++ nonce
  ++ le_bytes 1 (string_length agent)
  ++ string_codes agent
  ++ le_bytes 4 (packets.VersionPacket.height v)
  ++ le_bytes 1 (if packets.VersionPacket.noRelay v then 1 else 0).

(** The decision table of the group key: the tag, the offset and the
    number of group bits of each case but the RFC4380 one, the first
    case that matches being the one that applies. *)

Definition provider_block (raw : list Z) : Prop :=
  Buffer_get raw 0 = Some 0x20 /\ Buffer_get raw 1 = Some 0x01
  /\ Buffer_get raw 2 = Some 0x04 /\ Buffer_get raw 3 = Some 0x70.

Definition mapped_ipv4 `{ip : IP.Binet} (addr : t) : Prop :=
  isIPv4 addr = true \/ isRFC6145 addr = true \/ isRFC6052 addr = true.

Inductive group_branch `{ip : IP.Binet} (addr : t) : Z -> Z -> Z -> Prop :=
  | branch_local :
      isLocal addr = true ->
      group_branch addr 255 0 0
  | branch_unroutable :
      isLocal addr = false -> isRoutable addr = false ->
      group_branch addr (IP.NONE IP.networks) 0 0
  | branch_ipv4 :
      isLocal addr = false -> isRoutable addr = true ->
      mapped_ipv4 addr ->
      group_branch addr (IP.INET4 IP.networks) 12 16
  | branch_rfc3964 :
      isLocal addr = false -> isRoutable addr = true ->
      ~ mapped_ipv4 addr -> isRFC3964 addr = true ->
      group_branch addr (IP.INET4 IP.networks) 2 16
  | branch_onion :
      isLocal addr = false -> isRoutable addr = true ->
      ~ mapped_ipv4 addr -> isRFC3964 addr = false ->
      isRFC4380 addr = false -> isOnion addr = true ->
      group_branch addr (IP.ONION IP.networks) 6 4
  | branch_provider_block :
      isLocal addr = false -> isRoutable addr = true ->
      ~ mapped_ipv4 addr -> isRFC3964 addr = false ->
      isRFC4380 addr = false -> isOnion addr = false ->
      provider_block (raw addr) ->
      group_branch addr (IP.INET6 IP.networks) 0 36
  | branch_ipv6 :
      isLocal addr = false -> isRoutable addr = true ->
      ~ mapped_ipv4 addr -> isRFC3964 addr = false ->
      isRFC4380 addr = false -> isOnion addr = false ->
      ~ provider_block (raw addr) ->
      group_branch addr (IP.INET6 IP.networks) 0 32.

Definition byte_tags `{ip : IP.Binet} : Prop :=
  is_byte (IP.NONE IP.networks) /\ is_byte (IP.INET4 IP.networks)
  /\ is_byte (IP.INET6 IP.networks) /\ is_byte (IP.ONION IP.networks).

(* ceil(bits / 8) *)
Definition ceil8 (bits : Z) : Z :=
  bits / 8 + (if bits mod 8 =? 0 then 0 else 1).

(** The bytes of a group key: the tag, floor(bits / 8) bytes of the
    address from [offset] on, and when [bits] is not a multiple of 8
    one more byte, the byte of the address at [last] with its low
    8 - bits mod 8 bits set. *)
Definition group_bytes_with (last : Z) (raw : list Z) (tag offset bits : Z) : list Z :=
  tag :: take (Z.to_nat (bits / 8)) (drop (Z.to_nat offset) raw)
      ++ (if bits mod 8 =? 0 then []
          else [Z.lor (Buffer_int raw last) (Z.shiftl 1 (8 - bits mod 8) - 1)]).

(* the last byte taken at the offset of the case, as the statement has it *)
Definition group_bytes_as_stated (raw : list Z) (tag offset bits : Z) : list Z :=
  group_bytes_with offset raw tag offset bits.

(* the last byte taken after the whole bytes that were copied *)
Definition group_bytes (raw : list Z) (tag offset bits : Z) : list Z :=
  group_bytes_with (offset + bits / 8) raw tag offset bits.

(* the case the decision table leaves out *)
Definition teredo_case `{ip : IP.Binet} (addr : t) : Prop :=
  isLocal addr = false /\ isRoutable addr = true /\ ~ mapped_ipv4 addr
  /\ isRFC3964 addr = false /\ isRFC4380 addr = true.

End Spec.

(** * Properties *)

(** ** Calls that return *)

Lemma bind_OK {A B} (m : result A) (f : A -> result B) (b : B) :
  m ≫= f = OK b -> exists a, m = OK a /\ f a = OK b.
Proof. destruct m as [a|e]; simpl; [eauto | discriminate]. Qed.

Lemma assert_OK (c : bool) (u : unit) : assert c = OK u -> c = true.
Proof. destruct c; [reflexivity | discriminate]. Qed.

Lemma assert_false_throws {A} (c : bool) (k : unit -> result A) :
  c = false -> assert c ≫= k = Throw AssertionError.
Proof. intros ->. reflexivity. Qed.

Lemma assert_true_continues {A} (c : bool) (k : unit -> result A) :
  c = true -> assert c ≫= k = k tt.
Proof. intros ->. reflexivity. Qed.

Lemma bind_OK_eq {A B} (a : A) (f : A -> result B) : OK a ≫= f = f a.
Proof. reflexivity. Qed.

(* The call on the left of a bind has returned: continue with its value. *)
Ltac returns := rewrite bind_OK_eq; cbv beta iota.

Ltac bind_inv H :=
  let a := fresh "a" in
  let Ha := fresh "Ha" in
  apply bind_OK in H; destruct H as (a & Ha & H).

(** A property checked on every number below a bound holds below it. *)
Lemma below_forallb (n : nat) (f : Z -> bool) :
  forallb f (map Z.of_nat (seq 0 n)) = true ->
  forall z, 0 <= z < Z.of_nat n -> f z = true.
Proof.
  intros Hall z Hz.
  rewrite forallb_forall in Hall. apply Hall.
  apply in_map_iff. exists (Z.to_nat z). split; [lia|].
  apply in_seq. lia.
Qed.

(** ** The packet type registry *)

Lemma property_elem {A} (obj : list (string * A)) (k : string) (v : A) :
  packets.property obj k = Some v -> (k, v) ∈ obj.
Proof.
  induction obj as [|[k' v'] obj IH]; simpl; [discriminate|].
  destruct (String.eqb k k') eqn:E.
  - apply String.eqb_eq in E. intros [= ->]. subst. left.
  - intros H. right. auto.
Qed.

Lemma types_entries (P : string -> Z -> bool) :
  forallb (fun e => P e.1 e.2) packets.types = true ->
  forall name code, packets.codeOf name = Some code -> P name code = true.
Proof.
  intros Hall name code H. apply property_elem in H.
  rewrite forallb_forall in Hall.
  apply (Hall (name, code)). by apply list_elem_of_In.
Qed.

(** C5, as the code has it: the registry has 33 variants, VERSION to
    DATA, bound to the distinct codes 0 to 32, and the maps from name
    to code and from code to name are inverse to each other: for every
    i in 0..32, codeOf (nameOf i) = i, and for every registered name n,
    nameOf (codeOf n) = n. *)
Theorem registry_bijection_33 : Spec.registry_bijection 33.
Proof.
  unfold Spec.registry_bijection. split; [reflexivity|].
  split; [apply (bool_decide_unpack _); vm_compute; reflexivity|].
  split; [apply (bool_decide_unpack _); vm_compute; reflexivity|].
  split; [|split].
  - intros name code H.
    apply (types_entries (fun _ c => (0 <=? c) && (c <? 33))) in H; [lia | reflexivity].
  - intros i Hi.
    pose proof (below_forallb 33
      (fun i => match packets.nameOf i with
                | Some name => bool_decide (packets.codeOf name = Some i)
                | None => false
                end) eq_refl i Hi) as H.
    simpl in H. destruct (packets.nameOf i) as [name|]; [|discriminate].
    exists name. split; [reflexivity|]. by apply bool_decide_eq_true in H.
  - intros name code H.
    apply (types_entries
      (fun n c => bool_decide (packets.nameOf c = Some n))) in H; [|reflexivity].
    by apply bool_decide_eq_true in H.
Qed.

(** C5, as stated, fails: with 32 variants and codes 0 to 31 the
    registry would have no room for DATA, whose code is 32. *)
Lemma registry_bijection_32_fails :
  packets.codeOf "DATA" = Some 32 /\ ~ Spec.registry_bijection 32.
Proof.
  split; [reflexivity|].
  intros (Hlen & _). vm_compute in Hlen. discriminate.
Qed.

(** ** Comparison of records *)

Lemma Buffer_compare_eq (a b : list Z) : Buffer_compare a b = 0 <-> a = b.
Proof.
  revert b. induction a as [|x a IH]; intros [|y b]; simpl; try (split; [lia | discriminate]).
  - split; reflexivity.
  - destruct (Z.ltb_spec x y); [split; [lia | intros [= -> ->]; lia]|].
    destruct (Z.ltb_spec y x); [split; [lia | intros [= -> ->]; lia]|].
    rewrite IH. split; [intros ->; f_equal; lia | intros [= _ ->]; reflexivity].
Qed.

Lemma compare_zero (a b : NetAddress.t) :
  NetAddress.compare a b = 0 <->
  NetAddress.raw a = NetAddress.raw b /\ NetAddress.port a = NetAddress.port b.
Proof.
  unfold NetAddress.compare. rewrite <- Buffer_compare_eq.
  destruct (Z.eqb_spec (Buffer_compare (NetAddress.raw a) (NetAddress.raw b)) 0) as [E|E];
    simpl; lia.
Qed.

(** C10: [a.equal(b)] is true exactly when the raw addresses are the
    same bytes and the ports are equal; [compare] is the comparison of
    the raw buffers when they differ and the difference of the ports
    otherwise; no other field of either record takes part. *)
Theorem equal_compares_raw_and_port (a b : NetAddress.t) :
  (NetAddress.equal a b = true <->
     NetAddress.raw a = NetAddress.raw b /\ NetAddress.port a = NetAddress.port b)
  /\ NetAddress.compare a b =
       (if decide (NetAddress.raw a = NetAddress.raw b)
        then NetAddress.port a - NetAddress.port b
        else Buffer_compare (NetAddress.raw a) (NetAddress.raw b))
  /\ (forall host host' services services' time time' hostname hostname' key key',
        let a' := NetAddress.mk host (NetAddress.port a) services time hostname
                    (NetAddress.raw a) key in
        let b' := NetAddress.mk host' (NetAddress.port b) services' time' hostname'
                    (NetAddress.raw b) key' in
        NetAddress.compare a' b' = NetAddress.compare a b
        /\ NetAddress.equal a' b' = NetAddress.equal a b).
Proof.
  split; [|split].
  - unfold NetAddress.equal. rewrite Z.eqb_eq. apply compare_zero.
  - unfold NetAddress.compare.
    destruct (decide (NetAddress.raw a = NetAddress.raw b)) as [E|E].
    + apply Buffer_compare_eq in E. rewrite E. reflexivity.
    + destruct (Z.eqb_spec (Buffer_compare (NetAddress.raw a) (NetAddress.raw b)) 0) as [E'|E'];
        [|reflexivity].
      apply Buffer_compare_eq in E'. contradiction.
  - intros. split; reflexivity.
Qed.

(** ** The defaults of a version packet *)

(** C6, evaluated.  The constructor as written throws: the name
    [NetAddress] is bound to a property the exported class does not
    have.  With the class bound to the name, the constructor returns
    the documented defaults except for [nonce] and [agent], which are
    undefined because [common] has neither ZERO_NONCE nor USER_AGENT. *)
Theorem VersionPacket_constructor_defaults `{ip : IP.Binet} (now : Z) :
  packets.VersionPacket.constructor now None = Throw TypeError
  /\ packets.VersionPacket.construct (Some packets.ClassObject) now None =
       OK (packets.VersionPacket.mk 0 70015 0 now NetAddress.init None None 0 false).
Proof. split; reflexivity. Qed.

(** ** The hostname invariant *)

Section Hostname.
Context `{ip : IP.Binet}.
Import NetAddress Spec.

Lemma refresh_hostname_OK (this this' : t) :
  refresh_hostname this = OK this' ->
  hostname_current this'
  /\ host this' = host this /\ port this' = port this
  /\ services this' = services this /\ time this' = time this
  /\ raw this' = raw this /\ key this' = key this.
Proof.
  unfold refresh_hostname, hostname_current. intros H. bind_inv H.
  injection H as <-. simpl. auto 10.
Qed.

Lemma read_OK (br br' : bio.BufferReader) (this this' : t) :
  read br this = OK (this', br') -> hostname_current this'.
Proof.
  unfold read. intros H.
  repeat (bind_inv H; match goal with a : (_ * _)%type |- _ => destruct a end).
  bind_inv H. injection H as <- <-.
  match goal with
  | Hr : refresh_hostname _ = OK _ |- _ => apply refresh_hostname_OK in Hr; tauto
  end.
Qed.

(** A call seen by its value is the call seen statement by statement
    with the receiver of a call that throws forgotten. *)

Ltac statements :=
  unfold Stepwise.returned_receiver, Stepwise.refresh_hostname, Stepwise.refresh_host,
    refresh_hostname, mbind, Stepwise.M_bind, Stepwise.bind, Stepwise.call,
    Stepwise.assign, Stepwise.get, Stepwise.ret, result_bind;
  repeat match goal with
  | |- context [assert ?c] => destruct c; cbn [assert]
  | |- context [if ?c then _ else _] => destruct c
  | |- context [IP.toBuffer ?s] => destruct (IP.toBuffer s)
  | |- context [IP.toBuffer_any ?s] => destruct (IP.toBuffer_any s)
  | |- context [IP.toHostname ?h ?p ?k] => destruct (IP.toHostname h p k)
  end;
  try reflexivity.

Lemma setHost_statements (h : string) (this : t) :
  Stepwise.returned_receiver (Stepwise.setHost h this) = setHost h this.
Proof. unfold Stepwise.setHost, setHost. statements. Qed.

Lemma setPort_statements (p : Z) (this : t) :
  Stepwise.returned_receiver (Stepwise.setPort p this) = setPort p this.
Proof. unfold Stepwise.setPort, setPort. statements. Qed.

Lemma setKey_statements (k : jsval) (this : t) :
  Stepwise.returned_receiver (Stepwise.setKey k this) = setKey k this.
Proof. unfold Stepwise.setKey, setKey. statements. Qed.

Lemma setNull_statements (this : t) :
  Stepwise.returned_receiver (Stepwise.setNull this) = setNull this.
Proof. unfold Stepwise.setNull, setNull. statements. Qed.

Lemma fromOptions_statements (o : Options) (this : t) :
  Stepwise.returned_receiver (Stepwise.fromOptions o this) = fromOptions o this.
Proof. unfold Stepwise.fromOptions, fromOptions. statements. Qed.

Lemma fromHost_statements (now : Z) (h : string) (p : Z) (k : jsval) (this : t) :
  Stepwise.returned_receiver (Stepwise.fromHost now h p k this) = fromHost now h p k this.
Proof. unfold Stepwise.fromHost, fromHost. statements. Qed.

Lemma fromJSON_statements (j : JSON) (this : t) :
  Stepwise.returned_receiver (Stepwise.fromJSON j this) = fromJSON j this.
Proof. unfold Stepwise.fromJSON, fromJSON. statements. Qed.

Lemma read_statements (br : bio.BufferReader) (this : t) :
  match Stepwise.read br this with
  | (this', OK br') => OK (this', br')
  | (_, Throw e) => Throw e
  end = read br this.
Proof.
  unfold Stepwise.read, read.
  unfold Stepwise.refresh_hostname, Stepwise.refresh_host,
    refresh_hostname, mbind, Stepwise.M_bind, Stepwise.bind, Stepwise.call,
    Stepwise.assign, Stepwise.get, Stepwise.ret, result_bind.
  destruct (bio.readU64 br) as [[v1 br1]|]; [|reflexivity].
  destruct (bio.readU32 br1) as [[v2 br2]|]; [|reflexivity].
  destruct (bio.readU32 br2) as [[v3 br3]|]; [|reflexivity].
  destruct (bio.readU8 br3) as [[d br4]|]; [|reflexivity].
  destruct (d =? 0).
  - destruct (bio.readBytes 16 br4) as [[v5 br5]|]; [|reflexivity].
    destruct (bio.seek 20 br5) as [br6|]; [|reflexivity].
    destruct (bio.readU16 br6) as [[v7 br7]|]; [|reflexivity].
    destruct (bio.readBytes 33 br7) as [[v8 br8]|]; [|reflexivity].
    cbn. destruct (IP.toHostname _ _ _); reflexivity.
  - destruct (bio.seek 36 br4) as [br6|]; [|reflexivity].
    destruct (bio.readU16 br6) as [[v7 br7]|]; [|reflexivity].
    destruct (bio.readBytes 33 br7) as [[v8 br8]|]; [|reflexivity].
    cbn. destruct (IP.toHostname _ _ _); reflexivity.
Qed.

Lemma run_apply (m : mutation) (this : t) :
  Stepwise.returned_receiver (run m this) = apply m this.
Proof.
  destruct m; cbn [run apply];
    auto using setHost_statements, setPort_statements, setKey_statements,
      setNull_statements, fromOptions_statements, fromHost_statements,
      fromJSON_statements.
  rewrite <- read_statements.
  destruct (Stepwise.read br this) as [that [br'|e]]; reflexivity.
Qed.

Lemma run_returned (m : mutation) (this this' : t) :
  run m this = (this', OK tt) <-> apply m this = OK this'.
Proof.
  rewrite <- run_apply. split.
  - intros ->. reflexivity.
  - destruct (run m this) as [that [[]|e]]; simpl; [|discriminate].
    by intros [= ->].
Qed.

Lemma apply_hostname_current (m : mutation) (this this' : t) :
  apply m this = OK this' -> hostname_current this'.
Proof.
  intros Hret. destruct m; simpl in Hret.
  - unfold setHost in Hret. bind_inv Hret.
    apply refresh_hostname_OK in Hret. tauto.
  - unfold setPort in Hret. bind_inv Hret.
    apply refresh_hostname_OK in Hret. tauto.
  - unfold setKey in Hret. bind_inv Hret.
    apply refresh_hostname_OK in Hret. tauto.
  - apply refresh_hostname_OK in Hret. tauto.
  - unfold fromOptions in Hret. do 7 bind_inv Hret.
    apply refresh_hostname_OK in Hret. tauto.
  - unfold fromHost in Hret. do 4 bind_inv Hret.
    apply refresh_hostname_OK in Hret. tauto.
  - unfold fromJSON in Hret. do 5 bind_inv Hret.
    apply refresh_hostname_OK in Hret. tauto.
  - destruct (read br this) as [[r br']|e] eqn:E; simpl in Hret; [|discriminate].
    injection Hret as ->. by apply read_OK in E.
Qed.

(* setPort assigns the port and the hostname, however it completes *)
Lemma setPort_frame (p : Z) (this that : t) (c : result unit) :
  Stepwise.setPort p this = (that, c) ->
  host that = host this /\ services that = services this /\ time that = time this
  /\ raw that = raw this /\ key that = key this
  /\ (port that = port this \/ port that = p)
  /\ (c = OK tt -> port that = p).
Proof.
  unfold Stepwise.setPort, Stepwise.refresh_hostname, mbind, Stepwise.M_bind,
    Stepwise.bind, Stepwise.call, Stepwise.assign, Stepwise.get.
  destruct (assert _); [|intros [= <- <-]; repeat split; auto; discriminate].
  cbn. destruct (IP.toHostname _ _ _); intros [= <- <-]; cbn;
    repeat split; auto; discriminate.
Qed.

End Hostname.

(** C4, as the code has it: when any of setHost, setPort, setKey,
    setNull, fromOptions, fromHost, fromJSON and read has returned, the
    hostname of the receiver is the composition of its current host,
    port and key, and the receiver is the record the call returns.
    setPort assigns no field but the port and the hostname, whether it
    returns or throws.  Nothing is said of the hostname after a call
    that threw. *)
Theorem hostname_recomputed `{ip : IP.Binet}
    (m : Spec.mutation) (this this' : NetAddress.t)
    (Hret : Spec.run m this = (this', OK tt)) :
  Spec.hostname_current this'
  /\ Spec.apply m this = OK this'
  /\ (forall p, m = Spec.SetPort p -> NetAddress.port this' = p)
  /\ (forall p that c,
        Spec.run (Spec.SetPort p) this = (that, c) ->
        NetAddress.host that = NetAddress.host this
        /\ NetAddress.services that = NetAddress.services this
        /\ NetAddress.time that = NetAddress.time this
        /\ NetAddress.raw that = NetAddress.raw this
        /\ NetAddress.key that = NetAddress.key this
        /\ (NetAddress.port that = NetAddress.port this \/ NetAddress.port that = p)).
Proof.
  pose proof (proj1 (run_returned m this this') Hret) as Happly.
  split; [by apply (apply_hostname_current m this)|].
  split; [exact Happly|]. split.
  - intros p ->. cbn [Spec.run] in Hret.
    by apply (setPort_frame p this this' (OK tt)) in Hret as (_ & _ & _ & _ & _ & _ & Hp); auto.
  - intros p that c Hrun. cbn [Spec.run] in Hrun.
    apply setPort_frame in Hrun. tauto.
Qed.

Lemma hostname_recomputed_witness :
  exists this',
    Spec.run (ip := SampleIP.binet) (Spec.SetPort 9999)
      (NetAddress.init (ip := SampleIP.binet)) = (this', OK tt)
    /\ NetAddress.hostname this' = "0.0.0.0:9999"
    /\ Spec.hostname_current (ip := SampleIP.binet) this'.
Proof.
  eexists. split; [reflexivity|]. split; [reflexivity|].
  eapply (hostname_recomputed (ip := SampleIP.binet) (Spec.SetPort 9999) NetAddress.init).
  reflexivity.
Defined.

(** C4, as stated, fails: fromOptions assigns raw, host and port before
    it tests the key, so options with a key of 32 bytes end the call
    with an assertion error and leave the receiver, whose hostname was
    current, with the new host and port and the old hostname. *)
Lemma fromOptions_leaves_stale_hostname :
  let this := NetAddress.init (ip := SampleIP.binet) in
  exists that,
    Spec.run (ip := SampleIP.binet) (Spec.FromOptions Example.short_key_options) this
      = (that, Throw AssertionError)
    /\ Spec.hostname_current (ip := SampleIP.binet) this
    /\ NetAddress.host that = "8.8.8.8"
    /\ NetAddress.port that = 53
    /\ NetAddress.hostname that = "0.0.0.0:0"
    /\ IP.toHostname (Binet := SampleIP.binet) (NetAddress.host that) (NetAddress.port that)
         (NetAddress.key that) = OK "8.8.8.8:53"
    /\ ~ Spec.hostname_current (ip := SampleIP.binet) that.
Proof.
  intros this. eexists. split; [vm_compute; reflexivity|].
  split; [vm_compute; reflexivity|]. split; [reflexivity|]. split; [reflexivity|].
  split; [reflexivity|]. split; [vm_compute; reflexivity|].
  unfold Spec.hostname_current. vm_compute. discriminate.
Qed.

(** ** Refusal of caller-supplied values *)

Lemma and_is_self_u16 (v : jsval) :
  and_is_self 0xffff v = true <-> exists n, v = JNum n /\ 0 <= n <= 65535.
Proof.
  destruct v; simpl; try (split; [discriminate | intros (? & [=] & _)]).
  rewrite Z.eqb_eq. change 65535 with (Z.ones 16) at 1. rewrite Z.land_ones by lia.
  unfold ToInt32. split.
  - intros H. exists n. split; [reflexivity|].
    pose proof (Z.mod_pos_bound ((n + 2 ^ 31) mod 2 ^ 32 - 2 ^ 31) (2 ^ 16)). lia.
  - intros (n' & [= <-] & Hn).
    rewrite (Z.mod_small (n + 2 ^ 31)) by lia.
    replace (n + 2 ^ 31 - 2 ^ 31) with n by lia.
    apply Z.mod_small. lia.
Qed.

Lemma ushr0_is_self_u32 (v : jsval) :
  ushr0_is_self v = true <-> exists n, v = JNum n /\ 0 <= n < 2 ^ 32.
Proof.
  destruct v; simpl; try (split; [discriminate | intros (? & [=] & _)]).
  rewrite Z.eqb_eq. unfold ToUint32. split.
  - intros H. exists n. split; [reflexivity|].
    pose proof (Z.mod_pos_bound n (2 ^ 32)). lia.
  - intros (n' & [= <-] & Hn). apply Z.mod_small. lia.
Qed.

Lemma typeof_string (v : jsval) :
  String.eqb (typeof v) "string" = true <-> exists s, v = JStr s.
Proof.
  destruct v; simpl; split; try discriminate; try (intros (? & [=])); eauto.
Qed.

Lemma typeof_number (v : jsval) :
  String.eqb (typeof v) "number" = true <-> exists n, v = JNum n.
Proof.
  destruct v; simpl; split; try discriminate; try (intros (? & [=])); eauto.
Qed.

Lemma isBuffer_true (v : jsval) :
  isBuffer v = true <-> exists b, v = JBuffer b.
Proof.
  destruct v; simpl; split; try discriminate; try (intros (? & [=])); eauto.
Qed.

Lemma thrown_Throw {A} (e : exn) : thrown (A := A) (Throw e).
Proof. by exists e. Qed.

(* Walk through the tests of an operation: a failing test throws, a
   passing one is recorded. *)
Ltac pass_tests :=
  repeat match goal with
  | |- thrown (Throw _) => apply thrown_Throw
  | |- thrown (assert ?c ≫= _) =>
      let E := fresh "Hpass" in destruct c eqn:E; simpl
  | |- thrown ((assert ?c ≫= _) ≫= _) =>
      let E := fresh "Hpass" in destruct c eqn:E; simpl
  | |- thrown ((if ?c then _ else _) ≫= _) =>
      let E := fresh "Hcond" in destruct c eqn:E; simpl
  | |- thrown (IP.toBuffer ?s ≫= _) =>
      let E := fresh "Hparse" in destruct (IP.toBuffer s) eqn:E; simpl
  | |- thrown (IP.toBuffer_any ?s ≫= _) =>
      let E := fresh "Hparse" in destruct (IP.toBuffer_any s) eqn:E; simpl
  | |- thrown (OK _ ≫= _) => simpl
  end.

(* Turn the recorded tests into propositions. *)
Ltac reflect_tests :=
  repeat match goal with
  | H : _ && _ = true |- _ => apply andb_true_iff in H; destruct H
  | H : (_ <=? _) = true |- _ => apply Z.leb_le in H
  | H : (_ =? _) = true |- _ => apply Z.eqb_eq in H
  end.

(* Use the characterisation [lem] of each recorded test it applies to. *)
Ltac passed lem :=
  repeat match goal with
  | H : _ = true |- _ => apply lem in H; destruct H as (? & H)
  end.

(* A value of the tested type contradicts [H], which says the type is
   another one. *)
Ltac by_typeof H :=
  exfalso; apply H;
  match goal with
  | Hv : _ = ?v |- typeof _ = _ => rewrite Hv; reflexivity
  end.

(* A number in the tested range contradicts [H], which excludes it. *)
Ltac by_range H :=
  exfalso;
  match goal with
  | Hx : _ = JNum ?x /\ _ |- _ => exact (H x (proj1 Hx) (proj2 Hx))
  end.

Ltac subst_value :=
  repeat match goal with
  | H : ?v = JBuffer _ |- _ => first [subst v | rewrite H in *; clear H]; simpl in *
  end.

Lemma json_key_refused `{ip : IP.Binet} (this : NetAddress.t) (k : list Z) :
  IP.toHostname_checks_key -> length k <> 33%nat ->
  thrown (NetAddress.refresh_hostname (NetAddress.set_key k this)).
Proof.
  intros Hkey Hk. unfold NetAddress.refresh_hostname. cbn.
  rewrite Hkey by exact Hk. apply thrown_Throw.
Qed.

(** C9: fromOptions, setPort, setKey and fromJSON throw, and so return
    no record, when the host is not a string, the port is outside
    0..65535, a key that is present is not a buffer of 33 bytes, or a
    field of the JSON form has the wrong type or a number out of its
    range.  Each refusal is an assertion of the method itself, but
    for two that fromJSON leaves to the address utility: a host that
    is not a string is refused by IP.toBuffer, and a key string that
    does not decode to 33 bytes by IP.toHostname, whose assertion on
    the key is the hypothesis. *)
Theorem refused_values_throw `{ip : IP.Binet}
    (Hkey : IP.toHostname_checks_key)
    (m : Spec.mutation) (this : NetAddress.t) (Hbad : Spec.refused m) :
  thrown (Spec.apply m this).
Proof.
  destruct Hbad as [o H|o H|o n Hn H|o Ht H|p H|k Hk H|j H|j H|j H|j H|j H|j s Hs H]; simpl.
  - unfold NetAddress.fromOptions. pass_tests.
    all: passed typeof_string; by_typeof H.
  - unfold NetAddress.fromOptions. pass_tests.
    all: passed typeof_number; by_typeof H.
  - unfold NetAddress.fromOptions. rewrite Hn. simpl. pass_tests.
    all: reflect_tests; lia.
  - unfold NetAddress.fromOptions. rewrite Ht. pass_tests.
    all: passed isBuffer_true; subst_value; specialize (H _ eq_refl);
      reflect_tests; lia.
  - unfold NetAddress.setPort. pass_tests. reflect_tests. lia.
  - unfold NetAddress.setKey. rewrite Hk. pass_tests.
    reflect_tests. passed isBuffer_true. subst_value. specialize (H _ eq_refl).
    reflect_tests. lia.
  - unfold NetAddress.fromJSON. pass_tests.
    destruct (NetAddress.j_host j); simpl in *; try discriminate. contradiction.
  - unfold NetAddress.fromJSON. pass_tests.
    all: passed and_is_self_u16; by_range H.
  - unfold NetAddress.fromJSON. pass_tests.
    all: passed ushr0_is_self_u32; by_range H.
  - unfold NetAddress.fromJSON. pass_tests.
    all: passed ushr0_is_self_u32; by_range H.
  - unfold NetAddress.fromJSON. pass_tests.
    all: passed typeof_string; by_typeof H.
  - unfold NetAddress.fromJSON. rewrite Hs. pass_tests.
    apply json_key_refused; assumption.
Qed.

(* the sample utility asserts the key as binet does *)
Lemma SampleIP_checks_key : IP.toHostname_checks_key (H := SampleIP.binet).
Proof.
  intros host port key Hk. cbn. unfold SampleIP.toHostname.
  destruct (0 <? string_length host); [|reflexivity].
  destruct ((0 <=? port) && (port <=? 65535)); [|reflexivity].
  destruct (Z.eqb_spec (Z.of_nat (length key)) 33); [lia | reflexivity].
Qed.

Lemma refused_values_throw_witness :
  Spec.refused (Spec.FromJSON Example.short_key_json)
  /\ thrown (Spec.apply (ip := SampleIP.binet) (Spec.FromJSON Example.short_key_json)
               (NetAddress.init (ip := SampleIP.binet))).
Proof.
  assert (Spec.refused (Spec.FromJSON Example.short_key_json)) as Hbad
    by (apply (Spec.json_key_length _ "00"); [reflexivity | simpl; lia]).
  split; [exact Hbad|].
  exact (refused_values_throw (ip := SampleIP.binet) SampleIP_checks_key _ _ Hbad).
Defined.

(** ** Bytes *)

Lemma is_byte_mod (b : Z) : is_byte b -> b mod 256 = b.
Proof. intros H. apply Z.mod_small. exact H. Qed.

Lemma Buffer_get_byte (buf : list Z) (i b : Z) :
  is_bytes buf -> Buffer_get buf i = Some b -> is_byte b.
Proof.
  unfold Buffer_get, is_bytes. intros Hb H.
  destruct (i <? 0); [discriminate|].
  rewrite Forall_lookup in Hb. eauto.
Qed.

Lemma Buffer_int_byte (buf : list Z) (i : Z) :
  is_bytes buf -> is_byte (Buffer_int buf i).
Proof.
  unfold Buffer_int. intros Hb.
  destruct (Buffer_get buf i) as [b|] eqn:E; simpl.
  - eapply Buffer_get_byte; eauto.
  - unfold is_byte. lia.
Qed.

Lemma lxor_ff_byte (b : Z) : is_byte b -> is_byte (Z.lxor b 0xff).
Proof.
  intros Hb.
  pose proof (below_forallb 256
    (fun b => (0 <=? Z.lxor b 0xff) && (Z.lxor b 0xff <? 256)) eq_refl b Hb) as H.
  simpl in H. unfold is_byte. lia.
Qed.

Lemma Buffer_set_nat (buf : list Z) (i : nat) (v : Z) :
  Buffer_set buf (Z.of_nat i) v = <[i := v mod 256]> buf.
Proof.
  unfold Buffer_set. destruct (Z.ltb_spec (Z.of_nat i) 0); [lia|].
  by rewrite Nat2Z.id.
Qed.

(** ** The group key of a Teredo address *)

(** C2: for a 16-byte address that is not local, is routable, is not
    IPv4, RFC6145, RFC6052 or RFC3964 and satisfies the RFC4380 test,
    the group key is the three bytes IPV4 tag, raw[12] XOR 0xff and
    raw[13] XOR 0xff; with raw[12] = 0x01 and raw[13] = 0x02 it is
    IPV4 tag, 0xFE, 0xFD. *)
Theorem groupKey_teredo `{ip : IP.Binet} (addr : NetAddress.t)
    (Hlen : length (NetAddress.raw addr) = 16%nat)
    (Hraw : is_bytes (NetAddress.raw addr))
    (Htag : is_byte (IP.INET4 IP.networks))
    (Hlocal : NetAddress.isLocal addr = false)
    (Hroutable : NetAddress.isRoutable addr = true)
    (Hipv4 : NetAddress.isIPv4 addr = false)
    (Hrfc6145 : NetAddress.isRFC6145 addr = false)
    (Hrfc6052 : NetAddress.isRFC6052 addr = false)
    (Hrfc3964 : NetAddress.isRFC3964 addr = false)
    (Hrfc4380 : NetAddress.isRFC4380 addr = true) :
  NetAddress.groupKey addr =
    OK [IP.INET4 IP.networks;
        Z.lxor (Buffer_int (NetAddress.raw addr) 12) 0xff;
        Z.lxor (Buffer_int (NetAddress.raw addr) 13) 0xff]
  /\ (Buffer_get (NetAddress.raw addr) 12 = Some 0x01 ->
      Buffer_get (NetAddress.raw addr) 13 = Some 0x02 ->
      NetAddress.groupKey addr = OK [IP.INET4 IP.networks; 0xFE; 0xFD]).
Proof.
  assert (NetAddress.groupKey addr =
    OK [IP.INET4 IP.networks;
        Z.lxor (Buffer_int (NetAddress.raw addr) 12) 0xff;
        Z.lxor (Buffer_int (NetAddress.raw addr) 13) 0xff]) as Hkey.
  { unfold NetAddress.groupKey, NetAddress.select.
    rewrite Hlocal, Hroutable, Hipv4, Hrfc6145, Hrfc6052, Hrfc3964, Hrfc4380. simpl.
    change 0 with (Z.of_nat 0) at 1. change 1 with (Z.of_nat 1) at 1.
    change 2 with (Z.of_nat 2) at 1.
    rewrite !Buffer_set_nat. simpl.
    rewrite (is_byte_mod _ Htag).
    rewrite !is_byte_mod by (apply lxor_ff_byte, Buffer_int_byte, Hraw).
    reflexivity. }
  split; [exact Hkey|].
  intros H12 H13. rewrite Hkey. unfold Buffer_int. rewrite H12, H13. reflexivity.
Qed.

Lemma groupKey_teredo_witness :
  NetAddress.groupKey (ip := SampleIP.binet) Example.teredo = OK [1; 0xFE; 0xFD].
Proof.
  refine (proj2 (groupKey_teredo (ip := SampleIP.binet) Example.teredo
    _ _ _ _ _ _ _ _ _ _) _ _);
    try reflexivity.
  - repeat constructor; unfold is_byte; lia.
  - unfold is_byte. simpl. lia.
Defined.

(** ** Fixed-width integers on the wire *)

Lemma le_bytes_length (w : nat) (n : Z) : length (le_bytes w n) = w.
Proof. revert n. induction w as [|w IH]; intros n; simpl; [reflexivity | by rewrite IH]. Qed.

Lemma le_value_le_bytes (w : nat) (n : Z) :
  le_value (le_bytes w n) = n mod 2 ^ (8 * Z.of_nat w).
Proof.
  revert n. induction w as [|w IH]; intros n.
  - simpl. by rewrite Z.mod_1_r.
  - cbn [le_bytes le_value]. rewrite IH.
    replace (8 * Z.of_nat (S w)) with (8 + 8 * Z.of_nat w) by lia.
    rewrite Z.pow_add_r by lia. change (2 ^ 8) with 256.
    rewrite Z.rem_mul_r by lia. reflexivity.
Qed.

Lemma le_bytes_app (a b : nat) (n : Z) :
  le_bytes (a + b) n = le_bytes a n ++ le_bytes b (n / 2 ^ (8 * Z.of_nat a)).
Proof.
  revert n. induction a as [|a IH]; intros n.
  - simpl. by rewrite Z.div_1_r.
  - cbn [Nat.add le_bytes app]. rewrite IH. f_equal. f_equal. f_equal.
    replace (8 * Z.of_nat (S a)) with (8 + 8 * Z.of_nat a) by lia.
    rewrite Z.pow_add_r by lia. change (2 ^ 8) with 256.
    rewrite Z.div_div by lia. reflexivity.
Qed.

Section Wire.
Import bio.

Lemma writeUInt_OK (w : nat) (n : Z) (bw : Sink) :
  isSafeInteger n = true -> writeUInt w n bw = OK (bw ++ le_bytes w n).
Proof. unfold writeUInt. by intros ->. Qed.

Lemma readBytes_exact (size : Z) (bs rest : list Z) :
  Z.of_nat (length bs) = size -> readBytes size (bs ++ rest) = OK (bs, rest).
Proof.
  intros <-. unfold readBytes. rewrite length_app, Nat2Z.id.
  rewrite take_app_length, drop_app_length.
  destruct (Z.leb_spec 0 (Z.of_nat (length bs))); [|lia].
  destruct (Z.leb_spec (Z.of_nat (length bs)) (Z.of_nat (length bs + length rest)));
    [reflexivity | lia].
Qed.

Lemma seek_exact (off : Z) (bs rest : list Z) :
  Z.of_nat (length bs) = off -> seek off (bs ++ rest) = OK rest.
Proof. intros H. unfold seek. by rewrite (readBytes_exact _ _ _ H). Qed.

Lemma readUInt_le_bytes_mod (w : nat) (n : Z) (rest : list Z) :
  readUInt w (le_bytes w n ++ rest) = OK (n mod 2 ^ (8 * Z.of_nat w), rest).
Proof.
  unfold readUInt.
  rewrite readBytes_exact by (by rewrite le_bytes_length). simpl.
  by rewrite le_value_le_bytes.
Qed.

Lemma readUInt_le_bytes (w : nat) (n : Z) (rest : list Z) :
  0 <= n < 2 ^ (8 * Z.of_nat w) ->
  readUInt w (le_bytes w n ++ rest) = OK (n, rest).
Proof.
  intros Hn. by rewrite readUInt_le_bytes_mod, Z.mod_small.
Qed.

Lemma high_word_check (hi : Z) : 0 <= hi < 2 ^ 21 -> Z.land hi 0xffe00000 = 0.
Proof.
  intros Hhi. apply Z.bits_inj'. intros i Hi.
  rewrite Z.land_spec, Z.bits_0.
  destruct (Z.lt_ge_cases i 21) as [Hlt|Hge].
  - change 0xffe00000 with (Z.shiftl 2047 21).
    rewrite Z.shiftl_spec_low by lia. apply andb_false_r.
  - destruct (Z.eq_dec hi 0) as [->|Hne]; [by rewrite Z.bits_0|].
    rewrite Z.bits_above_log2; [reflexivity | lia |].
    assert (Z.log2 hi < 21) by (apply Z.log2_lt_pow2; lia). lia.
Qed.

Lemma readU64_le_bytes (n : Z) (rest : list Z) :
  0 <= n <= MAX_SAFE_INTEGER ->
  readU64 (le_bytes 8 n ++ rest) = OK (n, rest).
Proof.
  unfold MAX_SAFE_INTEGER. intros Hn. unfold readU64, readU32.
  change 8%nat with (4 + 4)%nat. rewrite le_bytes_app, <- app_assoc.
  change (2 ^ (8 * Z.of_nat 4)) with (2 ^ 32).
  assert (0 <= n / 2 ^ 32 < 2 ^ 21) as Hhi.
  { split; [apply Z.div_pos; lia|]. apply Z.div_lt_upper_bound; lia. }
  rewrite readUInt_le_bytes_mod. returns.
  rewrite readUInt_le_bytes by (change (2 ^ (8 * Z.of_nat 4)) with (2 ^ 32); lia).
  returns. rewrite (high_word_check _ Hhi). simpl.
  f_equal. f_equal. change (2 ^ (8 * Z.of_nat 4)) with 4294967296.
  change (2 ^ 32) with 4294967296.
  pose proof (Z.div_mod n 4294967296). lia.
Qed.

End Wire.

(** ** Strings on the wire *)

Lemma string_codes_length (s : string) :
  Z.of_nat (length (string_codes s)) = string_length s.
Proof.
  unfold string_length. induction s as [|c s IH]; simpl; [reflexivity|].
  f_equal. lia.
Qed.

Lemma ascii_slice_codes (s : string) : is_ascii s -> ascii_slice (string_codes s) = s.
Proof.
  unfold is_ascii. induction s as [|c s IH]; simpl; [reflexivity|].
  intros H. apply Forall_cons in H as [Hc Hs].
  rewrite IH by exact Hs. f_equal.
  change 127 with (Z.ones 7). rewrite Z.land_ones by lia.
  rewrite Z.mod_small by (change (2 ^ 7) with 128; lia).
  rewrite Nat2Z.id. apply ascii_nat_embedding.
Qed.

(** ** The wire form of a record *)

Section AddressCodec.
Import NetAddress Spec.

Lemma safe_u64 (n : Z) : u64 n -> isSafeInteger n = true.
Proof.
  unfold u64, isSafeInteger, MAX_SAFE_INTEGER. intros H.
  apply andb_true_iff. split; apply Z.leb_le; lia.
Qed.

Lemma safe_u32 (n : Z) : u32 n -> isSafeInteger n = true.
Proof. unfold u32. intros H. apply safe_u64. unfold u64, MAX_SAFE_INTEGER. lia. Qed.

Lemma safe_u16 (n : Z) : u16 n -> isSafeInteger n = true.
Proof. unfold u16. intros H. apply safe_u64. unfold u64, MAX_SAFE_INTEGER. lia. Qed.

Lemma valid_address_wire `{ip : IP.Binet} (r : t) : valid_address r -> wire_address r.
Proof.
  intros []. split; auto using safe_u64, safe_u32, safe_u16.
Qed.

Lemma write_address_bytes (r : t) (bw : bio.Sink) :
  wire_address r -> write r bw = OK (bw ++ address_bytes r).
Proof.
  intros []. unfold write, address_bytes.
  unfold bio.writeU64, bio.writeU32, bio.writeU16, bio.writeU8, bio.writeBytes, bio.fill.
  repeat first [rewrite writeUInt_OK by (assumption || reflexivity) | returns].
  by rewrite <- !app_assoc.
Qed.

Lemma address_bytes_length (r : t) :
  wire_address r -> length (address_bytes r) = 88%nat.
Proof.
  intros []. unfold address_bytes, Buffer_alloc.
  rewrite !length_app, !le_bytes_length, length_replicate, wa_raw0, wa_key0.
  reflexivity.
Qed.

Lemma read_address_bytes `{ip : IP.Binet} (r this : t) (rest : list Z) :
  valid_address r -> read (address_bytes r ++ rest) this = OK (r, rest).
Proof.
  intros []. unfold read, address_bytes. rewrite <- !app_assoc.
  rewrite readU64_le_bytes by assumption. returns.
  unfold bio.readU32, bio.readU16, bio.readU8.
  rewrite readUInt_le_bytes by assumption. returns.
  rewrite readUInt_le_bytes by (simpl; lia). returns.
  rewrite readUInt_le_bytes by (simpl; lia). returns.
  change (0 =? 0) with true. cbv iota.
  rewrite readBytes_exact by lia. returns.
  rewrite seek_exact by reflexivity. returns. returns.
  rewrite readUInt_le_bytes by (unfold u16 in *; simpl; lia). returns.
  rewrite readBytes_exact by lia. returns.
  unfold refresh_hostname. simpl.
  unfold hostname_current in va_hostname0.
  rewrite <- va_host0, va_hostname0. simpl.
  destruct r; simpl in *. subst. reflexivity.
Qed.

End AddressCodec.

(** ** The wire form of a version packet *)

Section VersionCodec.
Import packets.VersionPacket Spec.

Lemma valid_version_wire `{ip : IP.Binet} (v : t) : valid_version v -> wire_version v.
Proof.
  intros [? ? ? ? ? (n & Hn & Hl & _) (a & Ha & _ & Hlen) ?].
  split; eauto using safe_u64, safe_u32, valid_address_wire.
  exists a. split; [exact Ha|]. apply safe_u32. unfold u32, string_length in *. lia.
Qed.

Lemma write_version_bytes (v : t) (bw : bio.Sink) :
  wire_version v -> write v bw = OK (bw ++ version_bytes v).
Proof.
  intros [? ? ? ? (n & Hn & Hl) (a & Ha & Hlen) ?]. unfold write, version_bytes.
  rewrite Hn, Ha. simpl default.
  unfold bio.writeU64, bio.writeU32, bio.writeU16, bio.writeU8, bio.writeBytes,
    bio.writeString.
  repeat first [rewrite writeUInt_OK by (assumption || reflexivity)
               | rewrite write_address_bytes by assumption
               | rewrite writeUInt_OK by (by destruct (noRelay v))
               | returns].
  by rewrite <- !app_assoc.
Qed.

End VersionCodec.

Section VersionRead.
Import packets.VersionPacket Spec.

Lemma version_bytes_length (v : t) :
  wire_version v ->
  forall a, agent v = Some a ->
  Z.of_nat (length (version_bytes v)) = 20 + 88 + 8 + 1 + string_length a + 5.
Proof.
  intros [? ? ? ? (n & Hn & Hl) _ ?] a Ha. unfold version_bytes.
  rewrite Hn, Ha. simpl default.
  rewrite !length_app, !le_bytes_length, address_bytes_length, Hl by assumption.
  rewrite <- string_codes_length. lia.
Qed.

Lemma read_version_bytes `{ip : IP.Binet} (v this : t) (rest : list Z) :
  valid_version v -> type this = type v ->
  read (version_bytes v ++ rest) this = OK (v, rest).
Proof.
  intros [? ? ? ? ? (n & Hn & Hl & _) (a & Ha & Hascii & Hlen) ?] Htype.
  unfold read, version_bytes. rewrite Hn, Ha. simpl default. rewrite <- !app_assoc.
  unfold bio.readU32, bio.readU8, bio.readString.
  rewrite readUInt_le_bytes by assumption. returns.
  rewrite readUInt_le_bytes by assumption. returns.
  rewrite readUInt_le_bytes by (simpl; lia). returns.
  rewrite readU64_le_bytes by assumption. returns.
  rewrite read_address_bytes by assumption. returns.
  rewrite readBytes_exact by lia. returns.
  rewrite readUInt_le_bytes by (unfold string_length in *; simpl; lia). returns.
  rewrite readBytes_exact by apply string_codes_length. returns. returns.
  rewrite readUInt_le_bytes by assumption. returns.
  rewrite readUInt_le_bytes by (destruct (noRelay v); simpl; lia). returns.
  rewrite ascii_slice_codes by assumption. rewrite Htype.
  destruct v as [? ? ? ? ? ? ? ? []]; simpl in *; subst; reflexivity.
Qed.

End VersionRead.

(** ** Round trip through the wire form *)

(** C1, evaluated.  For every valid record r and every valid version
    packet v, write succeeds; reading the written bytes into any record
    (any version packet) consumes them all and yields r (v) again,
    field for field: time, services, raw, host, hostname, port and key
    of the record; type, version, services, time, remote, nonce, agent,
    height and noRelay of the packet; and the static read of a record
    does the same.  The decode of a version packet throws a TypeError
    all the same: it constructs a packet first, and the constructor
    calls a name that holds no class.  With the class bound to the
    name, decode gives v back. *)
Theorem decode_of_write `{ip : IP.Binet} (now : Z)
    (r : NetAddress.t) (v : packets.VersionPacket.t)
    (Hr : Spec.valid_address r) (Hv : Spec.valid_version v) :
  (exists bytes,
     NetAddress.write r [] = OK bytes
     /\ (forall this, NetAddress.read bytes this = OK (r, []))
     /\ NetAddress.decode bytes = OK (r, []))
  /\ (exists bytes,
        packets.VersionPacket.write v [] = OK bytes
        /\ (forall this,
              packets.VersionPacket.type this = packets.types_VERSION ->
              packets.VersionPacket.read bytes this = OK (v, []))
        /\ packets.VersionPacket.decode now bytes = Throw TypeError
        /\ packets.VersionPacket.decode_with (Some packets.ClassObject) now bytes = OK v).
Proof.
  split.
  - exists (Spec.address_bytes r).
    split; [apply (write_address_bytes r []), valid_address_wire, Hr|].
    assert (forall this, NetAddress.read (Spec.address_bytes r) this = OK (r, [])) as Hread.
    { intros this. rewrite <- (app_nil_r (Spec.address_bytes r)).
      by apply read_address_bytes. }
    split; [exact Hread|]. unfold NetAddress.decode. simpl. apply Hread.
  - exists (Spec.version_bytes v).
    split; [apply (write_version_bytes v []), valid_version_wire, Hv|].
    assert (forall this,
              packets.VersionPacket.type this = packets.types_VERSION ->
              packets.VersionPacket.read (Spec.version_bytes v) this = OK (v, [])) as Hread.
    { intros this Htype. rewrite <- (app_nil_r (Spec.version_bytes v)).
      apply read_version_bytes; [exact Hv|].
      rewrite Htype. symmetry. apply Hv. }
    split; [exact Hread|]. split; [reflexivity|].
    unfold packets.VersionPacket.decode_with.
    change (packets.VersionPacket.construct (Some packets.ClassObject) now None)
      with (OK (packets.VersionPacket.mk 0 70015 0 now NetAddress.init None None 0 false)).
    returns. rewrite Hread by reflexivity. reflexivity.
Qed.

(** ** Size *)

(** C7: the size of a version packet is 20 + 88 + 8 + 1 + agent.length
    + 5, the size of a record is 88, and each is the number of bytes
    that write produces from the same state. *)
Theorem size_is_written_length
    (r : NetAddress.t) (v : packets.VersionPacket.t)
    (Hr : Spec.wire_address r) (Hv : Spec.wire_version v) :
  (exists a,
     packets.VersionPacket.agent v = Some a
     /\ packets.VersionPacket.getSize v = OK (20 + 88 + 8 + 1 + string_length a + 5))
  /\ (exists bytes,
        packets.VersionPacket.write v [] = OK bytes
        /\ packets.VersionPacket.getSize v = OK (Z.of_nat (length bytes)))
  /\ (exists bytes,
        NetAddress.write r [] = OK bytes
        /\ NetAddress.getSize r = 88
        /\ NetAddress.getSize r = Z.of_nat (length bytes)).
Proof.
  destruct (Spec.wv_agent v Hv) as (a & Ha & _).
  assert (packets.VersionPacket.getSize v = OK (20 + 88 + 8 + 1 + string_length a + 5)) as Hsize.
  { unfold packets.VersionPacket.getSize. rewrite Ha. reflexivity. }
  split; [by exists a|]. split.
  - exists (Spec.version_bytes v). split; [by apply (write_version_bytes v [])|].
    by rewrite (version_bytes_length v Hv a Ha).
  - exists (Spec.address_bytes r). split; [by apply (write_address_bytes r [])|].
    split; [reflexivity|]. by rewrite (address_bytes_length r Hr).
Qed.

(** ** The example of the round trip *)

Lemma is_bytes_check (bs : list Z) :
  forallb (fun b => (0 <=? b) && (b <? 256)) bs = true -> is_bytes bs.
Proof.
  intros H. apply Forall_forall. intros b Hb.
  rewrite forallb_forall in H. apply list_elem_of_In, H in Hb. unfold is_byte. lia.
Qed.

Lemma is_ascii_check (s : string) :
  forallb (fun c => c <? 128) (string_codes s) = true -> is_ascii s.
Proof.
  intros H. apply Forall_forall. intros b Hb.
  rewrite forallb_forall in H. apply list_elem_of_In, H in Hb. lia.
Qed.

Ltac check_numbers :=
  unfold Spec.u16, Spec.u32, Spec.u64, MAX_SAFE_INTEGER; simpl; lia.

Lemma decode_of_write_witness :
  Spec.valid_address (ip := SampleIP.binet) Example.remote
  /\ Spec.valid_version (ip := SampleIP.binet) Example.version
  /\ exists bytes,
       packets.VersionPacket.write Example.version [] = OK bytes
       /\ packets.VersionPacket.read (ip := SampleIP.binet) bytes Example.version
          = OK (Example.version, [])
       /\ packets.VersionPacket.decode (ip := SampleIP.binet) 1000000 bytes
          = Throw TypeError.
Proof.
  assert (Spec.valid_address (ip := SampleIP.binet) Example.remote) as Hr.
  { split; try check_numbers; try reflexivity.
    - apply is_bytes_check. reflexivity.
    - apply is_bytes_check. reflexivity. }
  assert (Spec.valid_version (ip := SampleIP.binet) Example.version) as Hv.
  { split; try check_numbers; try reflexivity; try exact Hr.
    - eexists. split; [reflexivity|]. split; [reflexivity|].
      apply is_bytes_check. reflexivity.
    - eexists. split; [reflexivity|]. split; [by apply is_ascii_check|].
      unfold string_length. simpl. lia. }
  split; [exact Hr|]. split; [exact Hv|].
  destruct (decode_of_write (ip := SampleIP.binet) 1000000 Example.remote Example.version
              Hr Hv)
    as [_ (bytes & Hwrite & Hread & Hdecode & _)].
  exists bytes. split; [exact Hwrite|]. split; [apply Hread; reflexivity | exact Hdecode].
Defined.

Lemma size_is_written_length_witness :
  Spec.wire_address Example.remote
  /\ Spec.wire_version Example.version
  /\ packets.VersionPacket.getSize Example.version = OK 132
  /\ exists bytes,
       packets.VersionPacket.write Example.version [] = OK bytes
       /\ length bytes = 132%nat.
Proof.
  assert (Spec.wire_address Example.remote) as Hr by (split; reflexivity).
  assert (Spec.wire_version Example.version) as Hv.
  { split; try reflexivity; try exact Hr.
    - eexists. split; reflexivity.
    - eexists. split; reflexivity. }
  split; [exact Hr|]. split; [exact Hv|]. split; [reflexivity|].
  destruct (size_is_written_length Example.remote Example.version Hr Hv)
    as (_ & (bytes & Hwrite & Hsize) & _).
  exists bytes. split; [exact Hwrite|].
  change (packets.VersionPacket.getSize Example.version) with (OK (A := Z) 132) in Hsize.
  injection Hsize as Hsize. lia.
Defined.

(** ** The JSON form *)

Lemma hex_value_digit (n : Z) : 0 <= n < 16 -> hex_value (hex_digit n) = Some n.
Proof.
  intros Hn.
  pose proof (below_forallb 16
    (fun n => bool_decide (hex_value (hex_digit n) = Some n)) eq_refl n Hn) as H.
  by apply bool_decide_eq_true in H.
Qed.

Lemma Buffer_from_hex_toString (bs : list Z) :
  is_bytes bs -> Buffer_from_hex (toString_hex bs) = bs.
Proof.
  unfold is_bytes. induction 1 as [|b bs Hb Hbs IH]; [reflexivity|].
  unfold is_byte in Hb. cbn [toString_hex Buffer_from_hex].
  rewrite !hex_value_digit.
  - rewrite IH. f_equal. pose proof (Z.div_mod b 16). lia.
  - apply Z.mod_pos_bound. lia.
  - split; [apply Z.div_pos; lia | apply Z.div_lt_upper_bound; lia].
Qed.

(** C8, as the code has it: for a valid record whose time is below
    2^32 and whose host the address parser accepts, fromJSON of the
    JSON form returns a record with the same host, port, services,
    time, key and hostname; the key travels as its hexadecimal form. *)
Theorem json_round_trip_u32_time `{ip : IP.Binet}
    (r this : NetAddress.t)
    (Hr : Spec.valid_address r)
    (Htime : NetAddress.time r < 2 ^ 32)
    (Hhost : returned (IP.toBuffer (NetAddress.host r))) :
  Spec.json_round_trip r this
  /\ NetAddress.j_key (NetAddress.getJSON r) = JStr (toString_hex (NetAddress.key r)).
Proof.
  split; [|reflexivity].
  destruct Hr. destruct Hhost as [raw' Hraw'].
  unfold Spec.json_round_trip, NetAddress.fromJSON, NetAddress.getJSON.
  cbn [NetAddress.j_host NetAddress.j_port NetAddress.j_services NetAddress.j_time
       NetAddress.j_key NetAddress.str_of NetAddress.num_of IP.toBuffer_any].
  rewrite (proj2 (and_is_self_u16 (JNum (NetAddress.port r)))) by eauto.
  rewrite !(proj2 (ushr0_is_self_u32 _)) by (unfold Spec.u32, Spec.u64 in *; eauto with lia).
  rewrite Hraw'. cbn [assert typeof String.eqb]. simpl mbind.
  unfold NetAddress.refresh_hostname. simpl.
  rewrite Buffer_from_hex_toString by assumption.
  unfold Spec.hostname_current in va_hostname. rewrite va_hostname. simpl.
  eexists. split; [reflexivity|]. simpl. tauto.
Qed.

Lemma json_round_trip_u32_time_witness :
  Spec.valid_address (ip := SampleIP.binet) Example.remote
  /\ Spec.json_round_trip (ip := SampleIP.binet) Example.remote
       (NetAddress.init (ip := SampleIP.binet)).
Proof.
  assert (Spec.valid_address (ip := SampleIP.binet) Example.remote) as Hr.
  { split; try check_numbers; try reflexivity.
    - apply is_bytes_check. reflexivity.
    - apply is_bytes_check. reflexivity. }
  split; [exact Hr|].
  apply (json_round_trip_u32_time (ip := SampleIP.binet) Example.remote NetAddress.init Hr).
  - simpl. lia.
  - eexists. reflexivity.
Defined.

(** C8, as stated, fails: a valid record stamped with a time in
    milliseconds, as fromHost stamps it, has a JSON form that fromJSON
    refuses, because its time does not fit in 32 bits. *)
Lemma json_round_trip_fails_on_large_time :
  Spec.valid_address (ip := SampleIP.binet) Example.stamped
  /\ returned (IP.toBuffer (Binet := SampleIP.binet) (NetAddress.host Example.stamped))
  /\ NetAddress.fromJSON (ip := SampleIP.binet) (NetAddress.getJSON Example.stamped)
       (NetAddress.init (ip := SampleIP.binet)) = Throw AssertionError
  /\ ~ Spec.json_round_trip (ip := SampleIP.binet) Example.stamped
         (NetAddress.init (ip := SampleIP.binet)).
Proof.
  assert (NetAddress.fromJSON (ip := SampleIP.binet) (NetAddress.getJSON Example.stamped)
            (NetAddress.init (ip := SampleIP.binet)) = Throw AssertionError) as Hthrow
    by reflexivity.
  split; [|split; [|split]].
  - split; try check_numbers; try reflexivity.
    + apply is_bytes_check. reflexivity.
    + apply is_bytes_check. reflexivity.
  - eexists. reflexivity.
  - exact Hthrow.
  - intros (r' & Hr' & _). rewrite Hthrow in Hr'. discriminate.
Qed.

(** ** The group key by bit copy *)

Section BitCopy.
Import NetAddress Spec.

Lemma copy_whole_step (raw out : list Z) (i start bits : Z) :
  8 <= bits ->
  copy_whole raw out i start bits =
    copy_whole raw (Buffer_set out i (Buffer_int raw start)) (i + 1) (start + 1) (bits - 8).
Proof.
  intros H. rewrite copy_whole_equation_1.
  destruct (Z_le_gt_dec 8 bits); [reflexivity | lia].
Qed.

Lemma copy_whole_exit (raw out : list Z) (i start bits : Z) :
  bits < 8 -> copy_whole raw out i start bits = (out, i, start, bits).
Proof.
  intros H. rewrite copy_whole_equation_1.
  destruct (Z_le_gt_dec 8 bits); [lia | reflexivity].
Qed.

Lemma Buffer_int_lookup (raw : list Z) (i : Z) (x : Z) :
  0 <= i -> raw !! Z.to_nat i = Some x -> Buffer_int raw i = x.
Proof.
  intros Hi Hx. unfold Buffer_int, Buffer_get.
  destruct (Z.ltb_spec i 0); [lia|]. by rewrite Hx.
Qed.

Lemma Buffer_set_end (pre rest : list Z) (old v : Z) :
  is_byte v ->
  Buffer_set (pre ++ old :: rest) (Z.of_nat (length pre)) v = (pre ++ [v]) ++ rest.
Proof.
  intros Hv. rewrite Buffer_set_nat, is_byte_mod by exact Hv.
  replace (length pre) with (length pre + 0)%nat at 1 by lia.
  rewrite insert_app_r. simpl. by rewrite <- app_assoc.
Qed.

(** The loop copies floor(bits / 8) bytes into the zeroes that follow
    what is already written, and leaves bits mod 8. *)
Lemma copy_whole_spec (k : nat) :
  forall (raw pre : list Z) (n : nat) (start bits : Z),
    is_bytes raw -> 0 <= bits -> bits / 8 = Z.of_nat k -> (k <= n)%nat ->
    0 <= start -> start + Z.of_nat k <= Z.of_nat (length raw) ->
    copy_whole raw (pre ++ replicate n 0) (Z.of_nat (length pre)) start bits =
      (pre ++ take k (drop (Z.to_nat start) raw) ++ replicate (n - k) 0,
       Z.of_nat (length pre) + Z.of_nat k, start + Z.of_nat k, bits mod 8).
Proof.
  induction k as [|k IH]; intros raw pre n start bits Hraw Hbits Hk Hn Hstart Hend.
  - rewrite copy_whole_exit by (Z.div_mod_to_equations; lia).
    rewrite Nat.sub_0_r, !Z.add_0_r. simpl.
    rewrite Z.mod_small by (Z.div_mod_to_equations; lia). reflexivity.
  - rewrite copy_whole_step by (Z.div_mod_to_equations; lia).
    destruct n as [|n]; [lia|].
    destruct (lookup_lt_is_Some_2 raw (Z.to_nat start)) as [x Hx]; [lia|].
    rewrite (Buffer_int_lookup raw start x Hstart Hx).
    assert (is_byte x) as Hbyte.
    { unfold is_bytes in Hraw. rewrite Forall_lookup in Hraw. eauto. }
    cbn [replicate]. rewrite Buffer_set_end by exact Hbyte.
    replace (Z.of_nat (length pre) + 1) with (Z.of_nat (length (pre ++ [x])))
      by (rewrite length_app; simpl; lia).
    rewrite IH; try assumption; try (Z.div_mod_to_equations; lia).
    rewrite (drop_S raw x (Z.to_nat start) Hx).
    replace (Z.to_nat (start + 1)) with (S (Z.to_nat start)) by lia.
    rewrite length_app. simpl length. cbn [take Nat.sub].
    rewrite <- !app_assoc. simpl.
    f_equal; [f_equal; [f_equal|]|].
    + lia.
    + lia.
    + Z.div_mod_to_equations; lia.
Qed.

Lemma lor_mask_byte (b bits : Z) :
  is_byte b -> 0 < bits < 8 -> is_byte (Z.lor b (Z.shiftl 1 (8 - bits) - 1)).
Proof.
  intros Hb Hbits.
  assert (forall m, In m [127; 63; 31; 15; 7; 3; 1] -> is_byte (Z.lor b m)) as Hm.
  { intros m Hin.
    pose proof (below_forallb 256
      (fun b => forallb (fun m => (0 <=? Z.lor b m) && (Z.lor b m <? 256))
                  [127; 63; 31; 15; 7; 3; 1]) eq_refl b Hb) as H.
    cbv beta in H. rewrite forallb_forall in H. specialize (H m Hin).
    unfold is_byte. lia. }
  apply Hm.
  assert (bits = 1 \/ bits = 2 \/ bits = 3 \/ bits = 4 \/ bits = 5 \/ bits = 6 \/ bits = 7)
    as Hcases by lia.
  destruct Hcases as [->|[->|[->|[->|[->|[->| ->]]]]]]; simpl; tauto.
Qed.

End BitCopy.

Section GroupKeyCopy.
Context `{ip : IP.Binet}.
Import NetAddress Spec.

(** What groupKey returns once the tests have selected a copy. *)
Lemma groupKey_copy (addr : t) (tag start bits : Z) :
  select addr = Copy tag start bits ->
  is_bytes (raw addr) -> is_byte tag -> 0 <= start -> 0 <= bits ->
  start + (bits + 7) / 8 <= Z.of_nat (length (raw addr)) ->
  groupKey addr = OK (group_bytes (raw addr) tag start bits).
Proof.
  intros Hsel Hraw Htag Hstart Hbits Hend.
  unfold groupKey. rewrite Hsel. cbv zeta.
  rewrite Z.shiftr_div_pow2 by lia. change (2 ^ 3) with 8.
  set (k := Z.to_nat (bits / 8)).
  set (m := Z.to_nat ((bits + 7) / 8)).
  assert (bits / 8 = Z.of_nat k) as Hk by (unfold k; Z.div_mod_to_equations; lia).
  assert (start + Z.of_nat k <= Z.of_nat (length (raw addr))) as Hin
    by (Z.div_mod_to_equations; lia).
  assert (length (take k (drop (Z.to_nat start) (raw addr))) = k) as Hcopied
    by (rewrite length_take, length_drop; lia).
  unfold Buffer_alloc.
  replace (Z.to_nat (1 + (bits + 7) / 8)) with (S m)
    by (unfold m; Z.div_mod_to_equations; lia).
  change (0 mod 256) with 0. cbn [replicate].
  change (Buffer_set (0 :: replicate m 0) 0 tag)
    with (Buffer_set ([] ++ 0 :: replicate m 0) (Z.of_nat (length (@nil Z))) tag).
  rewrite Buffer_set_end by exact Htag. cbn [app].
  change (0 + 1) with (Z.of_nat (length [tag])).
  change (tag :: replicate m 0) with ([tag] ++ replicate m 0).
  rewrite (copy_whole_spec k) by (try assumption; unfold m, k; Z.div_mod_to_equations; lia).
  unfold group_bytes, group_bytes_with. fold k. rewrite Hk.
  destruct (Z.eqb_spec (bits mod 8) 0) as [Hrem|Hrem].
  - rewrite Hrem. change (0 <? 0) with false. cbv iota.
    replace (m - k)%nat with 0%nat by (unfold m, k; Z.div_mod_to_equations; lia).
    cbn [replicate]. rewrite app_nil_r.
    rewrite assert_true_continues; [reflexivity|].
    apply Z.eqb_eq. rewrite length_app, Hcopied. simpl. lia.
  - assert (0 < bits mod 8 < 8) as Hpart by (Z.div_mod_to_equations; lia).
    destruct (Z.ltb_spec 0 (bits mod 8)) as [_|]; [|lia]. cbv iota.
    replace (m - k)%nat with 1%nat by (unfold m, k; Z.div_mod_to_equations; lia).
    cbn [replicate].
    assert (is_byte (Z.lor (Buffer_int (raw addr) (start + Z.of_nat k))
                       (Z.shiftl 1 (8 - bits mod 8) - 1))) as Hlast
      by (apply lor_mask_byte; [by apply Buffer_int_byte | exact Hpart]).
    rewrite app_assoc.
    replace (Z.of_nat (length [tag]) + Z.of_nat k)
      with (Z.of_nat (length ([tag] ++ take k (drop (Z.to_nat start) (raw addr)))))
      by (rewrite length_app, Hcopied; lia).
    rewrite Buffer_set_end by exact Hlast. rewrite app_nil_r.
    rewrite assert_true_continues.
    + rewrite <- app_assoc. reflexivity.
    + apply Z.eqb_eq. rewrite !length_app, Hcopied. simpl. lia.
Qed.

Lemma select_branch (addr : t) (tag offset bits : Z) :
  group_branch addr tag offset bits -> select addr = Copy tag offset bits.
Proof.
  assert (forall a b c, ~ (a = true \/ b = true \/ c = true) -> a || b || c = false)
    as Hnone by (intros [] [] []; tauto).
  unfold mapped_ipv4, provider_block.
  destruct 1 as [Hl|Hl Hr|Hl Hr Hm|Hl Hr Hm H1|Hl Hr Hm H1 H2 H3
                 |Hl Hr Hm H1 H2 H3 Hp|Hl Hr Hm H1 H2 H3 Hp];
    unfold select; rewrite Hl; try rewrite Hr; cbn [negb]; try reflexivity.
  - destruct Hm as [-> | [-> | ->]]; by rewrite ?orb_true_r.
  - by rewrite (Hnone _ _ _ Hm), H1.
  - by rewrite (Hnone _ _ _ Hm), H1, H2, H3.
  - rewrite (Hnone _ _ _ Hm), H1, H2, H3.
    destruct Hp as (? & ? & ? & ?). by rewrite !bool_decide_eq_true_2.
  - rewrite (Hnone _ _ _ Hm), H1, H2, H3.
    repeat case_bool_decide; try reflexivity.
    exfalso. apply Hp. repeat split; assumption.
Qed.

Lemma group_branch_bounds (addr : t) (tag offset bits : Z) :
  byte_tags -> group_branch addr tag offset bits ->
  is_byte tag /\ 0 <= offset /\ 0 <= bits /\ offset + (bits + 7) / 8 <= 16
  /\ (bits = 0 \/ bits = 4 \/ bits = 16 \/ bits = 32 \/ bits = 36).
Proof.
  intros (Hnone & Hinet4 & Hinet6 & Honion).
  destruct 1; (split; [assumption || (unfold is_byte; lia)|]);
    (split; [lia|]); (split; [lia|]); (split; [vm_compute; congruence | lia]).
Qed.

End GroupKeyCopy.

(** C3, as the code has it: on every case but the RFC4380 one the group
    key has 1 + ceil(bits / 8) bytes: the tag of the case, then
    floor(bits / 8) bytes of the address from the offset of the case
    on, then, when bits is not a multiple of 8, the byte of the address
    that follows the copied ones, raw[offset + floor(bits / 8)], with
    its low 8 - bits mod 8 bits set to 1.  A local or unroutable
    address yields the tag alone. *)
Theorem groupKey_bit_copy `{ip : IP.Binet}
    (addr : NetAddress.t) (tag offset bits : Z)
    (Hlen : length (NetAddress.raw addr) = 16%nat)
    (Hraw : is_bytes (NetAddress.raw addr))
    (Htags : Spec.byte_tags)
    (Hbranch : Spec.group_branch addr tag offset bits) :
  NetAddress.groupKey addr = OK (Spec.group_bytes (NetAddress.raw addr) tag offset bits)
  /\ Z.of_nat (length (Spec.group_bytes (NetAddress.raw addr) tag offset bits))
     = 1 + Spec.ceil8 bits
  /\ (bits = 0 -> NetAddress.groupKey addr = OK [tag]).
Proof.
  destruct (group_branch_bounds addr tag offset bits Htags Hbranch)
    as (Htag & Hoffset & Hbits & Hend & Hcases).
  assert (NetAddress.groupKey addr = OK (Spec.group_bytes (NetAddress.raw addr) tag offset bits))
    as Hkey.
  { apply groupKey_copy; try assumption; [by apply select_branch | lia]. }
  split; [exact Hkey|]. split.
  - unfold Spec.group_bytes, Spec.group_bytes_with, Spec.ceil8.
    cbn [length]. rewrite length_app, length_take, length_drop, Hlen.
    destruct (bits mod 8 =? 0); cbn [length]; Z.div_mod_to_equations; lia.
  - intros ->. rewrite Hkey. reflexivity.
Qed.

Lemma groupKey_bit_copy_witness :
  Spec.group_branch (ip := SampleIP.binet) Example.remote 255 0 0
  /\ NetAddress.groupKey (ip := SampleIP.binet) Example.remote = OK [255].
Proof.
  assert (Spec.group_branch (ip := SampleIP.binet) Example.remote 255 0 0) as Hb
    by (apply Spec.branch_local; reflexivity).
  split; [exact Hb|].
  refine (proj2 (proj2 (groupKey_bit_copy (ip := SampleIP.binet) Example.remote 255 0 0
    _ _ _ Hb)) eq_refl).
  - reflexivity.
  - apply is_bytes_check. reflexivity.
  - unfold Spec.byte_tags, is_byte. simpl. lia.
Defined.

(** C3, as stated, fails on the 36-bit case: the last byte of the key
    of 2001:470:ab00::1 is raw[4] OR 0x0f = 0xaf, where the statement
    has raw[0] OR 0x0f = 0x2f. *)
Lemma groupKey_last_byte_not_at_offset :
  Spec.group_branch (ip := SampleIP.binet) Example.tunnel 2 0 36
  /\ NetAddress.groupKey (ip := SampleIP.binet) Example.tunnel
     = OK [2; 0x20; 0x01; 0x04; 0x70; 0xaf]
  /\ Spec.group_bytes_as_stated (NetAddress.raw Example.tunnel) 2 0 36
     = [2; 0x20; 0x01; 0x04; 0x70; 0x2f]
  /\ NetAddress.groupKey (ip := SampleIP.binet) Example.tunnel
     <> OK (Spec.group_bytes_as_stated (NetAddress.raw Example.tunnel) 2 0 36).
Proof.
  split; [|split; [|split]].
  - apply (Spec.branch_provider_block (ip := SampleIP.binet)); try reflexivity.
    + intros [H|[H|H]]; discriminate H.
    + repeat split.
  - reflexivity.
  - reflexivity.
  - intros H. vm_compute in H. discriminate H.
Qed.

(** ** Examples *)

(** The address 127.0.0.1:8333 made by fromHost, written and decoded. *)
Example fromHost_round_trip :
  exists r bytes r',
    NetAddress.fromHost (ip := SampleIP.binet) 1000000 "127.0.0.1" 8333 JUndefined
      (NetAddress.init (ip := SampleIP.binet)) = OK r
    /\ NetAddress.write r [] = OK bytes
    /\ NetAddress.decode (ip := SampleIP.binet) bytes = OK (r', [])
    /\ NetAddress.host r' = "127.0.0.1"
    /\ NetAddress.port r' = 8333
    /\ NetAddress.hasKey r' = false.
Proof. do 3 eexists. repeat split; reflexivity. Qed.

(** A routable IPv4 address: the tag and the first two bytes of the
    address, taken at offset 12 of the raw form. *)
Example groupKey_ipv4 :
  exists r,
    NetAddress.fromHost (ip := SampleIP.binet) 0 "8.1.2.3" 8333 JUndefined
      (NetAddress.init (ip := SampleIP.binet)) = OK r
    /\ NetAddress.groupKey (ip := SampleIP.binet) r = OK [1; 8; 1].
Proof. eexists. split; reflexivity. Qed.

(** A length byte wraps: an agent of 256 characters is written with the
    length byte 0, and the bytes no longer read back as the packet. *)
Example agent_length_wraps :
  let agent := string_of_list_ascii (replicate 256 "a"%char) in
  let v := packets.VersionPacket.mk 0 70015 1 1000000 Example.remote
             (Some [1; 2; 3; 4; 5; 6; 7; 8]) (Some agent) 42 true in
  exists bytes,
    packets.VersionPacket.write v [] = OK bytes
    /\ bytes !! 116%nat = Some 0
    /\ packets.VersionPacket.read (ip := SampleIP.binet) bytes v <> OK (v, []).
Proof.
  eexists. split; [reflexivity|]. split; [reflexivity|].
  vm_compute. discriminate.
Qed.

(** * Further properties of the modelled code *)

(** ** What a read consumes *)

(* The call on the left of the bind in [H] has returned [p]; [E] records it. *)
Tactic Notation "step" hyp(H) "as" simple_intropattern(p) "by" ident(E) :=
  apply bind_OK in H; destruct H as (p & E & H).

Section ReadInversion.
Import bio.

Lemma readBytes_inv (size : Z) (br br' bs : list Z) :
  readBytes size br = OK (bs, br') ->
  0 <= size <= Z.of_nat (length br)
  /\ bs = take (Z.to_nat size) br /\ br' = drop (Z.to_nat size) br.
Proof.
  unfold readBytes.
  destruct (Z.leb_spec 0 size); [|discriminate].
  destruct (Z.leb_spec size (Z.of_nat (length br))); [|discriminate].
  simpl. intros [= <- <-]. auto with lia.
Qed.

Lemma readUInt_inv (w : nat) (br br' : list Z) (v : Z) :
  readUInt w br = OK (v, br') ->
  (w <= length br)%nat /\ v = le_value (take w br) /\ br' = drop w br.
Proof.
  unfold readUInt. intros H. bind_inv H. destruct a as [bs rest].
  apply readBytes_inv in Ha as (Hsize & -> & ->). rewrite Nat2Z.id in *.
  injection H as <- <-. auto with lia.
Qed.

Lemma seek_inv (off : Z) (br br' : list Z) :
  seek off br = OK br' ->
  0 <= off <= Z.of_nat (length br) /\ br' = drop (Z.to_nat off) br.
Proof.
  unfold seek. intros H. bind_inv H. destruct a as [bs rest].
  apply readBytes_inv in Ha as (Hsize & _ & ->). injection H as <-. auto.
Qed.

Lemma le_value_app (a b : list Z) :
  le_value (a ++ b) = le_value a + 2 ^ (8 * Z.of_nat (length a)) * le_value b.
Proof.
  induction a as [|x a IH]; [simpl; lia|].
  cbn [app le_value length]. rewrite IH.
  replace (8 * Z.of_nat (S (length a))) with (8 + 8 * Z.of_nat (length a)) by lia.
  rewrite Z.pow_add_r by lia. change (2 ^ 8) with 256. lia.
Qed.

Lemma le_value_bound (bs : list Z) :
  is_bytes bs -> 0 <= le_value bs < 2 ^ (8 * Z.of_nat (length bs)).
Proof.
  unfold is_bytes. induction 1 as [|b bs Hb Hbs IH]; [simpl; lia|].
  unfold is_byte in Hb. cbn [le_value length].
  replace (8 * Z.of_nat (S (length bs))) with (8 + 8 * Z.of_nat (length bs)) by lia.
  rewrite Z.pow_add_r by lia. change (2 ^ 8) with 256. nia.
Qed.

Lemma is_bytes_take (n : nat) (bs : list Z) : is_bytes bs -> is_bytes (take n bs).
Proof. apply Forall_take. Qed.

Lemma is_bytes_drop (n : nat) (bs : list Z) : is_bytes bs -> is_bytes (drop n bs).
Proof. apply Forall_drop. Qed.

Lemma high_word_checked (hi : Z) :
  0 <= hi < 2 ^ 32 -> Z.land hi 0xffe00000 = 0 -> hi < 2 ^ 21.
Proof.
  intros Hhi Hland.
  assert (Z.shiftr (Z.land hi 0xffe00000) 21 = hi / 2 ^ 21) as Hshift.
  { rewrite Z.shiftr_land. change (Z.shiftr 0xffe00000 21) with (Z.ones 11).
    rewrite Z.land_ones by lia. rewrite Z.shiftr_div_pow2 by lia.
    apply Z.mod_small. split; [apply Z.div_pos; lia|].
    apply Z.div_lt_upper_bound; lia. }
  rewrite Hland in Hshift. change (Z.shiftr 0 21) with 0 in Hshift.
  symmetry in Hshift. apply Z.div_small_iff in Hshift; lia.
Qed.

Lemma readU64_inv (br br' : list Z) (v : Z) :
  readU64 br = OK (v, br') ->
  (8 <= length br)%nat /\ v = le_value (take 8 br) /\ br' = drop 8 br
  /\ (is_bytes br -> 0 <= v <= MAX_SAFE_INTEGER).
Proof.
  unfold readU64, readU32. intros H.
  bind_inv H. destruct a as [lo br1]. apply readUInt_inv in Ha as (Hlen1 & -> & ->).
  bind_inv H. destruct a as [hi br2]. apply readUInt_inv in Ha as (Hlen2 & -> & ->).
  rewrite length_drop in Hlen2.
  destruct (Z.eqb_spec (Z.land (le_value (take 4 (drop 4 br))) 0xffe00000) 0) as [Hhi|];
    [|discriminate].
  injection H as <- <-. rewrite drop_drop.
  assert (take 8 br = take 4 br ++ take 4 (drop 4 br)) as Hsplit.
  { by rewrite (take_take_drop br 4 4). }
  split; [lia|]. split; [|split; [reflexivity|]].
  - rewrite Hsplit, le_value_app, length_take.
    replace (4 `min` length br)%nat with 4%nat by lia.
    change (2 ^ (8 * Z.of_nat 4)) with 4294967296. lia.
  - intros Hbytes.
    pose proof (le_value_bound (take 4 br) (is_bytes_take 4 br Hbytes)) as Hlo.
    pose proof (le_value_bound (take 4 (drop 4 br))
                  (is_bytes_take 4 _ (is_bytes_drop 4 br Hbytes))) as Hhi'.
    rewrite !length_take, ?length_drop in *.
    replace (4 `min` length br)%nat with 4%nat in Hlo by lia.
    replace (4 `min` (length br - 4))%nat with 4%nat in Hhi' by lia.
    change (2 ^ (8 * Z.of_nat 4)) with (2 ^ 32) in *.
    pose proof (high_word_checked _ Hhi' Hhi). unfold MAX_SAFE_INTEGER. lia.
Qed.

End ReadInversion.

Section AddressRead.
Context `{ip : IP.Binet}.
Import NetAddress Spec.

Lemma le_value_one (br : list Z) (i : nat) :
  (i < length br)%nat ->
  le_value (take 1 (drop i br)) = default 0 (br !! i).
Proof.
  intros Hi. destruct (lookup_lt_is_Some_2 br i Hi) as [x Hx].
  rewrite (drop_S br x i Hx), Hx. simpl. lia.
Qed.

(** Where read finds each field; the bytes at 12..15 and 33..52 are
    skipped, and the address bytes are skipped too when the byte at 16
    is not zero. *)
Lemma read_layout (br br' : list Z) (this r : t) :
  read br this = OK (r, br') ->
  (88 <= length br)%nat /\ br' = drop 88 br
  /\ time r = le_value (take 8 br)
  /\ services r = le_value (take 4 (drop 8 br))
  /\ raw r = (if bool_decide (br !! 16%nat = Some 0)
              then take 16 (drop 17 br) else replicate 16 0)
  /\ port r = le_value (take 2 (drop 53 br))
  /\ key r = take 33 (drop 55 br)
  /\ host r = IP.toString (raw r)
  /\ hostname_current r
  /\ (is_bytes br -> 0 <= time r <= MAX_SAFE_INTEGER).
Proof.
  unfold read. intros H.
  step H as [vtime br1] by E. apply readU64_inv in E as (L1 & -> & -> & Hsafe).
  step H as [vserv br2] by E. apply readUInt_inv in E as (L2 & -> & ->).
  step H as [vhigh br3] by E. apply readUInt_inv in E as (L3 & _ & ->).
  step H as [d br4] by E. apply readUInt_inv in E as (L4 & -> & ->).
  step H as [this1 br5] by Hbranch.
  step H as [vport br6] by E. apply readUInt_inv in E as (L6 & -> & ->).
  step H as [vkey br7] by E. apply readBytes_inv in E as (L7 & -> & ->).
  step H as this2 by E. injection H as <- <-.
  apply refresh_hostname_OK in E as (Hname & Hhost & Hport & Hserv & Htime & Hraw & Hkey).
  cbn in Hhost, Hport, Hserv, Htime, Hraw, Hkey.
  rewrite !drop_drop in *. rewrite !length_drop in *. cbn [Nat.add] in *.
  rewrite le_value_one in Hbranch by lia.
  assert ((88 <= length br)%nat /\ br5 = drop 53 br
          /\ raw this1 = (if bool_decide (br !! 16%nat = Some 0)
                          then take 16 (drop 17 br) else replicate 16 0)
          /\ time this1 = le_value (take 8 br)
          /\ services this1 = le_value (take 4 (drop 8 br))) as (L & -> & Hraw1 & Htime1 & Hserv1).
  { destruct (lookup_lt_is_Some_2 br 16) as [x Hx]; [lia|].
    rewrite Hx in Hbranch. simpl in Hbranch. rewrite Hx.
    destruct (Z.eqb_spec x 0) as [Hx0|Hx0].
    - rewrite Hx0.
      step Hbranch as [vraw br8] by E. apply readBytes_inv in E as (L8 & -> & ->).
      step Hbranch as br9 by E. apply seek_inv in E as (L9 & ->).
      injection Hbranch as <- <-.
      rewrite !length_drop, !drop_drop in *. simpl in *.
      rewrite ?bool_decide_eq_true_2 by reflexivity. auto with lia.
    - step Hbranch as br9 by E. apply seek_inv in E as (L9 & ->).
      injection Hbranch as <- <-.
      rewrite !length_drop, !drop_drop in *. simpl in *.
      rewrite ?bool_decide_eq_false_2 by congruence. auto with lia. }
  rewrite !drop_drop in *. rewrite !length_drop in *. cbn [Nat.add] in *.
  simpl in L7.
  split; [lia|]. split; [reflexivity|].
  split; [by rewrite Htime|]. split; [by rewrite Hserv|].
  split; [by rewrite Hraw|]. split; [exact Hport|]. split; [exact Hkey|].
  split; [by rewrite Hraw|]. split; [exact Hname|].
  intros Hb. rewrite Htime, Htime1. apply Hsafe, Hb.
Qed.

End AddressRead.

Section AddressReadShape.
Context `{ip : IP.Binet}.
Import NetAddress Spec.

Lemma le_value_take_bound (w n : nat) (br : list Z) :
  is_bytes br -> (n + w <= length br)%nat ->
  0 <= le_value (take w (drop n br)) < 2 ^ (8 * Z.of_nat w).
Proof.
  intros Hb Hlen.
  pose proof (le_value_bound (take w (drop n br))
                (is_bytes_take w _ (is_bytes_drop n br Hb))) as H.
  rewrite length_take, length_drop in H.
  by replace (w `min` (length br - n))%nat with w in H by lia.
Qed.

Lemma is_bytes_zeroes (n : nat) : is_bytes (replicate n 0).
Proof. apply Forall_replicate. unfold is_byte. lia. Qed.

Lemma read_valid (br br' : list Z) (this r : t) :
  is_bytes br -> read br this = OK (r, br') -> valid_address r.
Proof.
  intros Hb H.
  apply read_layout in H
    as (L & _ & Htime & Hserv & Hraw & Hport & Hkey & Hhost & Hname & Hsafe).
  split.
  - apply Hsafe, Hb.
  - rewrite Hserv. apply (le_value_take_bound 4 8 br Hb). lia.
  - rewrite Hport. pose proof (le_value_take_bound 2 53 br Hb). unfold u16.
    change (2 ^ (8 * Z.of_nat 2)) with 65536 in *. lia.
  - rewrite Hraw. case_bool_decide.
    + rewrite length_take, length_drop. lia.
    + apply length_replicate.
  - rewrite Hraw. case_bool_decide.
    + by apply is_bytes_take, is_bytes_drop.
    + apply is_bytes_zeroes.
  - rewrite Hkey, length_take, length_drop. lia.
  - rewrite Hkey. by apply is_bytes_take, is_bytes_drop.
  - exact Hhost.
  - exact Hname.
Qed.

End AddressReadShape.

(** X1: read returns only when at least 88 bytes are left, and then it
    leaves exactly what follows the first 88, whichever branch the
    discriminant selects; on a shorter input it throws. *)
Theorem read_takes_88_bytes `{ip : IP.Binet} (br : list Z) (this : NetAddress.t) :
  ((length br < 88)%nat -> thrown (NetAddress.read br this))
  /\ (forall r br', NetAddress.read br this = OK (r, br') ->
        (88 <= length br)%nat /\ br' = drop 88 br
        /\ length (NetAddress.raw r) = 16%nat /\ length (NetAddress.key r) = 33%nat).
Proof.
  split.
  - intros Hshort. destruct (NetAddress.read br this) as [[r br']|e] eqn:E.
    + apply read_layout in E as (L & _). lia.
    + apply thrown_Throw.
  - intros r br' H.
    apply read_layout in H as (L & Hrest & _ & _ & Hraw & _ & Hkey & _).
    split; [exact L|]. split; [exact Hrest|]. split.
    + rewrite Hraw. case_bool_decide.
      * rewrite length_take, length_drop. lia.
      * apply length_replicate.
    + rewrite Hkey, length_take, length_drop. lia.
Qed.

Lemma read_takes_88_bytes_witness :
  (length [1; 2; 3] < 88)%nat
  /\ thrown (NetAddress.read (ip := SampleIP.binet) [1; 2; 3]
               (NetAddress.init (ip := SampleIP.binet))).
Proof.
  split; [simpl; lia|].
  apply (proj1 (read_takes_88_bytes (ip := SampleIP.binet) [1; 2; 3]
                  (NetAddress.init (ip := SampleIP.binet)))).
  simpl. lia.
Defined.

(** X2: whatever the bytes are, a record returned by read satisfies the
    invariants of the data model: time up to 2^53 - 1, 32-bit services,
    16-bit port, 16-byte raw, 33-byte key, host and hostname derived
    from them. *)
Theorem read_yields_valid_address `{ip : IP.Binet}
    (br br' : list Z) (this r : NetAddress.t)
    (Hbytes : is_bytes br)
    (Hread : NetAddress.read br this = OK (r, br')) :
  Spec.valid_address r.
Proof. exact (read_valid br br' this r Hbytes Hread). Qed.

(** X3: when the discriminant byte, at offset 16, is zero, the 16
    bytes after it are the raw address and the 20 reserved bytes that
    follow are skipped; when it is not zero, the raw address is 16 zero
    bytes and the 36 bytes after the discriminant are skipped.  Either
    way the port is read from the offsets 53 and 54, the key from the
    offsets 55 to 87, and what is left starts at offset 88. *)
Theorem read_discriminant `{ip : IP.Binet}
    (br br' : list Z) (this r : NetAddress.t)
    (Hread : NetAddress.read br this = OK (r, br')) :
  (br !! 16%nat <> Some 0 -> NetAddress.raw r = replicate 16 0)
  /\ (br !! 16%nat = Some 0 -> NetAddress.raw r = take 16 (drop 17 br))
  /\ NetAddress.port r = le_value (take 2 (drop 53 br))
  /\ NetAddress.key r = take 33 (drop 55 br)
  /\ br' = drop 88 br.
Proof.
  apply read_layout in Hread as (_ & Hrest & _ & _ & Hraw & Hport & Hkey & _).
  rewrite Hraw. split; [|split; [|auto]]; intros H.
  - by rewrite bool_decide_eq_false_2.
  - by rewrite bool_decide_eq_true_2.
Qed.

(** X4: a record returned by read can be written, in 88 bytes, and
    reading those bytes gives the same record again: decoding is stable
    under re-encoding, although the bytes written may differ from the
    ones read (reserved bytes, an ignored address). *)
Theorem read_write_read `{ip : IP.Binet}
    (br br' : list Z) (this r : NetAddress.t)
    (Hbytes : is_bytes br)
    (Hread : NetAddress.read br this = OK (r, br')) :
  exists bytes,
    NetAddress.write r [] = OK bytes
    /\ length bytes = 88%nat
    /\ forall this' rest, NetAddress.read (bytes ++ rest) this' = OK (r, rest).
Proof.
  pose proof (read_valid br br' this r Hbytes Hread) as Hvalid.
  exists (Spec.address_bytes r).
  split; [apply (write_address_bytes r []), valid_address_wire, Hvalid|].
  split; [apply address_bytes_length, valid_address_wire, Hvalid|].
  intros this' rest. by apply read_address_bytes.
Qed.

Lemma read_yields_valid_address_witness :
  is_bytes Example.legacy_bytes
  /\ exists r,
       NetAddress.read (ip := SampleIP.binet) Example.legacy_bytes
         (NetAddress.init (ip := SampleIP.binet)) = OK (r, [])
       /\ Spec.valid_address (ip := SampleIP.binet) r.
Proof.
  assert (is_bytes Example.legacy_bytes) as Hb by (apply is_bytes_check; reflexivity).
  split; [exact Hb|]. eexists. split; [vm_compute; reflexivity|].
  eapply (read_yields_valid_address (ip := SampleIP.binet) Example.legacy_bytes []
            (NetAddress.init (ip := SampleIP.binet)) _ Hb).
  vm_compute. reflexivity.
Defined.

Lemma read_discriminant_witness :
  exists r,
    NetAddress.read (ip := SampleIP.binet) Example.legacy_bytes
      (NetAddress.init (ip := SampleIP.binet)) = OK (r, [])
    /\ NetAddress.raw r = replicate 16 0
    /\ NetAddress.port r = 8333.
Proof.
  assert (exists r, NetAddress.read (ip := SampleIP.binet) Example.legacy_bytes
            (NetAddress.init (ip := SampleIP.binet)) = OK (r, [])) as [r Hr]
    by (eexists; vm_compute; reflexivity).
  exists r. split; [exact Hr|].
  destruct (read_discriminant (ip := SampleIP.binet) Example.legacy_bytes []
              (NetAddress.init (ip := SampleIP.binet)) r Hr)
    as (Hzero & _ & Hport & _).
  split; [apply Hzero; vm_compute; discriminate|].
  rewrite Hport. vm_compute. reflexivity.
Defined.

Lemma read_write_read_witness :
  exists r bytes,
    NetAddress.read (ip := SampleIP.binet) Example.legacy_bytes
      (NetAddress.init (ip := SampleIP.binet)) = OK (r, [])
    /\ NetAddress.write r [] = OK bytes
    /\ bytes <> Example.legacy_bytes
    /\ NetAddress.read (ip := SampleIP.binet) (bytes ++ [])
         (NetAddress.init (ip := SampleIP.binet)) = OK (r, []).
Proof.
  assert (is_bytes Example.legacy_bytes) as Hb by (apply is_bytes_check; reflexivity).
  assert (exists r, NetAddress.read (ip := SampleIP.binet) Example.legacy_bytes
            (NetAddress.init (ip := SampleIP.binet)) = OK (r, [])) as [r Hr]
    by (eexists; vm_compute; reflexivity).
  destruct (read_write_read (ip := SampleIP.binet) Example.legacy_bytes [] _ r Hb Hr)
    as (bytes & Hw & Hlen & Hread).
  exists r, bytes. split; [exact Hr|]. split; [exact Hw|]. split; [|apply Hread].
  intros ->. vm_compute in Hr. injection Hr as <-. vm_compute in Hw. discriminate Hw.
Defined.

(** ** What the read of a version packet consumes *)

Lemma ascii_slice_length (bs : list Z) :
  string_length (ascii_slice bs) = Z.of_nat (length bs).
Proof.
  unfold string_length. induction bs as [|b bs IH]; simpl; [reflexivity|].
  f_equal. lia.
Qed.

Lemma ascii_slice_is_ascii (bs : list Z) : is_ascii (ascii_slice bs).
Proof.
  unfold is_ascii. induction bs as [|b bs IH]; simpl; [constructor|].
  constructor; [|exact IH].
  change 127 with (Z.ones 7). rewrite Z.land_ones by lia.
  pose proof (Z.mod_pos_bound b (2 ^ 7)) as Hm. change (2 ^ 7) with 128 in *.
  rewrite nat_ascii_embedding by lia. lia.
Qed.

Section VersionReadShape.
Context `{ip : IP.Binet}.
Import packets.VersionPacket Spec.

(** Where read finds each field: the agent takes as many bytes as the
    byte at offset 116 says. *)
Lemma read_version_layout (br br' : list Z) (this v : t) :
  read br this = OK (v, br') ->
  let len := Z.to_nat (default 0 (br !! 116%nat)) in
  (122 + len <= length br)%nat /\ br' = drop (122 + len) br
  /\ type v = type this
  /\ version v = le_value (take 4 br)
  /\ services v = le_value (take 4 (drop 4 br))
  /\ time v = le_value (take 8 (drop 12 br))
  /\ NetAddress.read (drop 20 br) (remote this) = OK (remote v, drop 108 br)
  /\ nonce v = Some (take 8 (drop 108 br))
  /\ agent v = Some (ascii_slice (take len (drop 117 br)))
  /\ height v = le_value (take 4 (drop (117 + len) br))
  /\ noRelay v = bool_decide (br !! (121 + len)%nat = Some 1)
  /\ (is_bytes br -> 0 <= time v <= MAX_SAFE_INTEGER).
Proof.
  unfold read. intros H.
  step H as [vversion br1] by E. apply readUInt_inv in E as (L1 & -> & ->).
  step H as [vserv br2] by E. apply readUInt_inv in E as (L2 & -> & ->).
  step H as [vhigh br3] by E. apply readUInt_inv in E as (L3 & _ & ->).
  step H as [vtime br4] by E. apply readU64_inv in E as (L4 & -> & -> & Hsafe).
  step H as [vremote br5] by Hremote.
  rewrite !drop_drop in *. rewrite !length_drop in *. cbn [Nat.add] in * |-.
  pose proof (read_layout _ _ _ _ Hremote) as (L5 & -> & _).
  step H as [vnonce br6] by E. apply readBytes_inv in E as (L6 & -> & ->).
  step H as [vlen br7] by E. apply readUInt_inv in E as (L7 & -> & ->).
  rewrite !drop_drop in *. rewrite !length_drop in *.
  change (Z.to_nat 8) with 8%nat in *. cbn [Nat.add] in * |-.
  rewrite le_value_one in H by lia.
  set (len := Z.to_nat (default 0 (br !! 116%nat))) in *.
  step H as [vagent br8] by E. unfold bio.readString in E.
  step E as [bs br9] by E'. apply readBytes_inv in E' as (L8 & -> & ->).
  injection E as <- <-. fold len in H |- *.
  step H as [vheight br10] by E. apply readUInt_inv in E as (L9 & -> & ->).
  step H as [vflag br11] by E. apply readUInt_inv in E as (L10 & -> & ->).
  injection H as <- <-.
  rewrite !drop_drop in *. rewrite !length_drop in *.
  cbn [type version services time remote nonce agent height noRelay].
  split; [lia|]. split; [f_equal; lia|]. split; [reflexivity|].
  split; [reflexivity|]. split; [reflexivity|]. split; [reflexivity|].
  split; [exact Hremote|]. split; [reflexivity|]. split; [reflexivity|].
  split; [repeat (f_equal; try lia)|]. split.
  - rewrite le_value_one by lia.
    replace (117 + len + 4)%nat with (121 + len)%nat by lia.
    destruct (lookup_lt_is_Some_2 br (121 + len)) as [x Hx]; [lia|].
    rewrite Hx. simpl. destruct (Z.eqb_spec x 1) as [->|Hne].
    + by rewrite bool_decide_eq_true_2.
    + rewrite bool_decide_eq_false_2; [reflexivity | congruence].
  - intros Hb. apply Hsafe. by apply is_bytes_drop.
Qed.

Lemma read_version_valid (br br' : list Z) (this v : t) :
  is_bytes br -> type this = packets.types_VERSION ->
  read br this = OK (v, br') -> valid_version v.
Proof.
  intros Hb Htype H.
  apply read_version_layout in H
    as (L & _ & Ht & Hversion & Hserv & Htime & Hremote & Hnonce & Hagent & Hheight
        & _ & Hsafe).
  set (len := Z.to_nat (default 0 (br !! 116%nat))) in *.
  assert (len <= 255)%nat as Hlen.
  { unfold len. destruct (br !! 116%nat) as [x|] eqn:Hx; simpl; [|lia].
    unfold is_bytes in Hb. rewrite Forall_lookup in Hb.
    specialize (Hb _ _ Hx). unfold is_byte in Hb. lia. }
  split.
  - by rewrite Ht.
  - rewrite Hversion. apply (le_value_take_bound 4 0 br Hb). lia.
  - rewrite Hserv. apply (le_value_take_bound 4 4 br Hb). lia.
  - apply Hsafe, Hb.
  - eapply read_valid; [|exact Hremote]. by apply is_bytes_drop.
  - eexists. split; [exact Hnonce|]. split.
    + rewrite length_take, length_drop. lia.
    + by apply is_bytes_take, is_bytes_drop.
  - eexists. split; [exact Hagent|]. split; [apply ascii_slice_is_ascii|].
    rewrite ascii_slice_length, length_take. lia.
  - rewrite Hheight. apply (le_value_take_bound 4 (117 + len) br Hb). lia.
Qed.

End VersionReadShape.

(** X5: a version packet returned by read has the shape of the data
    model whatever the bytes are: 32-bit version, services and height,
    a time up to 2^53 - 1, a nonce of 8 bytes, an agent of at most 255
    characters with every code below 128, and a valid remote record;
    the type is the one the receiver had. *)
Theorem read_yields_valid_version `{ip : IP.Binet}
    (br br' : list Z) (this v : packets.VersionPacket.t)
    (Hbytes : is_bytes br)
    (Htype : packets.VersionPacket.type this = packets.types_VERSION)
    (Hread : packets.VersionPacket.read br this = OK (v, br')) :
  Spec.valid_version v.
Proof. exact (read_version_valid br br' this v Hbytes Htype Hread). Qed.

(** X6: read of a version packet takes 122 bytes plus as many as the
    length byte at offset 116 says and leaves the rest; the no-relay
    flag is set only by a last byte equal to 1, any other value clears
    it; the type of the receiver is never changed. *)
Theorem read_version_consumes `{ip : IP.Binet}
    (br br' : list Z) (this v : packets.VersionPacket.t)
    (Hread : packets.VersionPacket.read br this = OK (v, br')) :
  let len := Z.to_nat (default 0 (br !! 116%nat)) in
  (122 + len <= length br)%nat
  /\ br' = drop (122 + len) br
  /\ packets.VersionPacket.noRelay v = bool_decide (br !! (121 + len)%nat = Some 1)
  /\ packets.VersionPacket.type v = packets.VersionPacket.type this.
Proof.
  apply read_version_layout in Hread
    as (L & Hrest & Ht & _ & _ & _ & _ & _ & _ & _ & Hflag & _).
  cbv zeta. auto.
Qed.

(** X7: a version packet returned by read can be written, and reading
    the written bytes gives the same packet again. *)
Theorem read_write_read_version `{ip : IP.Binet}
    (br br' : list Z) (this v : packets.VersionPacket.t)
    (Hbytes : is_bytes br)
    (Htype : packets.VersionPacket.type this = packets.types_VERSION)
    (Hread : packets.VersionPacket.read br this = OK (v, br')) :
  exists bytes,
    packets.VersionPacket.write v [] = OK bytes
    /\ forall rest, packets.VersionPacket.read (bytes ++ rest) this = OK (v, rest).
Proof.
  pose proof (read_version_valid br br' this v Hbytes Htype Hread) as Hvalid.
  exists (Spec.version_bytes v).
  split; [apply (write_version_bytes v []), valid_version_wire, Hvalid|].
  intros rest. apply read_version_bytes; [exact Hvalid|].
  rewrite Htype. symmetry. apply Hvalid.
Qed.

Lemma read_yields_valid_version_witness :
  is_bytes Example.loose_version_bytes
  /\ exists v,
       packets.VersionPacket.read (ip := SampleIP.binet) Example.loose_version_bytes
         Example.version = OK (v, [])
       /\ packets.VersionPacket.agent v = Some "abc"
       /\ Spec.valid_version (ip := SampleIP.binet) v.
Proof.
  assert (is_bytes Example.loose_version_bytes) as Hb by (apply is_bytes_check; reflexivity).
  split; [exact Hb|]. eexists. split; [vm_compute; reflexivity|].
  split; [reflexivity|].
  eapply (read_yields_valid_version (ip := SampleIP.binet) Example.loose_version_bytes []
            Example.version _ Hb eq_refl).
  vm_compute. reflexivity.
Defined.

Lemma read_version_consumes_witness :
  exists v,
    packets.VersionPacket.read (ip := SampleIP.binet) Example.loose_version_bytes
      Example.version = OK (v, [])
    /\ packets.VersionPacket.noRelay v = false.
Proof.
  assert (exists v, packets.VersionPacket.read (ip := SampleIP.binet)
            Example.loose_version_bytes Example.version = OK (v, [])) as [v Hv]
    by (eexists; vm_compute; reflexivity).
  exists v. split; [exact Hv|].
  pose proof (read_version_consumes (ip := SampleIP.binet) _ _ _ _ Hv)
    as (_ & _ & Hflag & _).
  rewrite Hflag. reflexivity.
Defined.

Lemma read_write_read_version_witness :
  exists v bytes,
    packets.VersionPacket.read (ip := SampleIP.binet) Example.loose_version_bytes
      Example.version = OK (v, [])
    /\ packets.VersionPacket.write v [] = OK bytes
    /\ packets.VersionPacket.read (ip := SampleIP.binet) (bytes ++ []) Example.version
       = OK (v, []).
Proof.
  assert (is_bytes Example.loose_version_bytes) as Hb by (apply is_bytes_check; reflexivity).
  assert (exists v, packets.VersionPacket.read (ip := SampleIP.binet)
            Example.loose_version_bytes Example.version = OK (v, [])) as [v Hv]
    by (eexists; vm_compute; reflexivity).
  destruct (read_write_read_version (ip := SampleIP.binet) _ _ Example.version v Hb eq_refl Hv)
    as (bytes & Hw & Hread).
  exists v, bytes. split; [exact Hv|]. split; [exact Hw|]. apply Hread.
Defined.

(** ** When write returns, and how much it writes *)

Section WriteInversion.
Import Spec.

Lemma writeUInt_inv (w : nat) (n : Z) (bw bw' : list Z) :
  bio.writeUInt w n bw = OK bw' -> isSafeInteger n = true /\ bw' = bw ++ le_bytes w n.
Proof.
  unfold bio.writeUInt. destruct (isSafeInteger n); [|discriminate].
  intros [= <-]. auto.
Qed.

Lemma write_address_inv (r : NetAddress.t) (bw bytes : list Z) :
  NetAddress.write r bw = OK bytes ->
  isSafeInteger (NetAddress.time r) = true
  /\ isSafeInteger (NetAddress.services r) = true
  /\ isSafeInteger (NetAddress.port r) = true
  /\ bytes = bw ++ address_bytes r.
Proof.
  unfold NetAddress.write, bio.writeU64, bio.writeU32, bio.writeU16, bio.writeU8,
    bio.writeBytes, bio.fill. intros H.
  step H as bw1 by E. apply writeUInt_inv in E as (Htime & ->).
  step H as bw2 by E. apply writeUInt_inv in E as (Hserv & ->).
  step H as bw3 by E. apply writeUInt_inv in E as (_ & ->).
  step H as bw4 by E. apply writeUInt_inv in E as (_ & ->).
  step H as bw5 by E. injection E as <-.
  step H as bw6 by E. injection E as <-.
  step H as bw7 by E. apply writeUInt_inv in E as (Hport & ->).
  step H as bw8 by E. injection E as <-. injection H as <-.
  unfold address_bytes. by rewrite <- !app_assoc.
Qed.

Lemma write_version_inv (v : packets.VersionPacket.t) (bw bytes : list Z) :
  packets.VersionPacket.write v bw = OK bytes ->
  isSafeInteger (packets.VersionPacket.version v) = true
  /\ isSafeInteger (packets.VersionPacket.services v) = true
  /\ isSafeInteger (packets.VersionPacket.time v) = true
  /\ isSafeInteger (NetAddress.time (packets.VersionPacket.remote v)) = true
  /\ isSafeInteger (NetAddress.services (packets.VersionPacket.remote v)) = true
  /\ isSafeInteger (NetAddress.port (packets.VersionPacket.remote v)) = true
  /\ (exists n, packets.VersionPacket.nonce v = Some n)
  /\ (exists a, packets.VersionPacket.agent v = Some a
                /\ isSafeInteger (string_length a) = true)
  /\ isSafeInteger (packets.VersionPacket.height v) = true
  /\ bytes = bw ++ version_bytes v.
Proof.
  unfold packets.VersionPacket.write, bio.writeU64, bio.writeU32, bio.writeU8,
    bio.writeBytes, bio.writeString. intros H.
  step H as bw1 by E. apply writeUInt_inv in E as (Hversion & ->).
  step H as bw2 by E. apply writeUInt_inv in E as (Hserv & ->).
  step H as bw3 by E. apply writeUInt_inv in E as (_ & ->).
  step H as bw4 by E. apply writeUInt_inv in E as (Htime & ->).
  step H as bw5 by E. apply write_address_inv in E as (Hrt & Hrs & Hrp & ->).
  step H as n by E.
  destruct (packets.VersionPacket.nonce v) as [n'|] eqn:Hn; [|discriminate].
  injection E as <-.
  step H as bw6 by E. injection E as <-.
  step H as a by E.
  destruct (packets.VersionPacket.agent v) as [a'|] eqn:Ha; [|discriminate].
  injection E as <-.
  step H as bw7 by E. apply writeUInt_inv in E as (Hlen & ->).
  step H as bw8 by E. injection E as <-.
  step H as bw9 by E. apply writeUInt_inv in E as (Hheight & ->).
  step H as bw10 by E. apply writeUInt_inv in E as (_ & ->).
  injection H as <-.
  unfold version_bytes. rewrite Hn, Ha. simpl default.
  rewrite <- !app_assoc. eauto 15.
Qed.

End WriteInversion.

(** *** The queueing writer *)

Section Queue.
Import bio.BufferWriter.

Lemma bind_assoc {A B C} (m : result A) (f : A -> result B) (g : B -> result C) :
  (m ≫= f) ≫= g = m ≫= (fun a => f a ≫= g).
Proof. by destruct m. Qed.

Lemma bind_ret {A} (m : result A) : m ≫= OK = m.
Proof. by destruct m. Qed.

Lemma bind_same {A B} (m : result A) (f g : A -> result B) :
  (forall a, f a = g a) -> m ≫= f = m ≫= g.
Proof. intros H. destruct m; simpl; [apply H | reflexivity]. Qed.

Lemma render_onto_app (a b : t) (out : list Z) :
  render_onto out (a ++ b) = render_onto out a ≫= (fun out' => render_onto out' b).
Proof.
  revert out. induction a as [|o a IH]; intros out; simpl; [reflexivity|].
  destruct (apply o out) as [out'|e]; simpl; [apply IH | reflexivity].
Qed.

Lemma render_push (bw : t) (o : op) : render (bw ++ [o]) = render bw ≫= apply o.
Proof.
  unfold render. rewrite render_onto_app. rewrite <- (bind_ret (_ ≫= apply o)).
  rewrite bind_assoc. apply bind_same. intros out. simpl.
  by destruct (apply o out).
Qed.

Lemma render_writeUInt (w : nat) (value : Z) (bw : t) :
  render (bw ++ [NumberOp w value]) = render bw ≫= bio.writeUInt w value.
Proof. apply render_push. Qed.

Lemma render_writeBytes (value : list Z) (bw : t) :
  render (writeBytes value bw) = render bw ≫= bio.writeBytes value.
Proof.
  unfold writeBytes. case_bool_decide as Hv; [|apply render_push].
  subst value. destruct (render bw) as [out|e]; simpl; [|reflexivity].
  unfold bio.writeBytes. by rewrite app_nil_r.
Qed.

Lemma render_writeString (value : string) (bw : t) :
  render (writeString value bw) = render bw ≫= bio.writeString value.
Proof.
  unfold writeString. destruct (String.eqb_spec value "") as [->|_]; [|apply render_push].
  destruct (render bw) as [out|e]; simpl; [|reflexivity].
  unfold bio.writeString. simpl. by rewrite app_nil_r.
Qed.

Lemma render_fill (value size : Z) (bw : t) :
  render (fill value size bw) = render bw ≫= bio.fill value size.
Proof.
  unfold fill. destruct (Z.eqb_spec size 0) as [->|_]; [|apply render_push].
  destruct (render bw) as [out|e]; simpl; [|reflexivity].
  unfold bio.fill. simpl. by rewrite app_nil_r.
Qed.

(* the encoders throw nothing but a TypeError *)
Lemma render_onto_TypeError (bw : t) (out : list Z) (e : exn) :
  render_onto out bw = Throw e -> e = TypeError.
Proof.
  revert out. induction bw as [|o bw IH]; intros out; simpl; [discriminate|].
  destruct (apply o out) as [out'|e'] eqn:E; simpl; [apply IH|].
  intros [= <-]. destruct o; simpl in E; try discriminate.
  unfold bio.writeUInt in E. destruct (isSafeInteger value); congruence.
Qed.

Lemma offset_app (a b : t) : offset (a ++ b) = offset a + offset b.
Proof. unfold offset. induction a as [|o a IH]; simpl; [reflexivity | rewrite IH; lia]. Qed.

Lemma offset_writeBytes (value : list Z) (bw : t) :
  offset (writeBytes value bw) = offset bw + Z.of_nat (length value).
Proof.
  unfold writeBytes. case_bool_decide as Hv.
  - subst value. simpl. lia.
  - rewrite offset_app. unfold offset. simpl. lia.
Qed.

Lemma offset_writeString (value : string) (bw : t) :
  offset (writeString value bw) = offset bw + string_length value.
Proof.
  unfold writeString. destruct (String.eqb_spec value "") as [->|_].
  - unfold string_length. simpl. lia.
  - rewrite offset_app. unfold offset. simpl. lia.
Qed.

Ltac encoders :=
  unfold bio.writeU64, bio.writeU32, bio.writeU16, bio.writeU8, bio.writeUInt,
    bio.writeBytes, bio.writeString, bio.fill;
  repeat match goal with
  | |- context [isSafeInteger ?n] => destruct (isSafeInteger n); simpl; try reflexivity
  end.

(** What a record queues renders as the bytes that the write on a sink
    produces, or throws as it does. *)
Lemma write_address_renders (r : NetAddress.t) (bw : t) :
  render (NetAddress.Buffered.write r bw) = render bw ≫= NetAddress.write r.
Proof.
  unfold NetAddress.Buffered.write, writeU64, writeU32, writeU16, writeU8.
  rewrite render_writeBytes, render_writeUInt, render_fill, render_writeBytes,
    !render_writeUInt.
  destruct (render bw) as [out|e]; simpl; [|reflexivity].
  unfold NetAddress.write. encoders.
Qed.

Lemma bind_TypeError {A B} (m : result A) (f : A -> result B) :
  (forall e, m = Throw e -> e = TypeError) ->
  (forall a e, f a = Throw e -> e = TypeError) ->
  forall e, m ≫= f = Throw e -> e = TypeError.
Proof.
  intros Hm Hf e. destruct m as [a|e']; simpl; [apply Hf|].
  intros [= <-]. by apply Hm.
Qed.

Lemma writeUInt_TypeError (w : nat) (n : Z) (out : list Z) (e : exn) :
  bio.writeUInt w n out = Throw e -> e = TypeError.
Proof. unfold bio.writeUInt. destruct (isSafeInteger n); congruence. Qed.

Ltac only_TypeError :=
  repeat (apply bind_TypeError;
          [first [apply writeUInt_TypeError | by intros ? [=]] | intros ?; cbv beta]);
  try (by intros ? [=]).

Lemma write_address_TypeError (r : NetAddress.t) (out : list Z) (e : exn) :
  NetAddress.write r out = Throw e -> e = TypeError.
Proof.
  revert e. unfold NetAddress.write, bio.writeU64, bio.writeU32, bio.writeU16, bio.writeU8,
    bio.writeBytes, bio.fill.
  only_TypeError.
Qed.

Lemma write_version_TypeError (v : packets.VersionPacket.t) (out : list Z) (e : exn) :
  packets.VersionPacket.write v out = Throw e -> e = TypeError.
Proof.
  revert e. unfold packets.VersionPacket.write, bio.writeU64, bio.writeU32, bio.writeU8,
    bio.writeBytes, bio.writeString.
  only_TypeError.
  apply bind_TypeError; [apply write_address_TypeError | intros ?; cbv beta].
  apply bind_TypeError;
    [destruct (packets.VersionPacket.nonce v); congruence | intros ?; cbv beta].
  only_TypeError.
  apply bind_TypeError;
    [destruct (packets.VersionPacket.agent v); congruence | intros ?; cbv beta].
  only_TypeError.
Qed.

Lemma write_version_renders (v : packets.VersionPacket.t) (bw bw' : t) :
  packets.VersionPacket.Buffered.write v bw = OK bw' ->
  render bw' = render bw ≫= packets.VersionPacket.write v.
Proof.
  unfold packets.VersionPacket.Buffered.write. intros H.
  destruct (packets.VersionPacket.nonce v) as [n|] eqn:Hn; [|discriminate].
  destruct (packets.VersionPacket.agent v) as [a|] eqn:Ha; [|discriminate].
  simpl in H. injection H as <-.
  unfold writeU64, writeU32, writeU8.
  rewrite !render_writeUInt, render_writeString, render_writeUInt, render_writeBytes,
    write_address_renders, !render_writeUInt.
  rewrite !bind_assoc. apply bind_same. intros out.
  unfold packets.VersionPacket.write, bio.writeU64, bio.writeU32, bio.writeU8.
  rewrite Hn, Ha.
  do 5 (apply bind_same; intros ?). returns.
  apply bind_same; intros ?. returns.
  do 3 (apply bind_same; intros ?).
  symmetry. apply bind_ret.
Qed.

Lemma offset_write_address (r : NetAddress.t) (bw : t) :
  offset (NetAddress.Buffered.write r bw) =
    offset bw + 39 + Z.of_nat (length (NetAddress.raw r)) + Z.of_nat (length (NetAddress.key r)).
Proof.
  unfold NetAddress.Buffered.write, writeU64, writeU32, writeU16, writeU8, fill.
  change (20 =? 0) with false. cbv iota.
  rewrite !offset_writeBytes, !offset_app, !offset_writeBytes, !offset_app.
  unfold offset. simpl. lia.
Qed.

End Queue.

(** X8: with a BufferWriter, write of a version packet returns exactly
    when nonce and agent are defined, whatever the numbers of the
    packet are: it only queues them, and the offset of the writer has
    grown by 65 and the lengths of raw, key, nonce and agent.  The
    numbers are checked when the writer is rendered: render returns
    exactly when every numeric field of the packet and of its remote
    record is a safe integer (as the length of a string always is),
    it throws a TypeError otherwise, and it gives what write gives on
    a sink that holds the bytes queued before. *)
Theorem buffered_write_and_render (v : packets.VersionPacket.t) (bw : bio.BufferWriter.t) :
  (returned (packets.VersionPacket.Buffered.write v bw) <->
     (exists n, packets.VersionPacket.nonce v = Some n)
     /\ (exists a, packets.VersionPacket.agent v = Some a))
  /\ (forall bw',
        packets.VersionPacket.Buffered.write v bw = OK bw' ->
        exists n a,
          packets.VersionPacket.nonce v = Some n
          /\ packets.VersionPacket.agent v = Some a
          /\ bio.BufferWriter.offset bw' =
               bio.BufferWriter.offset bw + 65
               + Z.of_nat (length (NetAddress.raw (packets.VersionPacket.remote v)))
               + Z.of_nat (length (NetAddress.key (packets.VersionPacket.remote v)))
               + Z.of_nat (length n) + string_length a)
  /\ (forall bw' out,
        packets.VersionPacket.Buffered.write v bw = OK bw' ->
        bio.BufferWriter.render bw = OK out ->
        bio.BufferWriter.render bw' = packets.VersionPacket.write v out
        /\ (returned (bio.BufferWriter.render bw') <->
              isSafeInteger (packets.VersionPacket.version v) = true
              /\ isSafeInteger (packets.VersionPacket.services v) = true
              /\ isSafeInteger (packets.VersionPacket.time v) = true
              /\ isSafeInteger (NetAddress.time (packets.VersionPacket.remote v)) = true
              /\ isSafeInteger (NetAddress.services (packets.VersionPacket.remote v)) = true
              /\ isSafeInteger (NetAddress.port (packets.VersionPacket.remote v)) = true
              /\ (forall a, packets.VersionPacket.agent v = Some a ->
                    isSafeInteger (string_length a) = true)
              /\ isSafeInteger (packets.VersionPacket.height v) = true)
        /\ (forall e, bio.BufferWriter.render bw' = Throw e -> e = TypeError)).
Proof.
  split; [|split].
  - unfold packets.VersionPacket.Buffered.write. split.
    + intros [bw' H].
      destruct (packets.VersionPacket.nonce v) as [n|]; [|discriminate].
      destruct (packets.VersionPacket.agent v) as [a|]; [|discriminate]. eauto.
    + intros [[n ->] [a ->]]. simpl. eexists. reflexivity.
  - intros bw'. unfold packets.VersionPacket.Buffered.write.
    destruct (packets.VersionPacket.nonce v) as [n|]; [|discriminate].
    destruct (packets.VersionPacket.agent v) as [a|]; [|discriminate].
    simpl. intros [= <-]. exists n, a. split; [reflexivity|]. split; [reflexivity|].
    unfold bio.BufferWriter.writeU64, bio.BufferWriter.writeU32, bio.BufferWriter.writeU8.
    rewrite !offset_app, offset_writeString, offset_app, offset_writeBytes,
      offset_write_address, !offset_app.
    unfold bio.BufferWriter.offset. simpl. lia.
  - intros bw' out Hw Hout.
    pose proof (write_version_renders v bw bw' Hw) as Hr. rewrite Hout in Hr. simpl in Hr.
    split; [exact Hr|]. rewrite Hr. split.
    + split.
      * intros [bytes H]. apply write_version_inv in H
          as (? & ? & ? & ? & ? & ? & _ & (a & Ha & Hlen) & ? & _).
        repeat (split; [assumption|]). split; [|assumption].
        intros a' Ha'. rewrite Ha in Ha'. by injection Ha' as <-.
      * intros (Hv & Hs & Ht & Hrt & Hrs & Hrp & Hlen & Hh).
        unfold packets.VersionPacket.Buffered.write in Hw.
        destruct (packets.VersionPacket.nonce v) as [n|] eqn:Hn; [|discriminate].
        destruct (packets.VersionPacket.agent v) as [a|] eqn:Ha; [|discriminate].
        specialize (Hlen a eq_refl).
        unfold packets.VersionPacket.write, NetAddress.write, bio.writeU64, bio.writeU32,
          bio.writeU16, bio.writeU8, bio.writeBytes, bio.writeString, bio.fill.
        rewrite Hn, Ha.
        repeat first [rewrite writeUInt_OK by (assumption || reflexivity)
                     | rewrite writeUInt_OK by (by destruct (packets.VersionPacket.noRelay v))
                     | returns].
        eexists. reflexivity.
    + intros e. apply write_version_TypeError.
Qed.

Lemma buffered_write_and_render_witness :
  exists bw',
    packets.VersionPacket.Buffered.write Example.late_version [] = OK bw'
    /\ bio.BufferWriter.offset bw' = 132
    /\ bio.BufferWriter.render bw' = Throw TypeError.
Proof.
  assert (exists bw', packets.VersionPacket.Buffered.write Example.late_version [] = OK bw')
    as [bw' Hw] by (eexists; vm_compute; reflexivity).
  exists bw'. split; [exact Hw|].
  destruct (buffered_write_and_render Example.late_version []) as (_ & Hoffset & Hrender).
  split.
  - destruct (Hoffset bw' Hw) as (n & a & Hn & Ha & ->).
    injection Hn as <-. injection Ha as <-. reflexivity.
  - destruct (Hrender bw' [] Hw eq_refl) as (-> & _). vm_compute. reflexivity.
Defined.

(** X9: what write appends has 65 bytes plus the lengths of raw, key,
    nonce and agent, after the bytes written before; so getSize is the
    written length exactly when raw, key and nonce have 57 bytes
    together, as they do with the lengths 16, 33 and 8. *)
Theorem written_length (v : packets.VersionPacket.t) (bw bytes : list Z)
    (Hwrite : packets.VersionPacket.write v bw = OK bytes) :
  exists n a,
    packets.VersionPacket.nonce v = Some n
    /\ packets.VersionPacket.agent v = Some a
    /\ take (length bw) bytes = bw
    /\ (length bytes = length bw + 65
                       + length (NetAddress.raw (packets.VersionPacket.remote v))
                       + length (NetAddress.key (packets.VersionPacket.remote v))
                       + length n + String.length a)%nat
    /\ (packets.VersionPacket.getSize v = OK (Z.of_nat (length bytes - length bw)) <->
        (length (NetAddress.raw (packets.VersionPacket.remote v))
         + length (NetAddress.key (packets.VersionPacket.remote v))
         + length n = 57)%nat).
Proof.
  apply write_version_inv in Hwrite
    as (_ & _ & _ & _ & _ & _ & (n & Hn) & (a & Ha & _) & _ & ->).
  exists n, a. split; [exact Hn|]. split; [exact Ha|].
  split; [apply take_app_length|].
  assert (length (Spec.version_bytes v) =
          (65 + length (NetAddress.raw (packets.VersionPacket.remote v))
           + length (NetAddress.key (packets.VersionPacket.remote v))
           + length n + String.length a)%nat) as Hlen.
  { unfold Spec.version_bytes, Spec.address_bytes, Buffer_alloc. rewrite Hn, Ha. simpl default.
    rewrite !length_app, !le_bytes_length, length_replicate.
    pose proof (string_codes_length a) as Hc. unfold string_length in Hc.
    change (Z.to_nat 20) with 20%nat. lia. }
  split; [rewrite length_app; lia|].
  unfold packets.VersionPacket.getSize. rewrite Ha. simpl.
  rewrite length_app, Hlen. unfold string_length, NetAddress.getSize.
  split.
  - intros [= H]. lia.
  - intros H. f_equal. lia.
Qed.

Lemma written_length_witness :
  exists bytes,
    packets.VersionPacket.write Example.short_key_version [] = OK bytes
    /\ length bytes = 100%nat
    /\ packets.VersionPacket.getSize Example.short_key_version = OK 132.
Proof.
  assert (exists bytes, packets.VersionPacket.write Example.short_key_version [] = OK bytes)
    as [bytes Hw] by (eexists; vm_compute; reflexivity).
  exists bytes. split; [exact Hw|]. split; [|reflexivity].
  destruct (written_length Example.short_key_version [] bytes Hw)
    as (n & a & Hn & Ha & _ & Hlen & _).
  injection Hn as <-. injection Ha as <-. exact Hlen.
Defined.

(** ** Service bits *)

Lemma land_low_bits (x y req : Z) :
  0 <= req < 2 ^ 31 -> x mod 2 ^ 31 = y mod 2 ^ 31 -> Z.land x req = Z.land y req.
Proof.
  intros Hreq Hxy.
  assert (req = Z.land (Z.ones 31) req) as Hmask.
  { rewrite Z.land_comm, Z.land_ones by lia. symmetry. apply Z.mod_small. lia. }
  rewrite Hmask, !Z.land_assoc, !Z.land_ones by lia. by rewrite Hxy.
Qed.

Lemma ToInt32_low_bits (n : Z) : ToInt32 n mod 2 ^ 31 = n mod 2 ^ 31.
Proof.
  unfold ToInt32. change (2 ^ 32) with 4294967296. change (2 ^ 31) with 2147483648.
  Z.div_mod_to_equations. lia.
Qed.

Lemma ToInt32_range (n : Z) : - 2 ^ 31 <= ToInt32 n < 2 ^ 31.
Proof.
  unfold ToInt32. pose proof (Z.mod_pos_bound (n + 2 ^ 31) (2 ^ 32)). lia.
Qed.

Lemma land_int32_below (a b : Z) :
  - 2 ^ 31 <= a < 2 ^ 31 -> - 2 ^ 31 <= b < 2 ^ 31 -> Z.land a b < 2 ^ 31.
Proof.
  assert (forall x y, 0 <= x < 2 ^ 31 -> Z.land x y < 2 ^ 31) as Hpos.
  { intros x y Hx.
    replace x with (Z.land x (Z.ones 31))
      by (rewrite Z.land_ones by lia; apply Z.mod_small; lia).
    rewrite <- Z.land_assoc, (Z.land_comm (Z.ones 31)), Z.land_assoc, Z.land_ones by lia.
    apply Z.mod_pos_bound. lia. }
  intros Ha Hb.
  destruct (Z.le_gt_cases 0 a); [apply Hpos; lia|].
  destruct (Z.le_gt_cases 0 b); [rewrite Z.land_comm; apply Hpos; lia|].
  assert (Z.land a b < 0) by (apply Z.land_neg; lia). lia.
Qed.

(** X10: for a request that uses the bits 0 to 30, hasServices tells
    whether every requested bit is set in the services of the record;
    a request that uses bit 31 is never satisfied, even by a record
    that has the bit, because the bitwise AND is a signed 32-bit
    number. *)
Theorem hasServices_bits (this : NetAddress.t) (req : Z) :
  (0 <= req < 2 ^ 31 ->
     (NetAddress.hasServices this req = true <->
      Z.land (NetAddress.services this) req = req))
  /\ (2 ^ 31 <= req < 2 ^ 32 -> NetAddress.hasServices this req = false).
Proof.
  unfold NetAddress.hasServices. split.
  - intros Hreq. rewrite Z.eqb_eq.
    assert (ToInt32 req = req) as ->.
    { unfold ToInt32. rewrite Z.mod_small; lia. }
    rewrite (land_low_bits _ (NetAddress.services this) req Hreq (ToInt32_low_bits _)).
    reflexivity.
  - intros Hreq. apply Z.eqb_neq.
    pose proof (land_int32_below _ _ (ToInt32_range (NetAddress.services this))
                  (ToInt32_range req)). lia.
Qed.

Lemma hasServices_bits_witness :
  (NetAddress.hasServices (NetAddress.set_services 5 Example.remote) 4 = true
   <-> Z.land 5 4 = 4)
  /\ NetAddress.hasServices (NetAddress.set_services 4294967295 Example.remote)
       2147483648 = false.
Proof.
  split.
  - apply (proj1 (hasServices_bits (NetAddress.set_services 5 Example.remote) 4)).
    lia.
  - apply (proj2 (hasServices_bits
                    (NetAddress.set_services 4294967295 Example.remote) 2147483648)).
    lia.
Defined.

(** ** Keys *)

Lemma Buffer_equals_true (a b : list Z) : Buffer_equals a b = true <-> a = b.
Proof. unfold Buffer_equals. apply bool_decide_eq_true. Qed.

Lemma toString_hex_length (bs : list Z) :
  String.length (toString_hex bs) = (2 * length bs)%nat.
Proof. induction bs as [|b bs IH]; simpl; [reflexivity | rewrite IH; lia]. Qed.

(** X11: after setKey has returned, a null or undefined argument has
    left the all-zero key, for which hasKey is false and getKey is
    null; a buffer argument has 33 bytes and is the key, hasKey is
    true unless the buffer is all zero, and getKey('hex') is then a
    string of 66 characters that decodes to the key.  Host, port,
    services, time and raw are as they were, and the hostname is the
    composition of host, port and the new key. *)
Theorem setKey_hasKey_getKey `{ip : IP.Binet}
    (k : jsval) (this this' : NetAddress.t)
    (Hset : NetAddress.setKey k this = OK this') :
  (nullish k = true ->
     NetAddress.key this' = NetAddress.ZERO_KEY
     /\ NetAddress.hasKey this' = false
     /\ NetAddress.getKey "hex" this' = JNull)
  /\ (forall b, k = JBuffer b ->
        NetAddress.key this' = b /\ length b = 33%nat
        /\ (NetAddress.hasKey this' = true <-> b <> NetAddress.ZERO_KEY)
        /\ (b <> NetAddress.ZERO_KEY ->
            exists s, NetAddress.getKey "hex" this' = JStr s
                      /\ String.length s = 66%nat
                      /\ (is_bytes b -> Buffer_from_hex s = b)))
  /\ NetAddress.host this' = NetAddress.host this
  /\ NetAddress.port this' = NetAddress.port this
  /\ NetAddress.services this' = NetAddress.services this
  /\ NetAddress.time this' = NetAddress.time this
  /\ NetAddress.raw this' = NetAddress.raw this
  /\ Spec.hostname_current this'.
Proof.
  unfold NetAddress.setKey in Hset.
  step Hset as u by Hassert. apply assert_OK in Hassert.
  apply refresh_hostname_OK in Hset as (Hname & Hhost & Hport & Hserv & Htime & Hraw & Hkey).
  cbn in Hkey, Hhost, Hport, Hserv, Htime, Hraw.
  split; [|split; [|auto 10]].
  - intros Hnull. rewrite Hnull in Hkey. cbn in Hkey.
    assert (NetAddress.hasKey this' = false) as Hno.
    { unfold NetAddress.hasKey. rewrite Hkey. reflexivity. }
    split; [exact Hkey|]. split; [exact Hno|].
    unfold NetAddress.getKey. by rewrite Hno.
  - intros b ->. cbn in Hkey, Hassert.
    apply Z.eqb_eq in Hassert.
    assert (NetAddress.hasKey this' = true <-> b <> NetAddress.ZERO_KEY) as Hhas.
    { unfold NetAddress.hasKey. rewrite Hkey, negb_true_iff.
      rewrite <- not_true_iff_false, Buffer_equals_true. reflexivity. }
    split; [exact Hkey|]. split; [lia|]. split; [exact Hhas|].
    intros Hne. apply Hhas in Hne.
    unfold NetAddress.getKey. rewrite Hne. simpl. rewrite Hkey.
    eexists. split; [reflexivity|]. split.
    + rewrite toString_hex_length. lia.
    + apply Buffer_from_hex_toString.
Qed.

Lemma setKey_hasKey_getKey_witness :
  exists this' s,
    NetAddress.setKey (ip := SampleIP.binet) (JBuffer (replicate 33 7)) Example.remote
      = OK this'
    /\ NetAddress.getKey "hex" this' = JStr s
    /\ String.length s = 66%nat
    /\ NetAddress.port this' = 8333.
Proof.
  assert (exists this',
            NetAddress.setKey (ip := SampleIP.binet) (JBuffer (replicate 33 7)) Example.remote
              = OK this') as [this' Hset]
    by (eexists; vm_compute; reflexivity).
  destruct (setKey_hasKey_getKey (ip := SampleIP.binet) _ _ _ Hset)
    as (_ & Hbuffer & _ & Hport & _).
  destruct (Hbuffer _ eq_refl) as (_ & _ & _ & Hhex).
  destruct Hhex as (s & Hs & Hlen & _); [vm_compute; discriminate|].
  exists this', s. split; [exact Hset|]. split; [exact Hs|]. split; [exact Hlen|].
  rewrite Hport. reflexivity.
Defined.

(** ** The order of records *)

Lemma Buffer_compare_antisym (a b : list Z) :
  Buffer_compare b a = - Buffer_compare a b.
Proof.
  revert b. induction a as [|x a IH]; intros [|y b]; simpl; try reflexivity.
  destruct (Z.ltb_spec x y), (Z.ltb_spec y x); try lia; try reflexivity.
  apply IH.
Qed.

Lemma Buffer_compare_values (a b : list Z) :
  Buffer_compare a b = -1 \/ Buffer_compare a b = 0 \/ Buffer_compare a b = 1.
Proof.
  revert b. induction a as [|x a IH]; intros [|y b]; simpl; auto.
  destruct (x <? y); auto. destruct (y <? x); auto.
Qed.

Lemma Buffer_compare_trans (a b c : list Z) :
  Buffer_compare a b = -1 -> Buffer_compare b c = -1 -> Buffer_compare a c = -1.
Proof.
  revert b c. induction a as [|x a IH]; intros [|y b] [|z c]; simpl;
    try discriminate; try reflexivity.
  destruct (Z.ltb_spec x y), (Z.ltb_spec y x), (Z.ltb_spec y z), (Z.ltb_spec z y),
    (Z.ltb_spec x z), (Z.ltb_spec z x);
    try lia; try discriminate; try reflexivity.
  apply IH.
Qed.

Lemma compare_negative (a b : NetAddress.t) :
  NetAddress.compare a b < 0 <->
  Buffer_compare (NetAddress.raw a) (NetAddress.raw b) = -1
  \/ (NetAddress.raw a = NetAddress.raw b /\ NetAddress.port a < NetAddress.port b).
Proof.
  unfold NetAddress.compare. rewrite <- Buffer_compare_eq.
  pose proof (Buffer_compare_values (NetAddress.raw a) (NetAddress.raw b)) as Hv.
  destruct (Z.eqb_spec (Buffer_compare (NetAddress.raw a) (NetAddress.raw b)) 0);
    simpl; lia.
Qed.

(** X12: compare is a consistent comparator: a record compares equal to
    itself, swapping the arguments swaps the sign, "less than" is
    transitive, and records that compare equal compare alike with
    every third record. *)
Theorem compare_is_an_order (a b c : NetAddress.t) :
  NetAddress.compare a a = 0
  /\ (NetAddress.compare a b < 0 <-> 0 < NetAddress.compare b a)
  /\ (NetAddress.compare a b < 0 -> NetAddress.compare b c < 0 ->
      NetAddress.compare a c < 0)
  /\ (NetAddress.compare a b = 0 -> NetAddress.compare a c = NetAddress.compare b c).
Proof.
  split; [by apply compare_zero|]. split; [|split].
  - unfold NetAddress.compare.
    rewrite (Buffer_compare_antisym (NetAddress.raw a) (NetAddress.raw b)).
    destruct (Z.eqb_spec (Buffer_compare (NetAddress.raw a) (NetAddress.raw b)) 0) as [E|E];
      destruct (Z.eqb_spec (- Buffer_compare (NetAddress.raw a) (NetAddress.raw b)) 0);
      simpl; lia.
  - rewrite !compare_negative. intros [Hab|[Hab Hpab]] [Hbc|[Hbc Hpbc]].
    + left. eapply Buffer_compare_trans; eauto.
    + left. by rewrite <- Hbc.
    + left. by rewrite Hab.
    + right. split; [congruence | lia].
  - intros H. apply compare_zero in H as [Hraw Hport].
    unfold NetAddress.compare. by rewrite Hraw, Hport.
Qed.

Lemma compare_is_an_order_witness :
  NetAddress.compare Example.ipv4_a Example.ipv4_b < 0
  /\ NetAddress.compare Example.ipv4_b Example.remote < 0
  /\ NetAddress.compare Example.ipv4_a Example.remote < 0.
Proof.
  assert (NetAddress.compare Example.ipv4_a Example.ipv4_b < 0) as Hab
    by (vm_compute; reflexivity).
  assert (NetAddress.compare Example.ipv4_b Example.remote < 0) as Hbc
    by (vm_compute; reflexivity).
  split; [exact Hab|]. split; [exact Hbc|].
  exact (proj1 (proj2 (proj2
           (compare_is_an_order Example.ipv4_a Example.ipv4_b Example.remote)))
           Hab Hbc).
Defined.

(** ** What the mutators keep *)

Section Fields.
Context `{ip : IP.Binet}.
Import NetAddress Spec.

(** The record that fromOptions returns, field by field. *)
Lemma fromOptions_fields (o : Options) (this this' : t) :
  fromOptions o this = OK this' ->
  (exists h p, o_host o = JStr h /\ o_port o = JNum p /\ 0 <= p <= 65535
               /\ IP.toBuffer h = OK (raw this') /\ port this' = p)
  /\ host this' = IP.toString (raw this')
  /\ services this' = (if truthy (o_services o) then num_of (o_services o)
                       else services this)
  /\ time this' = (if truthy (o_time o) then num_of (o_time o) else time this)
  /\ key this' = (if truthy (o_key o) then buf_of (o_key o) else key this)
  /\ (truthy (o_services o) = true -> exists n, o_services o = JNum n)
  /\ (truthy (o_time o) = true -> exists n, o_time o = JNum n)
  /\ (truthy (o_key o) = true ->
      exists b, o_key o = JBuffer b /\ length b = 33%nat)
  /\ hostname_current this'.
Proof.
  unfold fromOptions. intros H.
  step H as u1 by A1. apply assert_OK, typeof_string in A1 as [h Hh].
  step H as u2 by A2. apply assert_OK, typeof_number in A2 as [p Hp].
  step H as u3 by A3. apply assert_OK in A3.
  step H as r by Hr.
  step H as this1 by S1. step H as this2 by S2. step H as this3 by S3.
  apply refresh_hostname_OK in H as (Hname & Hhost & Hport & Hserv & Htime & Hraw & Hkey).
  rewrite Hh, Hp in *. cbn [str_of num_of] in *.
  assert (services this1 = (if truthy (o_services o) then num_of (o_services o)
                            else services this)
          /\ (truthy (o_services o) = true -> exists n, o_services o = JNum n)
          /\ time this1 = time this /\ key this1 = key this
          /\ raw this1 = r /\ host this1 = IP.toString r /\ port this1 = p)
    as (Es1 & Ts1 & Et1 & Ek1 & Er1 & Eh1 & Ep1).
  { destruct (truthy (o_services o)).
    - step S1 as u by A. apply assert_OK, typeof_number in A. injection S1 as <-.
      cbn. auto 10.
    - injection S1 as <-. cbn. split; [reflexivity|]. split; [discriminate|]. auto. }
  assert (time this2 = (if truthy (o_time o) then num_of (o_time o) else time this)
          /\ (truthy (o_time o) = true -> exists n, o_time o = JNum n)
          /\ services this2 = services this1 /\ key this2 = key this
          /\ raw this2 = r /\ host this2 = IP.toString r /\ port this2 = p)
    as (Et2 & Tt2 & Es2 & Ek2 & Er2 & Eh2 & Ep2).
  { destruct (truthy (o_time o)).
    - step S2 as u by A. apply assert_OK, typeof_number in A. injection S2 as <-.
      cbn. rewrite Ek1, Er1, Eh1, Ep1. auto 10.
    - injection S2 as <-. rewrite Et1, Ek1, Er1, Eh1, Ep1.
      split; [reflexivity|]. split; [discriminate|]. auto. }
  assert (key this3 = (if truthy (o_key o) then buf_of (o_key o) else key this)
          /\ (truthy (o_key o) = true -> exists b, o_key o = JBuffer b /\ length b = 33%nat)
          /\ services this3 = services this2 /\ time this3 = time this2
          /\ raw this3 = r /\ host this3 = IP.toString r /\ port this3 = p)
    as (Ek3 & Tk3 & Es3 & Et3 & Er3 & Eh3 & Ep3).
  { destruct (truthy (o_key o)).
    - step S3 as u by A. apply assert_OK, isBuffer_true in A as [b Hb].
      step S3 as u' by A'. apply assert_OK, Z.eqb_eq in A'. injection S3 as <-.
      rewrite Hb in *. cbn in *. rewrite Er2, Eh2, Ep2.
      split; [reflexivity|]. split; [intros _; exists b; split; [reflexivity | lia]|].
      auto.
    - injection S3 as <-. rewrite Ek2, Er2, Eh2, Ep2.
      split; [reflexivity|]. split; [discriminate|]. auto. }
  split.
  - exists h, p. split; [reflexivity|]. split; [reflexivity|].
    split; [lia|]. split; [by rewrite Hraw, Er3|]. by rewrite Hport.
  - rewrite Hhost, Hraw, Hserv, Htime, Hkey, Eh3, Er3, Es3, Es2, Es1, Et3, Et2, Ek3.
    auto 10.
Qed.

End Fields.

(** X13: every mutator that returns keeps the port within 0..65535, and
    every one but fromJSON keeps the key at 33 bytes and the host equal
    to IP.toString of the raw address (for setNull this needs the
    utility to print the zero address as "0.0.0.0"). *)
Theorem mutators_keep_shape `{ip : IP.Binet}
    (m : Spec.mutation) (this this' : NetAddress.t)
    (Hzero : IP.toString IP.ZERO_IPV4 = "0.0.0.0")
    (Hkey : length (NetAddress.key this) = 33%nat)
    (Hhost : NetAddress.host this = IP.toString (NetAddress.raw this))
    (Hport : Spec.u16 (NetAddress.port this))
    (Hbuffer : forall br, m = Spec.Read br -> is_bytes br)
    (Hret : Spec.apply m this = OK this') :
  Spec.u16 (NetAddress.port this')
  /\ ((forall j, m <> Spec.FromJSON j) ->
      length (NetAddress.key this') = 33%nat
      /\ NetAddress.host this' = IP.toString (NetAddress.raw this')).
Proof.
  unfold Spec.u16 in *. destruct m; simpl in Hret.
  - unfold NetAddress.setHost in Hret. step Hret as r by E.
    apply refresh_hostname_OK in Hret as (_ & Hh & Hp & _ & _ & Hr & Hk).
    cbn in Hh, Hp, Hr, Hk. rewrite Hp, Hk, Hh, Hr. auto.
  - unfold NetAddress.setPort in Hret. step Hret as u by A. apply assert_OK in A.
    apply refresh_hostname_OK in Hret as (_ & Hh & Hp & _ & _ & Hr & Hk).
    cbn in Hh, Hp, Hr, Hk. rewrite Hp, Hk, Hh, Hr. split; [lia | auto].
  - unfold NetAddress.setKey in Hret. step Hret as u by A. apply assert_OK in A.
    apply refresh_hostname_OK in Hret as (_ & Hh & Hp & _ & _ & Hr & Hk).
    cbn in Hh, Hp, Hr, Hk. rewrite Hp, Hk, Hh, Hr. split; [lia|].
    intros _. split; [lia | exact Hhost].
  - apply refresh_hostname_OK in Hret as (_ & Hh & Hp & _ & _ & Hr & Hk).
    cbn in Hh, Hp, Hr, Hk. rewrite Hp, Hk, Hh, Hr, Hzero. auto.
  - apply fromOptions_fields in Hret
      as ((h & p & _ & _ & Hp & _ & Hp') & Hh & _ & _ & Hk & _ & _ & Hk' & _).
    split; [lia|]. intros _. split; [|exact Hh].
    rewrite Hk. destruct (truthy (NetAddress.o_key options)); [|exact Hkey].
    destruct (Hk' eq_refl) as (b & -> & Hb). exact Hb.
  - unfold NetAddress.fromHost in Hret.
    step Hret as u1 by A1. apply assert_OK in A1.
    step Hret as u2 by A2. step Hret as u3 by A3. apply assert_OK in A3.
    step Hret as r by E.
    apply refresh_hostname_OK in Hret as (_ & Hh & Hp & _ & _ & Hr & Hk).
    cbn in Hh, Hp, Hr, Hk. rewrite Hp, Hk, Hh, Hr. split; [lia|].
    intros _. split; [|reflexivity].
    destruct (truthy key); [simpl in A3; lia | reflexivity].
  - unfold NetAddress.fromJSON in Hret.
    step Hret as u1 by A1. apply assert_OK, and_is_self_u16 in A1 as (n & Hn & Hrange).
    step Hret as u2 by A2. step Hret as u3 by A3. step Hret as u4 by A4.
    step Hret as r by E.
    apply refresh_hostname_OK in Hret as (_ & _ & Hp & _).
    cbn in Hp. rewrite Hp, Hn. simpl. split; [lia|].
    intros Hne. by destruct (Hne json).
  - destruct (NetAddress.read br this) as [[r br']|e] eqn:E; simpl in Hret; [|discriminate].
    injection Hret as ->.
    destruct (read_valid br br' this this' (Hbuffer br eq_refl) E). auto.
Qed.

Lemma mutators_keep_shape_witness :
  exists this',
    Spec.apply (ip := SampleIP.binet) Spec.SetNull Example.remote = OK this'
    /\ length (NetAddress.key this') = 33%nat
    /\ NetAddress.host this' = IP.toString (Binet := SampleIP.binet) (NetAddress.raw this').
Proof.
  eexists. split; [reflexivity|].
  eapply (proj2 (mutators_keep_shape (ip := SampleIP.binet) Spec.SetNull Example.remote _
                   eq_refl eq_refl eq_refl _ _ eq_refl)).
  discriminate.
  Unshelve.
  - unfold Spec.u16. simpl. lia.
  - discriminate.
Defined.

Lemma fromOptions_twice `{ip : IP.Binet}
    (o : NetAddress.Options) (this this' : NetAddress.t)
    (Hret : NetAddress.fromOptions o this = OK this') :
  NetAddress.fromOptions o this' = OK this'.
Proof.
  apply fromOptions_fields in Hret
    as ((h & p & Hh & Hp & Hrange & Hraw & Hport) & Hhost & Hserv & Htime & Hkey
        & Ts & Tt & Tk & Hname).
  unfold NetAddress.fromOptions. rewrite Hh, Hp. cbn [typeof String.eqb NetAddress.str_of
    NetAddress.num_of].
  rewrite (assert_true_continues (String.eqb "string" "string")) by reflexivity.
  rewrite (assert_true_continues (String.eqb "number" "number")) by reflexivity.
  rewrite assert_true_continues by (apply andb_true_iff; split; apply Z.leb_le; lia).
  rewrite Hraw. returns.
  destruct this' as [host' port' services' time' hostname' raw' key'].
  cbn in *. subst host' port'.
  unfold Spec.hostname_current in Hname. cbn in Hname.
  destruct (truthy (NetAddress.o_services o)) eqn:Cs;
    [destruct (Ts eq_refl) as [n Hn]; rewrite Hn in *; cbn in *; subst services'|];
    (destruct (truthy (NetAddress.o_time o)) eqn:Ct;
       [destruct (Tt eq_refl) as [n' Hn']; rewrite Hn' in *; cbn in *; subst time'|]);
    (destruct (truthy (NetAddress.o_key o)) eqn:Ck;
       [destruct (Tk eq_refl) as (b & Hb & Hlen); rewrite Hb in *; cbn in *; subst key';
        rewrite Hlen; change (Z.of_nat 33 =? 33) with true|]);
    cbn; unfold NetAddress.refresh_hostname; cbn; by rewrite Hname.
Qed.

(** X14: fromOptions is idempotent: applying the same options to the
    record it returned returns that record again. *)
Theorem fromOptions_idempotent `{ip : IP.Binet}
    (o : NetAddress.Options) (this this' : NetAddress.t)
    (Hret : NetAddress.fromOptions o this = OK this') :
  NetAddress.fromOptions o this' = OK this'.
Proof. exact (fromOptions_twice o this this' Hret). Qed.

Lemma fromOptions_idempotent_witness :
  exists r,
    NetAddress.fromOptions (ip := SampleIP.binet) Example.options
      (NetAddress.init (ip := SampleIP.binet)) = OK r
    /\ NetAddress.fromOptions (ip := SampleIP.binet) Example.options r = OK r.
Proof.
  eexists. split; [reflexivity|].
  apply (fromOptions_idempotent (ip := SampleIP.binet) Example.options
           (NetAddress.init (ip := SampleIP.binet))).
  reflexivity.
Defined.

(** ** The group key, whatever the address *)

Section GroupKeyTotal.
Context `{ip : IP.Binet}.
Import NetAddress Spec.

Lemma Buffer_set_length (buf : list Z) (i v : Z) :
  length (Buffer_set buf i v) = length buf.
Proof. unfold Buffer_set. destruct (i <? 0); [reflexivity | apply length_insert]. Qed.

Lemma branch_or_teredo (addr : t) :
  teredo_case addr \/ exists tag offset bits, group_branch addr tag offset bits.
Proof.
  assert (forall a b c, a || b || c = false -> ~ (a = true \/ b = true \/ c = true))
    as Hnone by (intros [] [] []; simpl; intros; intuition discriminate).
  destruct (isLocal addr) eqn:Hl; [right; eauto using group_branch|].
  destruct (isRoutable addr) eqn:Hr; [|right; eauto using group_branch].
  destruct (isIPv4 addr || isRFC6145 addr || isRFC6052 addr) eqn:Hm.
  { right. do 3 eexists. apply branch_ipv4; try assumption. unfold mapped_ipv4.
    destruct (isIPv4 addr), (isRFC6145 addr), (isRFC6052 addr); auto; discriminate. }
  apply Hnone in Hm.
  destruct (isRFC3964 addr) eqn:H1; [right; eauto using group_branch|].
  destruct (isRFC4380 addr) eqn:H2; [left; unfold teredo_case; auto|].
  destruct (isOnion addr) eqn:H3; [right; eauto using group_branch|].
  assert (provider_block (raw addr) \/ ~ provider_block (raw addr)) as [Hp|Hp].
  { unfold provider_block.
    destruct (decide (Buffer_get (raw addr) 0 = Some 32)),
      (decide (Buffer_get (raw addr) 1 = Some 1)),
      (decide (Buffer_get (raw addr) 2 = Some 4)),
      (decide (Buffer_get (raw addr) 3 = Some 112)); tauto. }
  - right. do 3 eexists. by apply branch_provider_block.
  - right. do 3 eexists. by apply branch_ipv6.
Qed.

Lemma groupKey_teredo_bytes (addr : t) :
  teredo_case addr -> is_bytes (raw addr) -> is_byte (IP.INET4 IP.networks) ->
  groupKey addr =
    OK [IP.INET4 IP.networks; Z.lxor (Buffer_int (raw addr) 12) 0xff;
        Z.lxor (Buffer_int (raw addr) 13) 0xff].
Proof.
  assert (forall a b c, ~ (a = true \/ b = true \/ c = true) -> a || b || c = false)
    as Hnone by (intros [] [] []; tauto).
  intros (Hl & Hr & Hm & H1 & H2) Hraw Htag.
  unfold groupKey, select. rewrite Hl, Hr, (Hnone _ _ _ Hm), H1, H2. simpl.
  change 0 with (Z.of_nat 0) at 1. change 1 with (Z.of_nat 1) at 1.
  change 2 with (Z.of_nat 2) at 1.
  rewrite !Buffer_set_nat. simpl.
  rewrite (is_byte_mod _ Htag).
  rewrite !is_byte_mod by (apply lxor_ff_byte, Buffer_int_byte, Hraw).
  reflexivity.
Qed.

Lemma group_bytes_length (raw : list Z) (tag offset bits : Z) :
  length raw = 16%nat -> 0 <= offset -> 0 <= bits -> offset + (bits + 7) / 8 <= 16 ->
  Z.of_nat (length (group_bytes raw tag offset bits)) = 1 + ceil8 bits.
Proof.
  intros Hlen Hoffset Hbits Hend.
  unfold group_bytes, group_bytes_with, ceil8.
  cbn [length]. rewrite length_app, length_take, length_drop, Hlen.
  destruct (bits mod 8 =? 0); cbn [length]; Z.div_mod_to_equations; lia.
Qed.

End GroupKeyTotal.

(** X15: groupKey returns for every 16-byte address, whatever the
    predicates of the utility answer: its final assertion never fails,
    and the key has between 1 and 6 bytes. *)
Theorem groupKey_returns `{ip : IP.Binet} (addr : NetAddress.t)
    (Hlen : length (NetAddress.raw addr) = 16%nat)
    (Hraw : is_bytes (NetAddress.raw addr))
    (Htags : Spec.byte_tags) :
  exists key,
    NetAddress.groupKey addr = OK key /\ (1 <= length key <= 6)%nat.
Proof.
  destruct (branch_or_teredo addr) as [Ht|(tag & offset & bits & Hb)].
  - eexists. split; [apply groupKey_teredo_bytes; [exact Ht | exact Hraw | apply Htags]|].
    simpl. lia.
  - destruct (group_branch_bounds addr tag offset bits Htags Hb)
      as (Htag & Hoffset & Hbits & Hend & Hcases).
    exists (Spec.group_bytes (NetAddress.raw addr) tag offset bits). split.
    + apply groupKey_copy; try assumption; [by apply select_branch | lia].
    + pose proof (group_bytes_length (NetAddress.raw addr) tag offset bits
                    Hlen Hoffset Hbits Hend) as Hl.
      unfold Spec.ceil8 in Hl. assert (bits <= 36) as Hmax by lia.
      destruct (bits mod 8 =? 0); Z.div_mod_to_equations; lia.
Qed.

Lemma groupKey_returns_witness :
  exists key,
    NetAddress.groupKey (ip := SampleIP.binet) Example.tunnel = OK key
    /\ (1 <= length key <= 6)%nat.
Proof.
  apply (groupKey_returns (ip := SampleIP.binet) Example.tunnel).
  - reflexivity.
  - apply is_bytes_check. reflexivity.
  - unfold Spec.byte_tags, is_byte. simpl. lia.
Defined.

(** X16: two addresses of the IPv4 case (IPv4, RFC6145 or RFC6052,
    routable and not local) have the same group key exactly when the
    bytes 12 and 13 of their raw forms agree, that is when they are in
    the same /16. *)
Theorem groupKey_ipv4_same_group `{ip : IP.Binet} (a b : NetAddress.t)
    (Hlen_a : length (NetAddress.raw a) = 16%nat)
    (Hlen_b : length (NetAddress.raw b) = 16%nat)
    (Hraw_a : is_bytes (NetAddress.raw a))
    (Hraw_b : is_bytes (NetAddress.raw b))
    (Htags : Spec.byte_tags)
    (Ha : Spec.group_branch a (IP.INET4 IP.networks) 12 16)
    (Hb : Spec.group_branch b (IP.INET4 IP.networks) 12 16) :
  NetAddress.groupKey a = NetAddress.groupKey b <->
  take 2 (drop 12 (NetAddress.raw a)) = take 2 (drop 12 (NetAddress.raw b)).
Proof.
  rewrite (groupKey_copy a (IP.INET4 IP.networks) 12 16)
    by first [assumption | by apply select_branch | apply Htags | lia
             | rewrite Hlen_a; vm_compute; congruence].
  rewrite (groupKey_copy b (IP.INET4 IP.networks) 12 16)
    by first [assumption | by apply select_branch | apply Htags | lia
             | rewrite Hlen_b; vm_compute; congruence].
  unfold Spec.group_bytes, Spec.group_bytes_with.
  change (16 mod 8 =? 0) with true. cbv iota. rewrite !app_nil_r.
  change (Z.to_nat (16 / 8)) with 2%nat. change (Z.to_nat 12) with 12%nat.
  split; [intros [= H]; exact H | intros ->; reflexivity].
Qed.

Lemma groupKey_ipv4_same_group_witness :
  NetAddress.groupKey (ip := SampleIP.binet) Example.ipv4_a
  = NetAddress.groupKey (ip := SampleIP.binet) Example.ipv4_b.
Proof.
  assert (forall addr, NetAddress.raw addr = SampleIP.IPV4_PREFIX ++ [8; 1; 2; 3]
                       \/ NetAddress.raw addr = SampleIP.IPV4_PREFIX ++ [8; 1; 200; 9] ->
            Spec.group_branch (ip := SampleIP.binet) addr 1 12 16) as Hbranch.
  { intros addr Hr. apply (Spec.branch_ipv4 (ip := SampleIP.binet)).
    - unfold NetAddress.isLocal. destruct Hr as [-> | ->]; reflexivity.
    - unfold NetAddress.isRoutable. destruct Hr as [-> | ->]; reflexivity.
    - left. unfold NetAddress.isIPv4. destruct Hr as [-> | ->]; reflexivity. }
  apply (groupKey_ipv4_same_group (ip := SampleIP.binet) Example.ipv4_a Example.ipv4_b).
  - reflexivity.
  - reflexivity.
  - apply is_bytes_check. reflexivity.
  - apply is_bytes_check. reflexivity.
  - unfold Spec.byte_tags, is_byte. simpl. lia.
  - apply Hbranch. left. reflexivity.
  - apply Hbranch. right. reflexivity.
  - reflexivity.
Defined.

(** X17: a Teredo address is grouped with the IPv4 addresses whose
    first two bytes are the complements of its bytes 12 and 13. *)
Theorem groupKey_teredo_joins_ipv4 `{ip : IP.Binet} (t4 v4 : NetAddress.t)
    (Hlen : length (NetAddress.raw v4) = 16%nat)
    (Hraw_t : is_bytes (NetAddress.raw t4))
    (Hraw_v : is_bytes (NetAddress.raw v4))
    (Htags : Spec.byte_tags)
    (Hlocal : NetAddress.isLocal t4 = false)
    (Hroutable : NetAddress.isRoutable t4 = true)
    (Hmapped : ~ Spec.mapped_ipv4 t4)
    (Hrfc3964 : NetAddress.isRFC3964 t4 = false)
    (Hrfc4380 : NetAddress.isRFC4380 t4 = true)
    (Hv4 : Spec.group_branch v4 (IP.INET4 IP.networks) 12 16)
    (H12 : Buffer_int (NetAddress.raw v4) 12 = Z.lxor (Buffer_int (NetAddress.raw t4) 12) 0xff)
    (H13 : Buffer_int (NetAddress.raw v4) 13 = Z.lxor (Buffer_int (NetAddress.raw t4) 13) 0xff) :
  NetAddress.groupKey t4 = NetAddress.groupKey v4.
Proof.
  rewrite groupKey_teredo_bytes; [|unfold Spec.teredo_case; auto|exact Hraw_t|apply Htags].
  rewrite (groupKey_copy v4 (IP.INET4 IP.networks) 12 16)
    by first [assumption | by apply select_branch | apply Htags | lia
             | rewrite Hlen; vm_compute; congruence].
  rewrite <- H12, <- H13.
  unfold Spec.group_bytes, Spec.group_bytes_with.
  change (16 mod 8 =? 0) with true. cbv iota. rewrite app_nil_r.
  change (Z.to_nat (16 / 8)) with 2%nat. change (Z.to_nat 12) with 12%nat.
  destruct (NetAddress.raw v4) as [|b0 [|b1 [|b2 [|b3 [|b4 [|b5 [|b6 [|b7 [|b8 [|b9 [|b10
    [|b11 [|b12 [|b13 [|b14 [|b15 [|]]]]]]]]]]]]]]]]]; try discriminate Hlen.
  reflexivity.
Qed.

Lemma groupKey_teredo_joins_ipv4_witness :
  NetAddress.groupKey (ip := SampleIP.binet) Example.teredo_of_8_1
  = NetAddress.groupKey (ip := SampleIP.binet) Example.ipv4_a.
Proof.
  apply (groupKey_teredo_joins_ipv4 (ip := SampleIP.binet) Example.teredo_of_8_1
           Example.ipv4_a); try reflexivity.
  - apply is_bytes_check. reflexivity.
  - apply is_bytes_check. reflexivity.
  - unfold Spec.byte_tags, is_byte. simpl. lia.
  - intros [H|[H|H]]; discriminate H.
  - apply (Spec.branch_ipv4 (ip := SampleIP.binet)); try reflexivity. left. reflexivity.
Defined.

(** ** The factories *)

(** X18: a record returned by fromHost is valid, has the default
    services, the current time and, without a key argument, no key;
    it can be written, and decoding the written bytes gives the record
    back.  The address parser is taken to return 16 bytes. *)
Theorem fromHost_is_valid `{ip : IP.Binet}
    (now : Z) (host : string) (port : Z) (key : jsval) (this r : NetAddress.t)
    (Hnow : Spec.u64 now)
    (Hkey : forall b, key = JBuffer b -> is_bytes b)
    (Hparse : forall raw, IP.toBuffer host = OK raw -> length raw = 16%nat /\ is_bytes raw)
    (Hret : NetAddress.fromHost now host port key this = OK r) :
  Spec.valid_address r
  /\ NetAddress.services r = NetAddress.DEFAULT_SERVICES
  /\ NetAddress.time r = now
  /\ (truthy key = false -> NetAddress.hasKey r = false)
  /\ exists bytes,
       NetAddress.write r [] = OK bytes /\ NetAddress.decode bytes = OK (r, []).
Proof.
  unfold NetAddress.fromHost in Hret.
  step Hret as u1 by A1. apply assert_OK in A1.
  step Hret as u2 by A2. apply assert_OK in A2.
  step Hret as u3 by A3. apply assert_OK in A3.
  step Hret as raw by E. destruct (Hparse raw E) as [Hlen Hraw].
  apply refresh_hostname_OK in Hret as (Hname & Hh & Hp & Hs & Ht & Hr & Hk).
  cbn in Hh, Hp, Hs, Ht, Hr, Hk.
  assert (Spec.valid_address r) as Hvalid.
  { split; rewrite ?Ht, ?Hs, ?Hp, ?Hr, ?Hk, ?Hh; try assumption; try reflexivity.
    - unfold Spec.u32, NetAddress.DEFAULT_SERVICES. lia.
    - unfold Spec.u16. lia.
    - destruct (truthy key); [simpl in A3; lia | reflexivity].
    - destruct (truthy key) eqn:Hk'; [|apply is_bytes_check; reflexivity].
      simpl in A2. apply isBuffer_true in A2 as [b ->]. simpl. by apply Hkey. }
  split; [exact Hvalid|]. split; [exact Hs|]. split; [exact Ht|]. split.
  - intros Hfalsy. unfold NetAddress.hasKey. rewrite Hk, Hfalsy. reflexivity.
  - exists (Spec.address_bytes r).
    split; [apply (write_address_bytes r []), valid_address_wire, Hvalid|].
    unfold NetAddress.decode. simpl.
    rewrite <- (app_nil_r (Spec.address_bytes r)). by apply read_address_bytes.
Qed.

Lemma fromHost_is_valid_witness :
  exists r bytes,
    NetAddress.fromHost (ip := SampleIP.binet) 1700000000000 "127.0.0.1" 8333 JUndefined
      (NetAddress.init (ip := SampleIP.binet)) = OK r
    /\ NetAddress.write r [] = OK bytes
    /\ NetAddress.decode (ip := SampleIP.binet) bytes = OK (r, []).
Proof.
  assert (forall raw, IP.toBuffer (Binet := SampleIP.binet) "127.0.0.1" = OK raw ->
            length raw = 16%nat /\ is_bytes raw) as Hparse.
  { intros raw H. vm_compute in H. injection H as <-.
    split; [reflexivity | apply is_bytes_check; reflexivity]. }
  assert (exists r, NetAddress.fromHost (ip := SampleIP.binet) 1700000000000 "127.0.0.1" 8333
            JUndefined (NetAddress.init (ip := SampleIP.binet)) = OK r) as [r Hr]
    by (eexists; reflexivity).
  destruct (fromHost_is_valid (ip := SampleIP.binet) 1700000000000 "127.0.0.1" 8333
              JUndefined (NetAddress.init (ip := SampleIP.binet)) r)
    as (_ & _ & _ & _ & bytes & Hw & Hd).
  - unfold Spec.u64, MAX_SAFE_INTEGER. lia.
  - discriminate.
  - exact Hparse.
  - exact Hr.
  - exists r, bytes. auto.
Defined.

(** X19: for a hostname that parses with port 0, fromHostname takes
    the port of the network, the brontide port when the hostname
    carries a key, and the static fromHostname, which passes no
    network, throws a TypeError; a port that is not 0 is kept. *)
Theorem fromHostname_default_port `{ip : IP.Binet} `{hosts : IP.Hosts}
    (now : Z) (hostname : string) (addr : IP.Parsed)
    (Hparse : IP.fromHostname hostname = OK addr) :
  (IP.p_port addr = 0 -> NetAddress.fromHostname_static now hostname = Throw TypeError)
  /\ (forall network this r,
        NetAddress.fromHostname now hostname network this = OK r ->
        (IP.p_port addr <> 0 -> NetAddress.port r = IP.p_port addr)
        /\ (IP.p_port addr = 0 ->
            exists n, network = Some n
              /\ NetAddress.port r =
                   (if truthy (IP.p_key addr) then NetAddress.n_brontidePort n
                    else NetAddress.n_port n))).
Proof.
  split.
  - intros Hzero. unfold NetAddress.fromHostname_static, NetAddress.fromHostname.
    simpl. rewrite Hparse. simpl. rewrite Hzero. reflexivity.
  - intros network this r Hret. unfold NetAddress.fromHostname in Hret.
    rewrite Hparse in Hret. simpl in Hret.
    step Hret as p by Hp. unfold NetAddress.fromHost in Hret.
    step Hret as u1 by A1. step Hret as u2 by A2. step Hret as u3 by A3.
    step Hret as raw by E.
    apply refresh_hostname_OK in Hret as (_ & _ & Hport & _). cbn in Hport.
    destruct (Z.eqb_spec (IP.p_port addr) 0) as [Hz|Hnz].
    + split; [intros; contradiction|]. intros _.
      destruct network as [n|]; [|discriminate]. injection Hp as <-.
      exists n. auto.
    + injection Hp as <-. split; [auto | intros; contradiction].
Qed.

Lemma fromHostname_default_port_witness :
  NetAddress.fromHostname_static (ip := SampleIP.binet) (hosts := SampleIP.hosts)
    1000 "127.0.0.1" = Throw TypeError
  /\ (NetAddress.port <$>
        NetAddress.fromHostname (ip := SampleIP.binet) (hosts := SampleIP.hosts)
          1000 "127.0.0.1" (Some (NetAddress.mkNetwork 12038 44806))
          (NetAddress.init (ip := SampleIP.binet))) = OK 12038.
Proof.
  split; [|reflexivity].
  apply (proj1 (fromHostname_default_port (ip := SampleIP.binet) (hosts := SampleIP.hosts)
                  1000 "127.0.0.1" (IP.mkParsed "127.0.0.1" 0 JNull) eq_refl)).
  reflexivity.
Defined.

(** X20: fromSocket throws when the socket has no remote address or no
    remote port (a closed socket reports undefined); when it returns,
    the record has the port of the socket, within 0..65535, never a
    key, the default services and the current time. *)
Theorem fromSocket_record `{ip : IP.Binet} `{hosts : IP.Hosts}
    (now : Z) (socket : NetAddress.Socket) (this : NetAddress.t) :
  (typeof (NetAddress.remoteAddress socket) <> "string"
   \/ typeof (NetAddress.remotePort socket) <> "number" ->
   NetAddress.fromSocket now socket this = Throw AssertionError)
  /\ (forall r, NetAddress.fromSocket now socket this = OK r ->
        NetAddress.remotePort socket = JNum (NetAddress.port r)
        /\ 0 <= NetAddress.port r <= 65535
        /\ NetAddress.hasKey r = false
        /\ NetAddress.services r = NetAddress.DEFAULT_SERVICES
        /\ NetAddress.time r = now).
Proof.
  unfold NetAddress.fromSocket. split.
  - intros [H|H].
    + destruct (NetAddress.remoteAddress socket); simpl in *; try reflexivity.
      contradiction.
    + destruct (NetAddress.remoteAddress socket); simpl; try reflexivity.
      destruct (NetAddress.remotePort socket); simpl in *; try reflexivity.
      contradiction.
  - intros r Hret.
    step Hret as u1 by A1. step Hret as u2 by A2.
    apply assert_OK, typeof_number in A2 as [p Hp].
    step Hret as h by E. unfold NetAddress.fromHost in Hret.
    step Hret as u3 by A3. apply assert_OK in A3.
    step Hret as u4 by A4. step Hret as u5 by A5. step Hret as raw by E'.
    apply refresh_hostname_OK in Hret as (_ & _ & Hport & Hs & Ht & _ & Hk).
    cbn in Hport, Hs, Ht, Hk. rewrite Hp in *. cbn in *.
    rewrite Hport. split; [reflexivity|]. split; [lia|].
    split; [|auto]. unfold NetAddress.hasKey. rewrite Hk. reflexivity.
Qed.

Lemma fromSocket_record_witness :
  NetAddress.fromSocket (ip := SampleIP.binet) (hosts := SampleIP.hosts) 1000000
    (NetAddress.mkSocket JUndefined JUndefined) (NetAddress.init (ip := SampleIP.binet))
  = Throw AssertionError.
Proof.
  apply (proj1 (fromSocket_record (ip := SampleIP.binet) (hosts := SampleIP.hosts)
                  1000000 (NetAddress.mkSocket JUndefined JUndefined)
                  (NetAddress.init (ip := SampleIP.binet)))).
  left. vm_compute. congruence.
Defined.

(** ** lib/name.js *)

(** X21: the static Name.fromName throws a TypeError for every name,
    because it constructs without options and the constructor reads a
    property of them; and a constructed Name never has the empty name,
    a missing or empty one becoming "test". *)
Theorem Name_constructor (name : string) :
  Name.fromName_static name = Throw TypeError
  /\ (forall o n, Name.constructor (Some o) = OK n -> Name.name n <> "")
  /\ (forall o, Name.o_name o = None \/ Name.o_name o = Some "" ->
        Name.constructor (Some o) = OK (Name.mk "test")).
Proof.
  split; [reflexivity|]. split.
  - intros [[n'|]] n; simpl; [|intros [= <-]; discriminate].
    destruct (String.eqb_spec n' "") as [->|Hne]; simpl; intros [= <-];
      [discriminate | exact Hne].
  - intros [o] [H|H]; simpl in H; subst; reflexivity.
Qed.

Lemma Name_constructor_witness :
  Name.constructor (Some (Name.mkOptions (Some ""))) = OK (Name.mk "test").
Proof.
  apply (proj2 (proj2 (Name_constructor "peer")) (Name.mkOptions (Some ""))).
  right. reflexivity.
Defined.

(** ** Options of a version packet *)

(** X22: fromOptions of a version packet never changes the type,
    ignores an empty agent string, and is idempotent: applied again
    with the same options to the packet it returned, it returns that
    packet. *)
Theorem VersionPacket_fromOptions_merge `{ip : IP.Binet}
    (o : packets.VersionPacket.Options) (this this' : packets.VersionPacket.t)
    (Hret : packets.VersionPacket.fromOptions o this = OK this') :
  packets.VersionPacket.type this' = packets.VersionPacket.type this
  /\ (packets.VersionPacket.o_agent o = Some EmptyString ->
      packets.VersionPacket.agent this' = packets.VersionPacket.agent this)
  /\ packets.VersionPacket.fromOptions o this' = OK this'.
Proof.
  unfold packets.VersionPacket.fromOptions in Hret.
  step Hret as remote' by E. injection Hret as <-. cbn.
  split; [reflexivity|]. split; [by intros ->|].
  unfold packets.VersionPacket.fromOptions. cbn.
  assert (match packets.VersionPacket.o_remote o with
          | Some o' => NetAddress.fromOptions o' remote'
          | None => OK remote'
          end = OK remote') as ->.
  { destruct (packets.VersionPacket.o_remote o) as [o'|]; [|reflexivity].
    by apply (fromOptions_twice o' (packets.VersionPacket.remote this)). }
  cbn. f_equal.
  destruct (packets.VersionPacket.o_version o), (packets.VersionPacket.o_services o),
    (packets.VersionPacket.o_time o), (packets.VersionPacket.o_nonce o),
    (packets.VersionPacket.o_height o), (packets.VersionPacket.o_noRelay o);
    cbn;
    (destruct (packets.VersionPacket.o_agent o) as [s|]; [|reflexivity]);
    destruct (String.eqb s ""); reflexivity.
Qed.

Lemma VersionPacket_fromOptions_merge_witness :
  let o := packets.VersionPacket.mkOptions (Some 70016) None None (Some Example.options)
             None (Some EmptyString) None (Some false) in
  exists this',
    packets.VersionPacket.fromOptions (ip := SampleIP.binet) o Example.version = OK this'
    /\ packets.VersionPacket.agent this' = Some "test-agent"
    /\ packets.VersionPacket.fromOptions (ip := SampleIP.binet) o this' = OK this'.
Proof.
  intros o. eexists. split; [reflexivity|]. split; [reflexivity|].
  eapply (proj2 (proj2 (VersionPacket_fromOptions_merge (ip := SampleIP.binet) o
                          Example.version _ eq_refl))).
Defined.

(** ** Lookups in the registry *)

Lemma property_is_Some {A} (obj : list (string * A)) (k : string) :
  is_Some (packets.property obj k) <-> k ∈ map fst obj.
Proof.
  induction obj as [|[k' v] obj IH]; simpl.
  - split; [intros [? [=]] | intros H; inversion H].
  - destruct (String.eqb_spec k k') as [->|Hne].
    + split; [intros _; left | intros _; eauto].
    + rewrite IH. split; [by right | intros H; inversion H; [contradiction | assumption]].
Qed.

(** X23: the two tables list the same 33 names in the same order;
    typesByVal[code] is defined exactly for the codes 0 to 32;
    types[name] is a number, the code of the name, exactly when the
    name is one of the 33; for a name that every object inherits, such
    as toString or constructor, types[name] is defined and is no
    code. *)
Theorem registry_lookups (code : Z) (name : string) :
  map fst packets.types = packets.typesByVal
  /\ (is_Some (packets.nameOf code) <-> 0 <= code <= 32)
  /\ ((exists c, packets.types_get name = packets.Own c) <-> name ∈ packets.typesByVal)
  /\ (forall c, packets.types_get name = packets.Own c <-> packets.codeOf name = Some c)
  /\ (name ∈ packets.Object_prototype -> packets.types_get name = packets.Inherited).
Proof.
  split; [reflexivity|]. split; [|split; [|split]].
  - unfold packets.nameOf. destruct (Z.ltb_spec code 0).
    + split; [intros [? [=]] | lia].
    + rewrite lookup_lt_is_Some. change (length packets.typesByVal) with 33%nat. lia.
  - change packets.typesByVal with (map fst packets.types).
    rewrite <- property_is_Some. unfold packets.types_get.
    destruct (packets.property packets.types name) as [c|].
    + split; eauto.
    + split; [|intros [? [=]]]. intros [c Hc]. by case_bool_decide.
  - intros c. unfold packets.types_get, packets.codeOf.
    destruct (packets.property packets.types name) as [c'|].
    + split; intros [= ->]; reflexivity.
    + split; [|discriminate]. by case_bool_decide.
  - intros Hin. unfold packets.Object_prototype in Hin.
    repeat (apply elem_of_cons in Hin as [->|Hin]; [reflexivity|]).
    by apply elem_of_nil in Hin.
Qed.

Lemma registry_lookups_witness :
  packets.types_get "toString" = packets.Inherited
  /\ packets.types_get "VERSION" = packets.Own 0.
Proof.
  split; [|reflexivity].
  apply (proj2 (proj2 (proj2 (proj2 (registry_lookups 0 "toString"))))).
  apply list_elem_of_In. simpl. auto 10.
Defined.

(** ** What fromJSON stores *)

Lemma hex_value_range (c : ascii) (v : Z) : hex_value c = Some v -> 0 <= v < 16.
Proof.
  unfold hex_value.
  repeat match goal with
  | |- context [if ?c then _ else _] => destruct c eqn:?
  end; intros [= <-]; reflect_tests; lia.
Qed.

Lemma Buffer_from_hex_shape (s : string) :
  is_bytes (Buffer_from_hex s)
  /\ (2 * length (Buffer_from_hex s) <= String.length s)%nat.
Proof.
  assert (forall n s, (String.length s <= n)%nat ->
            is_bytes (Buffer_from_hex s)
            /\ (2 * length (Buffer_from_hex s) <= String.length s)%nat) as H.
  { intros n. induction n as [|n IH]; intros [|c1 [|c2 rest]] Hn;
      try (split; [constructor | simpl; lia]); try (simpl in Hn; lia).
    cbn [Buffer_from_hex].
    destruct (hex_value c1) as [h|] eqn:H1; [|split; [constructor | simpl; lia]].
    destruct (hex_value c2) as [l|] eqn:H2; [|split; [constructor | simpl; lia]].
    apply hex_value_range in H1, H2.
    simpl in Hn. destruct (IH rest) as [Hb Hl]; [lia|].
    split; [constructor; [unfold is_byte; lia | exact Hb] | simpl; lia]. }
  by apply (H (String.length s)).
Qed.

(** X24: a record returned by fromJSON has the host string of the JSON
    form as it stands, the raw address parsed from it, a port within
    0..65535, services and time below 2^32 and a current hostname; its
    key is the decoded prefix of the key string.  None of the tests of
    fromJSON looks at the length of the key, but the composition of the
    hostname refuses a key that has not 33 bytes (the assertion of
    IP.toHostname, the hypothesis), so the key has 33 bytes and the
    key string at least 66 characters. *)
Theorem fromJSON_record `{ip : IP.Binet}
    (Hkey33 : IP.toHostname_checks_key)
    (json : NetAddress.JSON) (this r : NetAddress.t)
    (Hret : NetAddress.fromJSON json this = OK r) :
  NetAddress.j_host json = JStr (NetAddress.host r)
  /\ IP.toBuffer (NetAddress.host r) = OK (NetAddress.raw r)
  /\ Spec.u16 (NetAddress.port r)
  /\ Spec.u32 (NetAddress.services r)
  /\ Spec.u32 (NetAddress.time r)
  /\ Spec.hostname_current r
  /\ exists s, NetAddress.j_key json = JStr s
       /\ NetAddress.key r = Buffer_from_hex s
       /\ is_bytes (NetAddress.key r)
       /\ length (NetAddress.key r) = 33%nat
       /\ (66 <= String.length s)%nat.
Proof.
  unfold NetAddress.fromJSON in Hret.
  step Hret as u1 by A1. apply assert_OK, and_is_self_u16 in A1 as (p & Hp & Hprange).
  step Hret as u2 by A2. apply assert_OK, ushr0_is_self_u32 in A2 as (sv & Hs & Hsrange).
  step Hret as u3 by A3. apply assert_OK, ushr0_is_self_u32 in A3 as (tm & Ht & Htrange).
  step Hret as u4 by A4. apply assert_OK, typeof_string in A4 as (k & Hk).
  step Hret as raw by E.
  destruct (NetAddress.j_host json) as [| | | |h| |] eqn:Hh; try discriminate E.
  cbn in E.
  apply refresh_hostname_OK in Hret as (Hname & Hhost & Hport & Hserv & Htime & Hraw & Hkey).
  assert (length (NetAddress.key r) = 33%nat) as Hlen.
  { destruct (decide (length (NetAddress.key r) = 33%nat)) as [|Hne]; [assumption|].
    unfold Spec.hostname_current in Hname.
    rewrite (Hkey33 _ _ _ Hne) in Hname. discriminate. }
  rewrite Hp, Hs, Ht, Hk in *. cbn in *.
  rewrite Hkey in Hlen. rewrite Hhost, Hraw, Hport, Hserv, Htime, Hkey.
  split; [reflexivity|]. split; [exact E|]. split; [exact Hprange|].
  split; [exact Hsrange|]. split; [exact Htrange|]. split; [exact Hname|].
  exists k. split; [reflexivity|]. split; [reflexivity|].
  destruct (Buffer_from_hex_shape k) as [Hb Hl].
  split; [exact Hb|]. split; [exact Hlen | lia].
Qed.

Lemma fromJSON_record_witness :
  let key := toString_hex (replicate 33 10) +:+ "zz0c" in
  exists r,
    NetAddress.fromJSON (ip := SampleIP.binet)
      (NetAddress.mkJSON (JStr "127.0.0.1") (JNum 8333) (JNum 0) (JNum 0) (JStr key))
      (NetAddress.init (ip := SampleIP.binet)) = OK r
    /\ NetAddress.key r = replicate 33 10
    /\ Spec.hostname_current (ip := SampleIP.binet) r.
Proof.
  intros key. eexists. split; [vm_compute; reflexivity|]. split; [reflexivity|].
  eapply (fromJSON_record (ip := SampleIP.binet) SampleIP_checks_key
            (NetAddress.mkJSON (JStr "127.0.0.1") (JNum 8333) (JNum 0) (JNum 0) (JStr key))
            (NetAddress.init (ip := SampleIP.binet))).
  vm_compute. reflexivity.
Defined.

(** ** An agent that does not fit its length byte *)



